(** * Ad-library pipeline: duration parsing, media classification, scoring,
      ranking and the per-stage record loops

    A shallow embedding of [src/utils/enricher.py], [src/utils/ranker.py],
    [src/schemas/ads.py], [src/normalize/normalize_ads.py],
    [src/enrich/enrich_ads.py] and [src/rank/rank_ads.py].

    Conventions of the embedding.
    - A Python [str] is a Rocq [string] whose characters are read as the code
      points 0..255.  On that range [\d] is [0-9], [\s] is the Unicode
      white space below 256, and [re.IGNORECASE] on an ASCII letter adds the
      letter of the other case and nothing else.
    - A Python [float] is a primitive binary64 float; [int] is [Z].
    - A raised exception is the left injection of [result]; the [try/except]
      blocks of the source are written out as matches on it.
    - A [dict] is a [gmap string pyval]. *)

From Stdlib Require Import ZArith String Ascii Floats List Bool Lia.
From stdpp Require Import gmap strings list sorting.

Set Warnings "-inexact-float,-register-all".
Local Open Scope string_scope.
Local Open Scope Z_scope.

(** ** Exceptions *)

Inductive exn :=
| JSONDecodeError
| ValidationError
| AttributeError
| TypeError
| ValueError
| OverflowError
| FileNotFoundError
| LangDetectException
| UnicodeDecodeError
| OSError
| RuntimeError (cause : exn).

Definition result (A : Type) : Type := exn + A.

Definition ret {A} (a : A) : result A := inr a.
Definition raise {A} (e : exn) : result A := inl e.
Definition bind {A B} (m : result A) (f : A -> result B) : result B :=
  match m with
  | inl e => inl e
  | inr a => f a
  end.

Notation "'let*' x ':=' m 'in' k" := (bind m (fun x => k))
  (at level 10, x name, m at level 100, k at level 200).

Definition raises {A} (m : result A) : Prop := exists e, m = inl e.

(** ** Characters *)

Definition code (c : ascii) : Z := Z.of_N (N_of_ascii c).

(** [\d] on code points below 256. *)
Definition is_digit (c : ascii) : bool := (48 <=? code c) && (code c <=? 57).

(** [\s] and [str.isspace] on code points below 256. *)
Definition is_space (c : ascii) : bool :=
  let n := code c in
  ((9 <=? n) && (n <=? 13)) || ((28 <=? n) && (n <=? 32))
  || (n =? 133) || (n =? 160).

Definition to_lower (c : ascii) : ascii :=
  let n := code c in
  if (65 <=? n) && (n <=? 90) then ascii_of_N (Z.to_N (n + 32)) else c.

(** A literal lower-case letter of a pattern compiled with [re.IGNORECASE]. *)
Definition ichar (l c : ascii) : bool := Ascii.eqb (to_lower c) l.

Definition digit_value (c : ascii) : Z := code c - 48.

(** ** Regular expressions

    The fragment of [re] that the patterns of [parse_duration] use, with the
    backtracking matcher of [re]: greedy repetition, leftmost match. *)
Module Re.

Inductive regex :=
| Class (p : ascii -> bool)
| Star (p : ascii -> bool)
| Cat (r1 r2 : regex)
| Opt (r : regex)
| Group (r : regex).

Definition Plus (p : ascii -> bool) : regex := Cat (Class p) (Star p).

Section Matcher.
Context {A : Type}.

(** Greedy [p*]: take as many characters as possible, give one back at
    a time while the rest of the pattern fails. *)
Fixpoint star (p : ascii -> bool) (s : string) (k : string -> option A)
  : option A :=
  match s with
  | String c s' =>
      if p c then
        match star p s' k with
        | Some a => Some a
        | None => k s
        end
      else k s
  | EmptyString => k s
  end.

(** The text a group consumed: what [s] has before its suffix [s']. *)
Definition consumed (s s' : string) : string :=
  substring 0 (String.length s - String.length s') s.

Fixpoint exec (r : regex) (s : string) (g : option string)
  (k : string -> option string -> option A) : option A :=
  match r with
  | Class p =>
      match s with
      | String c s' => if p c then k s' g else None
      | EmptyString => None
      end
  | Star p => star p s (fun s' => k s' g)
  | Cat r1 r2 => exec r1 s g (fun s' g' => exec r2 s' g' k)
  | Opt r =>
      match exec r s g k with
      | Some a => Some a
      | None => k s g
      end
  | Group r => exec r s g (fun s' _ => k s' (Some (consumed s s')))
  end.
End Matcher.

(** [re.match]: a match at the start of [s]; the value is group 1. *)
Definition match_here (r : regex) (s : string) : option (option string) :=
  exec r s None (fun _ g => Some g).

(** [re.search]: the match at the leftmost position that has one. *)
Fixpoint search (r : regex) (s : string) : option (option string) :=
  match match_here r s with
  | Some g => Some g
  | None =>
      match s with
      | String _ s' => search r s'
      | EmptyString => None
      end
  end.

End Re.

(** ** Numbers *)

Definition prec : Z := 53.
Definition emax : Z := 1024.

(** [int(s)] on a string of decimal digits, as [re] group 1 of [\d+] is.
    CPython refuses strings of more than 4300 digits. *)
Fixpoint digits_value (acc : Z) (s : string) : Z :=
  match s with
  | EmptyString => acc
  | String c s' => digits_value (10 * acc + digit_value c) s'
  end.

Definition int_max_str_digits : nat := 4300.

Definition py_int (s : string) : result Z :=
  if (int_max_str_digits <? String.length s)%nat then raise ValueError
  else ret (digits_value 0 s).

(** The conversion of an [int] operand in mixed arithmetic and in [float(n)]:
    nearest double, ties to even, [OverflowError] beyond the double range. *)
Definition int_to_float (n : Z) : result float :=
  match binary_normalize prec emax n 0 false with
  | S754_infinity _ => raise OverflowError
  | sf => ret (SF2Prim sf)
  end.

(** The integer nearest to [m * 2^e], ties to even. *)
Definition round_half_even (m e : Z) : Z :=
  if 0 <=? e then m * 2 ^ e
  else
    let d := 2 ^ (- e) in
    let q := m / d in
    let r := m mod d in
    match (2 * r) ?= d with
    | Lt => q
    | Gt => q + 1
    | Eq => if Z.even q then q else q + 1
    end.

(** The double nearest to [n / d], for [n >= 0] and [d > 0]. *)
Definition nearest_ratio (sign : bool) (n d : Z) : spec_float :=
  match n with
  | Z0 => S754_zero sign
  | _ =>
      let '(q, e, l) := SFdiv_core_binary prec emax n 0 d 0 in
      binary_round_aux prec emax sign q e l
  end.

(** [round(x, 2)] on a float: the decimal with two places nearest to the
    exact value of [x] (ties to even), read back as a double. *)
Definition round2 (x : float) : float :=
  match Prim2SF x with
  | S754_finite s m e =>
      SF2Prim (nearest_ratio s (round_half_even (Z.pos m * 100) e) 100)
  | _ => x
  end.


(** ** [src/utils/enricher.py] *)

(** [r"(\d+)\s*hrs?"] and [r"(\d+)\s*mins?"], compiled with [re.IGNORECASE]. *)
Definition hours_re : Re.regex :=
  Re.Cat (Re.Group (Re.Plus is_digit))
    (Re.Cat (Re.Star is_space)
       (Re.Cat (Re.Class (ichar "h"))
          (Re.Cat (Re.Class (ichar "r")) (Re.Opt (Re.Class (ichar "s")))))).

Definition minutes_re : Re.regex :=
  Re.Cat (Re.Group (Re.Plus is_digit))
    (Re.Cat (Re.Star is_space)
       (Re.Cat (Re.Class (ichar "m"))
          (Re.Cat (Re.Class (ichar "i"))
             (Re.Cat (Re.Class (ichar "n")) (Re.Opt (Re.Class (ichar "s"))))))).

(** [int(m.group(1))] when [m] is a match, the initial [0] otherwise. *)
Definition quantity (m : option (option string)) : result Z :=
  match m with
  | None => ret 0
  | Some (Some digits) => py_int digits
  | Some None => raise TypeError
  end.

Definition parse_duration (text : option string) : result float :=
  match text with
  | None => ret 0.0%float
  | Some "" => ret 0.0%float
  | Some text =>
      let* hours := quantity (Re.search hours_re text) in
      let* minutes := quantity (Re.search minutes_re text) in
      let* m := int_to_float minutes in
      let* h := int_to_float hours in
      ret (round2 (h + m / 60.0)%float)
  end.


Definition get_media_type (media_list : option (list string)) : string :=
  match media_list with
  | None => "none"
  | Some [] => "none"
  | Some media_list =>
      let media_set : gset string := list_to_set media_list in
      if bool_decide ("image" ∈ media_set) && bool_decide ("video" ∈ media_set)
      then "both"
      else if bool_decide ("image" ∈ media_set) then "image-only"
      else if bool_decide ("video" ∈ media_set) then "video-only"
      else "none"
  end.

(** [text.strip()] is empty. *)
Fixpoint blank (text : string) : bool :=
  match text with
  | EmptyString => true
  | String c text' => is_space c && blank text'
  end.

(** [detect] is langdetect's entry point, a parameter of the model. *)
Definition detect_language (detect : string -> result string) (text : string)
  : string :=
  if blank text then "unknown"
  else
    match detect text with
    | inr lang => lang
    | inl _ => "unknown"
    end.

(** ** Python values *)

Definition datetime : Type := Z.

Inductive pyval :=
| VNone
| VBool (b : bool)
| VInt (n : Z)
| VFloat (x : float)
| VStr (s : string)
| VList (l : list pyval)
| VDict (d : gmap string pyval)
| VDatetime (t : datetime).

Abbreviation dict := (gmap string pyval).

(** [d.get(key, default)] on a dict. *)
Definition dict_get (d : dict) (key : string) (default : pyval) : pyval :=
  match d !! key with
  | Some v => v
  | None => default
  end.

(** [v.get(key, default)] on any value: only a dict has the method. *)
Definition py_get (v : pyval) (key : string) (default : pyval) : result pyval :=
  match v with
  | VDict d => ret (dict_get d key default)
  | _ => raise AttributeError
  end.

(** [v == s] for a string literal [s]. *)
Definition eq_str (v : pyval) (s : string) : bool :=
  match v with
  | VStr s' => String.eqb s' s
  | _ => false
  end.

(** Truth value of what a record transform returns: [None] and the empty
    dict are false. *)
Definition truthy (r : option dict) : bool :=
  match r with
  | None => false
  | Some d => negb (bool_decide (d = ∅))
  end.

(** [float(v)]; [str_to_float] is Python's parser of float literals. *)
Definition py_float (str_to_float : string -> result float) (v : pyval)
  : result float :=
  match v with
  | VFloat x => ret x
  | VInt n => int_to_float n
  | VBool b => ret (if b then 1.0 else 0.0)%float
  | VStr s => str_to_float s
  | _ => raise TypeError
  end.

(** ** [src/utils/ranker.py] *)

Definition media_multipliers : gmap string float :=
  <["both" := 1.2%float]>
    (<["video-only" := 1.1%float]>
       (<["image-only" := 1.0%float]> (<["none" := 0.5%float]> ∅))).

Section Ranker.
(** [str(v)] and the parser behind [float(s)]: Python built-ins. *)
Variable py_str : pyval -> string.
Variable str_to_float : string -> result float.
(** [sorted(..., reverse=True)] on the records paired with their keys; it
    compares the keys only. *)
Variable sort_reverse : list (float * dict) -> list (float * dict).

Definition proxy_score (ad : dict) : result float :=
  let* base_duration :=
    py_float str_to_float (dict_get ad "duration_hours" (VFloat 0.0)) in
  let media_type := py_str (dict_get ad "media_type" (VStr "none")) in
  let multiplier := default 1.0%float (media_multipliers !! media_type) in
  ret (base_duration * multiplier)%float.

(** The keys that [sorted(..., key=proxy_score)] computes before sorting. *)
Fixpoint keyed (ads_list : list dict) : result (list (float * dict)) :=
  match ads_list with
  | [] => ret []
  | ad :: rest =>
      let* k := proxy_score ad in
      let* krest := keyed rest in
      ret ((k, ad) :: krest)
  end.

(** The stable descending sort: a record goes in front of the records
    after it that do not have a greater key.  On keys that [<] orders
    totally, which keys without NaN are, it is what
    [sorted(..., reverse=True)] returns; the statements that depend on the
    order take this as the contract of [sort_reverse]. *)
Fixpoint insert_desc (x : float * dict) (l : list (float * dict))
  : list (float * dict) :=
  match l with
  | [] => [x]
  | y :: l' =>
      if (x.1 <? y.1)%float then y :: insert_desc x l' else x :: l
  end.

Definition sorted_desc (l : list (float * dict)) : list (float * dict) :=
  foldr insert_desc [] l.

Definition top_10_ads (ads_list : list dict) : result (list dict) :=
  match ads_list with
  | [] => ret []
  | _ =>
      let* ks := keyed ads_list in
      let sorted_ads := (sort_reverse ks).*2 in
      ret (take 10 sorted_ads)
  end.
End Ranker.

(** ** [src/schemas/ads.py]

    Validation is pydantic's default (lax) mode on values that came out of
    [json.loads] or were built by the caller.  [validate_datetime] and
    [str_to_float] stand for pydantic's own parsers. *)

Definition validate_str (v : pyval) : result string :=
  match v with
  | VStr s => ret s
  | _ => raise ValidationError
  end.

Definition validate_opt_str (v : pyval) : result (option string) :=
  match v with
  | VNone => ret None
  | VStr s => ret (Some s)
  | _ => raise ValidationError
  end.

Fixpoint validate_strs (l : list pyval) : result (list string) :=
  match l with
  | [] => ret []
  | v :: l' =>
      let* s := validate_str v in
      let* ss := validate_strs l' in
      ret (s :: ss)
  end.

Definition validate_list_str (v : pyval) : result (list string) :=
  match v with
  | VList l => validate_strs l
  | _ => raise ValidationError
  end.

Definition validate_float (str_to_float : string -> result float) (v : pyval)
  : result float :=
  match v with
  | VFloat x => ret x
  | VInt n =>
      match int_to_float n with
      | inr x => ret x
      | inl _ => raise ValidationError
      end
  | VBool b => ret (if b then 1.0 else 0.0)%float
  | VStr s =>
      match str_to_float s with
      | inr x => ret x
      | inl _ => raise ValidationError
      end
  | _ => raise ValidationError
  end.

(** A field declared with [Field(...)]: required. *)
Definition required {A} (validate : pyval -> result A) (kw : dict)
  (name : string) : result A :=
  match kw !! name with
  | Some v => validate v
  | None => raise ValidationError
  end.

(** A field declared with a default. *)
Definition optional {A} (validate : pyval -> result A) (kw : dict)
  (name : string) (dflt : A) : result A :=
  match kw !! name with
  | Some v => validate v
  | None => ret dflt
  end.

Definition strs (l : list string) : pyval := VList (VStr <$> l).

Definition opt_str (o : option string) : pyval :=
  match o with
  | Some s => VStr s
  | None => VNone
  end.

Module AdNormalizedSchema.
Record t := {
  ad_id : string;
  ad_text : string;
  active : option string;
  media : list string;
  country : string;
  normalized_at : datetime
}.

(** The constructor called with the keyword arguments [kw]; [now] is what
    [datetime.now] answers. *)
Definition make (validate_datetime : pyval -> result datetime)
  (now : datetime) (kw : dict) : result t :=
  let* ad_id := required validate_str kw "ad_id" in
  let* ad_text := required validate_str kw "ad_text" in
  let* active := optional validate_opt_str kw "active" None in
  let* media := optional validate_list_str kw "media" [] in
  let* country := required validate_str kw "country" in
  let* normalized_at := optional validate_datetime kw "normalized_at" now in
  ret {| ad_id := ad_id; ad_text := ad_text; active := active;
         media := media; country := country;
         normalized_at := normalized_at |}.

Definition model_dump (x : t) : dict :=
  <["ad_id" := VStr (ad_id x)]>
    (<["ad_text" := VStr (ad_text x)]>
       (<["active" := opt_str (active x)]>
          (<["media" := strs (media x)]>
             (<["country" := VStr (country x)]>
                (<["normalized_at" := VDatetime (normalized_at x)]> ∅))))).
End AdNormalizedSchema.

Module AdEnrichedSchema.
Record t := {
  ad_id : string;
  ad_text : string;
  active : option string;
  media : list string;
  country : string;
  duration_hours : float;
  media_type : string;
  language : option string;
  enriched_at : datetime
}.

(** The constructor called with the keyword arguments [kw]. *)
Definition make (validate_datetime : pyval -> result datetime)
  (str_to_float : string -> result float) (now : datetime) (kw : dict)
  : result t :=
  let* ad_id := required validate_str kw "ad_id" in
  let* ad_text := required validate_str kw "ad_text" in
  let* active := optional validate_opt_str kw "active" None in
  let* media := optional validate_list_str kw "media" [] in
  let* country := required validate_str kw "country" in
  let* duration_hours :=
    required (validate_float str_to_float) kw "duration_hours" in
  let* media_type := required validate_str kw "media_type" in
  let* language :=
    optional validate_opt_str kw "language" (Some "unknown") in
  let* enriched_at := optional validate_datetime kw "enriched_at" now in
  ret {| ad_id := ad_id; ad_text := ad_text; active := active;
         media := media; country := country;
         duration_hours := duration_hours; media_type := media_type;
         language := language; enriched_at := enriched_at |}.

Definition model_dump (x : t) : dict :=
  <["ad_id" := VStr (ad_id x)]>
    (<["ad_text" := VStr (ad_text x)]>
       (<["active" := opt_str (active x)]>
          (<["media" := strs (media x)]>
             (<["country" := VStr (country x)]>
                (<["duration_hours" := VFloat (duration_hours x)]>
                   (<["media_type" := VStr (media_type x)]>
                      (<["language" := opt_str (language x)]>
                         (<["enriched_at" := VDatetime (enriched_at x)]>
                            ∅)))))))).
End AdEnrichedSchema.

(** ** The stages

    The file system is a map from paths to files.  A file holds lines of
    text, or content that reading in text mode refuses: bytes that do not
    decode, or a path that cannot be opened for reading.  Opening a path
    that is not in the map for reading raises [FileNotFoundError].
    Directories are not represented: whether the directory of an output
    path can be made and whether the path can be opened for writing is
    answered by the environment.  Logging is left out. *)

Inductive file :=
| Text (lines : list string)
| Undecodable
| Unreadable.

Abbreviation files := (gmap string file).
Abbreviation counters := (gmap string nat).

(** [with open(path) as file: for ... in enumerate(file, 1)]: the lines
    of the file.  The iterator decodes outside the handlers of the loop
    body, so a file that does not decode ends the loop with the exception,
    whatever was read before. *)
Definition read_lines (fs : files) (path : string) : result (list string) :=
  match fs !! path with
  | None => raise FileNotFoundError
  | Some (Text lines) => ret lines
  | Some Undecodable => raise UnicodeDecodeError
  | Some Unreadable => raise OSError
  end.

(** The handlers of a stage function: [except FileNotFoundError: raise]
    and [except Exception as e: raise RuntimeError(...) from e]. *)
Definition reraise (e : exn) : exn :=
  match e with
  | FileNotFoundError => FileNotFoundError
  | _ => RuntimeError e
  end.

Definition newline : string := String "010" "".

(** [stats[key] += 1] *)
Definition incr (key : string) (stats : counters) : counters :=
  <[key := S (default 0%nat (stats !! key))]> stats.

Section Pipeline.
(** Library functions and the environment. *)
Variable json_loads : string -> result pyval.
Variable json_dumps : dict -> string.
(** [pd.DataFrame(rows).to_csv(path, index=False)]: the lines it writes,
    or the exception of a row that it cannot encode. *)
Variable to_csv : list dict -> result (list string).
Variable detect : string -> result string.
Variable py_str : pyval -> string.
Variable str_to_float : string -> result float.
Variable validate_datetime : pyval -> result datetime.
(** [now n]: the clock when the record of line [n] is built. *)
Variable now : nat -> datetime.
(** The clock at the start of the run, formatted by [strftime]. *)
Variable timestamp : string.
Variable sort_reverse : list (float * dict) -> list (float * dict).
(** [Path(path).parent.mkdir(parents=True, exist_ok=True)] and
    [open(path, "w")]. *)
Variable mkdir : string -> result unit.
Variable open_w : string -> result unit.
(** The files after [to_csv] has failed on a path: what it leaves there is
    not specified. *)
Variable failed_write : files -> string -> files.

(** *** [src/normalize/normalize_ads.py] *)

Definition _normalize_mock_record (now_ : datetime) (raw_data : pyval)
  : result dict :=
  let* ad_id := py_get raw_data "ad_id" (VStr "") in
  let* ad_text := py_get raw_data "ad_text" (VStr "") in
  let* active := py_get raw_data "active" VNone in
  let* media := py_get raw_data "media" (VList []) in
  let* country := py_get raw_data "country" (VStr "") in
  let* normalized :=
    AdNormalizedSchema.make validate_datetime now_
      (<["ad_id" := ad_id]>
         (<["ad_text" := ad_text]>
            (<["active" := active]>
               (<["media" := media]> (<["country" := country]> ∅))))) in
  ret (AdNormalizedSchema.model_dump normalized).

Definition _normalize_api_record (now_ : datetime) (raw_data : pyval)
  : result dict :=
  let* ad_id := py_get raw_data "id" (VStr "") in
  let* ad_text := py_get raw_data "ad_creative_body" (VStr "") in
  let* normalized :=
    AdNormalizedSchema.make validate_datetime now_
      (<["ad_id" := ad_id]>
         (<["ad_text" := ad_text]>
            (<["active" := VNone]>
               (<["media" := VList []]> (<["country" := VStr "US"]> ∅))))) in
  ret (AdNormalizedSchema.model_dump normalized).

Definition _normalize_single_record (raw_record : pyval) (line_num : nat)
  : result (option dict) :=
  let* raw_data := py_get raw_record "raw_data" (VDict ∅) in
  let* source := py_get raw_record "source" (VStr "unknown") in
  (* try *)
  let attempt : result (option dict) :=
    if eq_str source "mock" then
      let* r := _normalize_mock_record (now line_num) raw_data in ret (Some r)
    else if eq_str source "api" then
      let* r := _normalize_api_record (now line_num) raw_data in ret (Some r)
    else ret None in
  (* except Exception *)
  match attempt with
  | inr r => ret r
  | inl _ => ret None
  end.

(** The body of the loop of [_process_raw_data], with its handlers. *)
Definition normalize_step (line_num : nat) (line : string)
  (st : list dict * counters) : list dict * counters :=
  let '(normalized_data, stats) := st in
  (* try *)
  let attempt : result (option dict) :=
    let* raw_record := json_loads line in
    _normalize_single_record raw_record line_num in
  match attempt with
  | inr normalized_record =>
      if truthy normalized_record then
        match normalized_record with
        | Some r => ((normalized_data ++ [r])%list, incr "processed" stats)
        | None => (normalized_data, incr "skipped" stats)
        end
      else (normalized_data, incr "skipped" stats)
  (* except json.JSONDecodeError, except Exception *)
  | inl _ => (normalized_data, incr "skipped" stats)
  end.

(** [for line_num, line in enumerate(file, 1)], from line [line_num] on. *)
Fixpoint normalize_loop (line_num : nat) (lines : list string)
  (st : list dict * counters) : list dict * counters :=
  match lines with
  | [] => st
  | line :: rest =>
      normalize_loop (S line_num) rest (normalize_step line_num line st)
  end.

Definition _process_raw_data (fs : files) (input_path : string)
  : result (list dict * counters) :=
  let normalized_data := [] in
  let stats : counters := <["processed" := 0%nat]> (<["skipped" := 0%nat]> ∅) in
  let* lines := read_lines fs input_path in
  ret (normalize_loop 1 lines (normalized_data, stats)).

Definition _ensure_output_directory (output_path : string) : result unit :=
  mkdir output_path.

(** The lines are ASCII text, so once the path is open the writes go
    through. *)
Definition _write_normalized_data (normalized_data : list dict)
  (output_path : string) (fs : files) : result files :=
  let* opened := open_w output_path in
  ret (<[output_path :=
           Text ((fun item => json_dumps item ++ newline)
                   <$> normalized_data)]> fs).

(** The stage: what it returns or raises, and the files afterwards. *)
Definition normalize_ads (fs : files) (input_path : string)
  (output_path : option string) : result string * files :=
  let output_path :=
    match output_path with
    | None => "data/silver/ads_normalized_" ++ timestamp ++ ".jsonl"
    | Some p => p
    end in
  (* try *)
  let attempt : result files :=
    let* made := _ensure_output_directory output_path in
    let* processed := _process_raw_data fs input_path in
    let '(normalized_data, stats) := processed in
    _write_normalized_data normalized_data output_path fs in
  match attempt with
  | inr fs' => (ret output_path, fs')
  (* except FileNotFoundError: raise
     except Exception as e: raise RuntimeError(...) from e *)
  | inl e => (raise (reraise e), fs)
  end.

(** *** [src/enrich/enrich_ads.py] *)

Definition _enrich_single_record (normalized_ad : AdNormalizedSchema.t)
  (line_num : nat) : result dict :=
  let* duration_hours :=
    parse_duration (AdNormalizedSchema.active normalized_ad) in
  let media_type :=
    get_media_type (Some (AdNormalizedSchema.media normalized_ad)) in
  let language :=
    detect_language detect (AdNormalizedSchema.ad_text normalized_ad) in
  let* enriched_ad :=
    AdEnrichedSchema.make validate_datetime str_to_float (now line_num)
      (<["ad_id" := VStr (AdNormalizedSchema.ad_id normalized_ad)]>
         (<["ad_text" := VStr (AdNormalizedSchema.ad_text normalized_ad)]>
            (<["active" := opt_str (AdNormalizedSchema.active normalized_ad)]>
               (<["media" := strs (AdNormalizedSchema.media normalized_ad)]>
                  (<["country" :=
                       VStr (AdNormalizedSchema.country normalized_ad)]>
                     (<["duration_hours" := VFloat duration_hours]>
                        (<["media_type" := VStr media_type]>
                           (<["language" := VStr language]> ∅)))))))) in
  ret (AdEnrichedSchema.model_dump enriched_ad).

(** Unpacking [json.loads(line)] as keyword arguments needs a dict. *)
Definition kwargs (v : pyval) : result dict :=
  match v with
  | VDict d => ret d
  | _ => raise TypeError
  end.

(** The body of the loop of [_process_normalized_data]. *)
Definition enrich_step (line_num : nat) (line : string)
  (st : list dict * counters) : list dict * counters :=
  let '(enriched_data, stats) := st in
  (* try *)
  let attempt : result dict :=
    let* v := json_loads line in
    let* kw := kwargs v in
    let* normalized_ad :=
      AdNormalizedSchema.make validate_datetime (now line_num) kw in
    _enrich_single_record normalized_ad line_num in
  match attempt with
  | inr enriched_record =>
      if truthy (Some enriched_record) then
        ((enriched_data ++ [enriched_record])%list, incr "processed" stats)
      else (enriched_data, incr "errors" stats)
  (* except json.JSONDecodeError, except Exception *)
  | inl _ => (enriched_data, incr "errors" stats)
  end.

Fixpoint enrich_loop (line_num : nat) (lines : list string)
  (st : list dict * counters) : list dict * counters :=
  match lines with
  | [] => st
  | line :: rest =>
      enrich_loop (S line_num) rest (enrich_step line_num line st)
  end.

Definition _process_normalized_data (fs : files) (input_path : string)
  : result (list dict * counters) :=
  let enriched_data := [] in
  let stats : counters := <["processed" := 0%nat]> (<["errors" := 0%nat]> ∅) in
  let* lines := read_lines fs input_path in
  ret (enrich_loop 1 lines (enriched_data, stats)).

Definition _write_enriched_data (enriched_data : list dict)
  (output_path : string) (fs : files) : result files :=
  let* opened := open_w output_path in
  ret (<[output_path :=
           Text ((fun item => json_dumps item ++ newline)
                   <$> enriched_data)]> fs).

Definition enrich_ads (fs : files) (input_path : string)
  (output_path : option string) : result string * files :=
  let output_path :=
    match output_path with
    | None => "data/gold/ads_enriched_" ++ timestamp ++ ".jsonl"
    | Some p => p
    end in
  (* try *)
  let attempt : result files :=
    let* made := _ensure_output_directory output_path in
    let* processed := _process_normalized_data fs input_path in
    let '(enriched_data, stats) := processed in
    _write_enriched_data enriched_data output_path fs in
  match attempt with
  | inr fs' => (ret output_path, fs')
  (* except FileNotFoundError: raise
     except Exception as e: raise RuntimeError(...) from e *)
  | inl e => (raise (reraise e), fs)
  end.

(** *** [src/rank/rank_ads.py] *)

(** The body of the loop of [_load_enriched_ads]. *)
Definition load_step (line_num : nat) (line : string)
  (st : list dict * counters) : list dict * counters :=
  let '(ads_data, stats) := st in
  (* try *)
  let attempt : result AdEnrichedSchema.t :=
    let* v := json_loads line in
    let* kw := kwargs v in
    AdEnrichedSchema.make validate_datetime str_to_float (now line_num) kw in
  match attempt with
  | inr ad =>
      ((ads_data ++ [AdEnrichedSchema.model_dump ad])%list,
       incr "processed" stats)
  (* except json.JSONDecodeError, except Exception *)
  | inl _ => (ads_data, incr "errors" stats)
  end.

Fixpoint load_loop (line_num : nat) (lines : list string)
  (st : list dict * counters) : list dict * counters :=
  match lines with
  | [] => st
  | line :: rest => load_loop (S line_num) rest (load_step line_num line st)
  end.

Definition _load_enriched_ads (fs : files) (input_path : string)
  : result (list dict * counters) :=
  let ads_data := [] in
  let stats : counters := <["processed" := 0%nat]> (<["errors" := 0%nat]> ∅) in
  let* lines := read_lines fs input_path in
  ret (load_loop 1 lines (ads_data, stats)).

(** The directory is made, then
    [pd.DataFrame(top_ads).to_csv(output_csv, index=False)] writes the
    table; the second component is the files afterwards. *)
Definition _save_ranking_results (top_ads : list dict) (output_csv : string)
  (fs : files) : result unit * files :=
  match mkdir output_csv with
  | inl e => (raise e, fs)
  | inr _ =>
      match to_csv top_ads with
      | inl e => (raise e, failed_write fs output_csv)
      | inr rows => (ret tt, <[output_csv := Text rows]> fs)
      end
  end.

Definition rank_ads (fs : files) (input_path : string)
  (output_csv : option string) : result string * files :=
  let output_csv :=
    match output_csv with
    | None => "data/gold/top10_ads_" ++ timestamp ++ ".csv"
    | Some p => p
    end in
  (* try *)
  let attempt : result unit * files :=
    match _load_enriched_ads fs input_path with
    | inl e => (raise e, fs)
    | inr (ads_data, stats) =>
        match ads_data with
        | [] => (ret tt, fs)   (* if not ads_data: return output_csv *)
        | _ =>
            match top_10_ads py_str str_to_float sort_reverse ads_data with
            | inl e => (raise e, fs)
            | inr top_ads => _save_ranking_results top_ads output_csv fs
            end
        end
    end in
  match attempt with
  | (inr _, fs') => (ret output_csv, fs')
  (* except FileNotFoundError: raise
     except Exception as e: raise RuntimeError(...) from e *)
  | (inl e, fs') => (raise (reraise e), fs')
  end.
End Pipeline.

(** ** Reference definitions used in the statements *)

(** The multiplier table as the scorer's description gives it. *)
Definition multiplier (media_type : string) : float :=
  if String.eqb media_type "both" then 1.2%float
  else if String.eqb media_type "video-only" then 1.1%float
  else if String.eqb media_type "image-only" then 1.0%float
  else if String.eqb media_type "none" then 0.5%float
  else 1.0%float.

(** A record's [duration_hours] is the float [d], or the field is missing
    and [d] is the default. *)
Definition has_duration (ad : dict) (d : float) : Prop :=
  ad !! "duration_hours" = Some (VFloat d)
  \/ (ad !! "duration_hours" = None /\ d = 0.0%float).

(** A concrete environment, to run the model on examples. *)
Module Sample.
Definition py_str (v : pyval) : string :=
  match v with
  | VStr s => s
  | VNone => "None"
  | VBool true => "True"
  | VBool false => "False"
  | _ => "<object>"
  end.

Definition str_to_float (s : string) : result float := raise ValueError.

Definition ad (d : float) (m : string) : dict :=
  <["duration_hours" := VFloat d]> (<["media_type" := VStr m]> ∅).
End Sample.

(** The order the ranking is sorted by, on keyed records and on scores. *)
Definition ge_key (p q : float * dict) : Prop := (q.1 <=? p.1)%float = true.
Definition ge_score (a b : float) : Prop := (b <=? a)%float = true.

(** The contract of [sorted(..., reverse=True)] on keys without NaN, which
    [<] orders totally: the result is the stable descending sort. *)
Definition sorts_stably
  (sort_reverse : list (float * dict) -> list (float * dict)) : Prop :=
  forall ks, Forall (fun p => is_nan p.1 = false) ks ->
             sort_reverse ks = sorted_desc ks.

(** What [keyed] pairs a record with: its score, which is not NaN. *)
Definition well_keyed (py_str : pyval -> string)
  (str_to_float : string -> result float) (p : float * dict) : Prop :=
  proxy_score py_str str_to_float p.2 = ret p.1 /\ is_nan p.1 = false.

Module Sample2.
Definition ads : list dict :=
  [Sample.ad 2.0 "image-only"; Sample.ad 3.0 "video-only";
   Sample.ad 1.0 "both"].

(** Thirteen records with the scores 0, 1, 2, 3, 0, 1, ...: record [i]
    scores [i mod 4]. *)
Definition tied (i : Z) : dict :=
  <["ad_id" := VInt i]>
    (Sample.ad (match i mod 4 with
                | 0 => 0.0 | 1 => 1.0 | 2 => 2.0 | _ => 3.0
                end)%float "image-only").

Definition ties : list dict := tied <$> seqZ 0 13.
End Sample2.

(** *** Shapes of text *)

(** Every character of [s] satisfies [p]. *)
Fixpoint all_chars (p : ascii -> bool) (s : string) : bool :=
  match s with
  | EmptyString => true
  | String c s' => p c && all_chars p s'
  end.

(** A non-empty run of decimal digits, a run of white space, a text without
    digits. *)
Definition digits (s : string) : Prop :=
  s <> "" /\ all_chars is_digit s = true.
Definition spaces (s : string) : Prop := all_chars is_space s = true.
Definition no_digit (s : string) : Prop :=
  all_chars (fun c => negb (is_digit c)) s = true.

(** [s] without its longest prefix of characters in [p]. *)
Fixpoint skip (p : ascii -> bool) (s : string) : string :=
  match s with
  | String c s' => if p c then skip p s' else s
  | EmptyString => s
  end.

(** [s] starts with the lower-case word [w], ignoring case. *)
Fixpoint starts_with_i (w s : string) : bool :=
  match w, s with
  | EmptyString, _ => true
  | String l w', String c s' => ichar l c && starts_with_i w' s'
  | String _ _, EmptyString => false
  end.

(** [w] occurs somewhere in [s], ignoring case. *)
Fixpoint occurs_i (w s : string) : bool :=
  starts_with_i w s
  || match s with
     | String _ s' => occurs_i w s'
     | EmptyString => false
     end.

(** The quantity that starts [s]: digits, optional white space, then the
    unit [w]. *)
Definition qty_at (w s : string) : option string :=
  match s with
  | String c s0 =>
      if is_digit c then
        let s1 := skip is_digit s0 in
        if starts_with_i w (skip is_space s1)
        then Some (Re.consumed s s1) else None
      else None
  | EmptyString => None
  end.

(** The leftmost quantity of unit [w] in [s], if [s] has one. *)
Fixpoint first_qty (w s : string) : option string :=
  match qty_at w s with
  | Some d => Some d
  | None =>
      match s with
      | String _ s' => first_qty w s'
      | EmptyString => None
      end
  end.

(** [int] of the digits of a quantity; a unit without a quantity counts 0. *)
Definition read_int (q : option string) : result Z :=
  match q with
  | Some d => py_int d
  | None => ret 0
  end.

(** The last character of [s] is in [p]. *)
Fixpoint ends_in (p : ascii -> bool) (s : string) : bool :=
  match s with
  | EmptyString => false
  | String c s' =>
      match s' with
      | EmptyString => p c
      | String _ _ => ends_in p s'
      end
  end.

(** A quantity of unit [w] that follows [pre] is the leftmost one of the
    text: [pre] has no quantity of [w] and does not end with a digit, which
    would be read as part of the quantity. *)
Definition clear_of (w pre : string) : bool :=
  match first_qty w pre with
  | None => negb (ends_in is_digit pre)
  | Some _ => false
  end.

(** [s] is empty or starts with a character outside [p]. *)
Definition head_not (p : ascii -> bool) (s : string) : Prop :=
  match s with
  | String c _ => p c = false
  | EmptyString => True
  end.

(** The pattern of a unit word [w] with an optional plural [s], and the
    pattern of a quantity in that unit. *)
Fixpoint lit_re (w : string) (tail : Re.regex) : Re.regex :=
  match w with
  | EmptyString => tail
  | String l w' => Re.Cat (Re.Class (ichar l)) (lit_re w' tail)
  end.

Definition qty_re (w : string) : Re.regex :=
  Re.Cat (Re.Group (Re.Plus is_digit))
    (Re.Cat (Re.Star is_space) (lit_re w (Re.Opt (Re.Class (ichar "s"))))).

(** A unit word starts with a letter that is neither a digit nor white
    space. *)
Definition unit_word (w : string) : Prop :=
  match w with
  | String l _ =>
      forall c, is_digit c || is_space c = true -> ichar l c = false
  | EmptyString => False
  end.

(** [round(X + Y / 60.0, 2)] in double arithmetic, for integers [X], [Y]. *)
Definition hours_plus_minutes (X Y : Z) : result float :=
  let* m := int_to_float Y in
  let* h := int_to_float X in
  ret (round2 (h + m / 60.0)%float).

(** [n] copies of the digit 0. *)
Fixpoint zeros (n : nat) : string :=
  match n with
  | O => ""
  | S n' => String "0" (zeros n')
  end.

(** The fields a normalized record shares with its enriched record. *)
Definition carried_fields : list string :=
  ["ad_id"; "ad_text"; "active"; "media"; "country"].

(** A concrete environment for the stages. *)
Module Env.
Definition detect (text : string) : result string := ret "en".

Definition validate_datetime (v : pyval) : result datetime :=
  match v with
  | VDatetime t => ret t
  | VInt n => ret n
  | _ => raise ValidationError
  end.

Definition now (line_num : nat) : datetime := Z.of_nat line_num.

Definition timestamp : string := "20240101_120000".

Definition json_dumps (d : dict) : string :=
  match d !! "ad_id" with
  | Some (VStr s) => s
  | _ => "{}"
  end.

Definition to_csv (rows : list dict) : result (list string) :=
  ret ("ad_id" :: (json_dumps <$> rows)).

Definition mkdir (path : string) : result unit := ret tt.
Definition open_w (path : string) : result unit := ret tt.
Definition failed_write (fs : files) (path : string) : files := fs.

Definition mock_record : pyval :=
  VDict (<["source" := VStr "mock"]>
           (<["raw_data" :=
                VDict (<["ad_id" := VStr "a1"]>
                         (<["ad_text" := VStr "Hello World!"]>
                            (<["active" :=
                                 VStr "Active for 2 hrs 30 mins"]>
                               (<["media" := strs ["image"; "video"]]>
                                  (<["country" := VStr "US"]> ∅)))))]> ∅)).

Definition api_record : pyval :=
  VDict (<["source" := VStr "api"]>
           (<["raw_data" :=
                VDict (<["id" := VStr "api_123"]>
                         (<["ad_creative_body" := VStr "API test ad"]> ∅))]>
              ∅)).

Definition other_record : pyval :=
  VDict (<["source" := VStr "csv"]> (<["raw_data" := VDict ∅]> ∅)).

Definition normalized_record : pyval :=
  VDict (<["ad_id" := VStr "a1"]>
           (<["ad_text" := VStr "Hello World!"]>
              (<["active" := VStr "Active for 2 hrs 30 mins"]>
                 (<["media" := strs ["image"; "video"]]>
                    (<["country" := VStr "US"]>
                       (<["normalized_at" := VInt 7]> ∅)))))).

(** A stand-in for [json.loads] that knows four lines. *)
Definition json_loads (line : string) : result pyval :=
  if String.eqb line "mock" then ret mock_record
  else if String.eqb line "api" then ret api_record
  else if String.eqb line "other" then ret other_record
  else if String.eqb line "normalized" then ret normalized_record
  else raise JSONDecodeError.

Definition normalized_ad : AdNormalizedSchema.t :=
  {| AdNormalizedSchema.ad_id := "a1";
     AdNormalizedSchema.ad_text := "Hello World!";
     AdNormalizedSchema.active := Some "Active for 2 hrs 30 mins";
     AdNormalizedSchema.media := ["image"; "video"];
     AdNormalizedSchema.country := "US";
     AdNormalizedSchema.normalized_at := 7 |}.
End Env.

(** *** Shapes of raw lines *)

Definition is_str (v : pyval) : bool :=
  match v with
  | VStr _ => true
  | _ => false
  end.

(** The field is missing or holds a value that [ok] accepts. *)
Definition field_ok (ok : pyval -> bool) (d : dict) (key : string) : bool :=
  match d !! key with
  | Some v => ok v
  | None => true
  end.

Definition is_opt_str (v : pyval) : bool :=
  match v with
  | VNone => true
  | VStr _ => true
  | _ => false
  end.

Definition is_list_str (v : pyval) : bool :=
  match v with
  | VList l => forallb is_str l
  | _ => false
  end.

(** A mock payload: an object whose known fields have the types of the
    normalized layer. *)
Definition mock_payload (raw_data : pyval) : bool :=
  match raw_data with
  | VDict d =>
      field_ok is_str d "ad_id" && field_ok is_str d "ad_text"
      && field_ok is_opt_str d "active" && field_ok is_list_str d "media"
      && field_ok is_str d "country"
  | _ => false
  end.

Definition api_payload (raw_data : pyval) : bool :=
  match raw_data with
  | VDict d => field_ok is_str d "id" && field_ok is_str d "ad_creative_body"
  | _ => false
  end.

(** A well-formed raw record: source "mock" or "api" and a payload of that
    source. *)
Definition well_formed_raw (v : pyval) : bool :=
  match v with
  | VDict d =>
      let raw_data := dict_get d "raw_data" (VDict ∅) in
      let source := dict_get d "source" (VStr "unknown") in
      if eq_str source "mock" then mock_payload raw_data
      else if eq_str source "api" then api_payload raw_data
      else false
  | _ => false
  end.

(** A raw record whose source is neither "mock" nor "api". *)
Definition unknown_source (v : pyval) : bool :=
  match v with
  | VDict d =>
      let source := dict_get d "source" (VStr "unknown") in
      negb (eq_str source "mock") && negb (eq_str source "api")
  | _ => false
  end.

Definition good_line (json_loads : string -> result pyval) (line : string)
  : Prop :=
  exists v, json_loads line = ret v /\ well_formed_raw v = true.

(** Malformed JSON, or a record of an unknown source. *)
Definition bad_line (json_loads : string -> result pyval) (line : string)
  : Prop :=
  (exists e, json_loads line = raise e)
  \/ (exists v, json_loads line = ret v /\ unknown_source v = true).

(** The default output paths of the stages, and the path that a stage
    writes to. *)
Definition silver_path (timestamp : string) : string :=
  "data/silver/ads_normalized_" ++ timestamp ++ ".jsonl".
Definition gold_path (timestamp : string) : string :=
  "data/gold/ads_enriched_" ++ timestamp ++ ".jsonl".
Definition top10_path (timestamp : string) : string :=
  "data/gold/top10_ads_" ++ timestamp ++ ".csv".

(** The lines that the normalization and the enrichment stage write. *)
Definition jsonl (json_dumps : dict -> string) (data : list dict)
  : list string :=
  (fun item => json_dumps item ++ newline) <$> data.

(** A record without its time stamp. *)
Definition untimed (r : dict) : dict := delete "normalized_at" r.

Definition initial_stats : counters :=
  <["processed" := 0%nat]> (<["skipped" := 0%nat]> ∅).

Module Env2.
Definition fs_bad : files := <["in.jsonl" := Text ["not json"]]> ∅.
Definition fs_mixed : files :=
  <["in.jsonl" := Text ["mock"; "not json"; "api"]]> ∅.
(** An input whose bytes do not decode, and one valid enriched line. *)
Definition fs_undecodable : files := <["in.jsonl" := Undecodable]> ∅.
Definition fs_enriched : files := <["in.jsonl" := Text ["enriched"]]> ∅.

Definition enriched_record : pyval :=
  VDict (<["ad_id" := VStr "a1"]>
           (<["ad_text" := VStr "Hello World!"]>
              (<["country" := VStr "US"]>
                 (<["duration_hours" := VFloat 2.5]>
                    (<["media_type" := VStr "both"]> ∅))))).

Definition json_loads (line : string) : result pyval :=
  if String.eqb line "enriched" then ret enriched_record
  else Env.json_loads line.

(** A table writer that cannot encode its rows. *)
Definition to_csv (rows : list dict) : result (list string) :=
  raise ValueError.
End Env2.

(** The typed content of a validated value. *)
Definition str_of (v : pyval) : string :=
  match v with
  | VStr s => s
  | _ => ""
  end.

Definition opt_of (v : pyval) : option string :=
  match v with
  | VStr s => Some s
  | _ => None
  end.

Definition strs_of (v : pyval) : list string :=
  match v with
  | VList l => str_of <$> l
  | _ => []
  end.

(** The normalized record of a well-formed raw record, stamped [t]. *)
Definition expected_normalized (v : pyval) (t : datetime)
  : AdNormalizedSchema.t :=
  let d := match v with VDict d => d | _ => ∅ end in
  let rd :=
    match dict_get d "raw_data" (VDict ∅) with VDict rd => rd | _ => ∅ end in
  if eq_str (dict_get d "source" (VStr "unknown")) "mock" then
    {| AdNormalizedSchema.ad_id := str_of (dict_get rd "ad_id" (VStr ""));
       AdNormalizedSchema.ad_text := str_of (dict_get rd "ad_text" (VStr ""));
       AdNormalizedSchema.active := opt_of (dict_get rd "active" VNone);
       AdNormalizedSchema.media := strs_of (dict_get rd "media" (VList []));
       AdNormalizedSchema.country := str_of (dict_get rd "country" (VStr ""));
       AdNormalizedSchema.normalized_at := t |}
  else
    {| AdNormalizedSchema.ad_id := str_of (dict_get rd "id" (VStr ""));
       AdNormalizedSchema.ad_text :=
         str_of (dict_get rd "ad_creative_body" (VStr ""));
       AdNormalizedSchema.active := None;
       AdNormalizedSchema.media := [];
       AdNormalizedSchema.country := "US";
       AdNormalizedSchema.normalized_at := t |}.

(** What a line contributes to the output, without the time stamp. *)
Definition line_record (json_loads : string -> result pyval) (line : string)
  : dict :=
  match json_loads line with
  | inr v => untimed (AdNormalizedSchema.model_dump (expected_normalized v 0))
  | inl _ => ∅
  end.

(** *** The records of a raw file *)

(** The record that line [line_num] contributes, if it contributes one: the
    line parses to a well-formed raw record. *)
Definition normalized_line (json_loads : string -> result pyval)
  (now : nat -> datetime) (line_num : nat) (line : string) : option dict :=
  match json_loads line with
  | inr v =>
      if well_formed_raw v
      then Some (AdNormalizedSchema.model_dump
                   (expected_normalized v (now line_num)))
      else None
  | inl _ => None
  end.

(** The records of the lines from [line_num] on, in order. *)
Fixpoint normalized_lines (json_loads : string -> result pyval)
  (now : nat -> datetime) (line_num : nat) (lines : list string)
  : list dict :=
  match lines with
  | [] => []
  | line :: rest =>
      match normalized_line json_loads now line_num line with
      | Some r => r :: normalized_lines json_loads now (S line_num) rest
      | None => normalized_lines json_loads now (S line_num) rest
      end
  end.

(** The record [ad] scores [s]. *)
Definition scores (py_str : pyval -> string)
  (str_to_float : string -> result float) (s : float) (ad : dict) : bool :=
  match proxy_score py_str str_to_float ad with
  | inr x => (x =? s)%float
  | inl _ => false
  end.

(** [text] with its ASCII letters in lower case. *)
Fixpoint lower (text : string) : string :=
  match text with
  | EmptyString => EmptyString
  | String c text' => String (to_lower c) (lower text')
  end.

(** * Properties *)

(** ** Scorer *)

Lemma multipliers_lookup (m : string) :
  default 1.0%float (media_multipliers !! m) = multiplier m.
Proof.
  unfold multiplier, media_multipliers.
  destruct (String.eqb_spec m "both") as [->|H1]; [reflexivity|].
  destruct (String.eqb_spec m "video-only") as [->|H2]; [reflexivity|].
  destruct (String.eqb_spec m "image-only") as [->|H3]; [reflexivity|].
  destruct (String.eqb_spec m "none") as [->|H4]; [reflexivity|].
  rewrite !lookup_insert_ne by congruence. reflexivity.
Qed.

Lemma dict_get_duration (ad : dict) (d : float) :
  has_duration ad d -> dict_get ad "duration_hours" (VFloat 0.0) = VFloat d.
Proof.
  unfold dict_get. intros [-> | [-> ->]]; reflexivity.
Qed.

(** C5. The score is [duration_hours] times the multiplier of [media_type]:
    1.2 for "both", 1.1 for "video-only", 1.0 for "image-only", 0.5 for
    "none" and 1.0 for any other value; a missing [duration_hours] counts
    as 0.0.  The record (3.0, "video-only") scores 3.3 within 0.001 and the
    empty record scores 0.0. *)
Theorem proxy_score_formula
  (py_str : pyval -> string) (str_to_float : string -> result float)
  (Hstr : forall s, py_str (VStr s) = s) :
  (forall (ad : dict) (d : float) (m : string),
      has_duration ad d ->
      ad !! "media_type" = Some (VStr m) ->
      proxy_score py_str str_to_float ad = ret (d * multiplier m)%float)
  /\ multiplier "both" = 1.2%float
  /\ multiplier "video-only" = 1.1%float
  /\ multiplier "image-only" = 1.0%float
  /\ multiplier "none" = 0.5%float
  /\ (forall m, m <> "both" -> m <> "video-only" -> m <> "image-only" ->
                m <> "none" -> multiplier m = 1.0%float)
  /\ (exists s,
         proxy_score py_str str_to_float (Sample.ad 3.0 "video-only") = ret s
         /\ (abs (s - 3.3) <? 0.001)%float = true)
  /\ proxy_score py_str str_to_float ∅ = ret 0.0%float.
Proof.
  split; [|repeat split; try reflexivity].
  - intros ad d m Hd Hm. unfold proxy_score.
    rewrite (dict_get_duration _ _ Hd). simpl.
    unfold dict_get. rewrite Hm, Hstr, multipliers_lookup. reflexivity.
  - intros m H1 H2 H3 H4. unfold multiplier.
    repeat match goal with
           | |- context [String.eqb m ?k] =>
               destruct (String.eqb_spec m k); [congruence|]
           end.
    reflexivity.
  - exists (3.0 * 1.1)%float. split; [|reflexivity].
    unfold proxy_score, Sample.ad, dict_get.
    rewrite lookup_insert_eq. simpl.
    rewrite lookup_insert_ne, lookup_insert_eq by discriminate.
    rewrite Hstr. reflexivity.
  - unfold proxy_score, dict_get. rewrite !lookup_empty. simpl.
    rewrite Hstr. reflexivity.
Qed.

Lemma proxy_score_formula_witness :
  (forall s, Sample.py_str (VStr s) = s)
  /\ proxy_score Sample.py_str Sample.str_to_float (Sample.ad 1.5 "both")
     = ret (1.5 * multiplier "both")%float.
Proof.
  split; [reflexivity|].
  apply (proj1 (proxy_score_formula Sample.py_str Sample.str_to_float
                  (fun s => eq_refl))).
  - left. reflexivity.
  - reflexivity.
Defined.

(** C10. A record without the [media_type] key is scored with the
    multiplier of "none", 0.5, and not with the 1.0 of an unrecognised value;
    the record with only [duration_hours = 2.0] scores 1.0, not 2.0. *)
Theorem proxy_score_missing_media_type
  (py_str : pyval -> string) (str_to_float : string -> result float)
  (Hstr : forall s, py_str (VStr s) = s) :
  (forall (ad : dict) (d : float),
      has_duration ad d ->
      ad !! "media_type" = None ->
      proxy_score py_str str_to_float ad = ret (d * 0.5)%float)
  /\ proxy_score py_str str_to_float (<["duration_hours" := VFloat 2.0]> ∅)
     = ret 1.0%float
  /\ proxy_score py_str str_to_float (<["duration_hours" := VFloat 2.0]> ∅)
     <> ret 2.0%float.
Proof.
  assert (H : forall (ad : dict) (d : float),
             has_duration ad d -> ad !! "media_type" = None ->
             proxy_score py_str str_to_float ad = ret (d * 0.5)%float).
  { intros ad d Hd Hm. unfold proxy_score.
    rewrite (dict_get_duration _ _ Hd). simpl.
    unfold dict_get. rewrite Hm, Hstr. reflexivity. }
  split; [exact H|].
  assert (E : proxy_score py_str str_to_float
                (<["duration_hours" := VFloat 2.0]> ∅) = ret 1.0%float).
  { rewrite (H _ 2.0%float); [reflexivity| |reflexivity].
    left. reflexivity. }
  split; [exact E|]. rewrite E. intros Heq.
  apply (f_equal (fun r : result float =>
                    match r with
                    | inr x => (x =? 2.0)%float
                    | inl _ => false
                    end)) in Heq.
  vm_compute in Heq. discriminate Heq.
Qed.

Lemma proxy_score_missing_media_type_witness :
  (forall s, Sample.py_str (VStr s) = s)
  /\ proxy_score Sample.py_str Sample.str_to_float
       (<["duration_hours" := VFloat 4.0]> ∅) = ret (4.0 * 0.5)%float.
Proof.
  split; [reflexivity|].
  apply (proj1 (proxy_score_missing_media_type Sample.py_str
                  Sample.str_to_float (fun s => eq_refl))).
  - left. reflexivity.
  - reflexivity.
Defined.

(** ** Media classification *)

Lemma get_media_type_cases (l : list string) :
  get_media_type (Some l) =
    if bool_decide ("image" ∈ l) && bool_decide ("video" ∈ l) then "both"
    else if bool_decide ("image" ∈ l) then "image-only"
    else if bool_decide ("video" ∈ l) then "video-only"
    else "none".
Proof.
  destruct l as [|x l].
  - reflexivity.
  - unfold get_media_type. cbv zeta.
    rewrite !(bool_decide_ext _ _ (elem_of_list_to_set (C := gset string) _ _)).
    reflexivity.
Qed.

(** C4. The category depends only on which of the tags "image" and "video"
    occur: lists with the same elements get the same category, tags other
    than the two can be dropped, and the category is "both", "image-only",
    "video-only" or "none" as both, only the first, only the second or
    neither occurs; the empty and the absent list give "none". *)
Theorem get_media_type_spec :
  (forall l1 l2 : list string,
      (forall x, x ∈ l1 <-> x ∈ l2) ->
      get_media_type (Some l1) = get_media_type (Some l2))
  /\ (forall l : list string,
         get_media_type (Some l)
         = get_media_type
             (Some (filter (fun x => x = "image" \/ x = "video") l)))
  /\ (forall l : list string,
         "image" ∈ l -> "video" ∈ l -> get_media_type (Some l) = "both")
  /\ (forall l : list string,
         "image" ∈ l -> "video" ∉ l -> get_media_type (Some l) = "image-only")
  /\ (forall l : list string,
         "image" ∉ l -> "video" ∈ l -> get_media_type (Some l) = "video-only")
  /\ (forall l : list string,
         "image" ∉ l -> "video" ∉ l -> get_media_type (Some l) = "none")
  /\ get_media_type (Some []) = "none"
  /\ get_media_type None = "none".
Proof.
  repeat split; try reflexivity.
  - intros l1 l2 H. rewrite !get_media_type_cases.
    rewrite !(bool_decide_ext _ _ (H _)). reflexivity.
  - intros l. rewrite !get_media_type_cases.
    assert (E : forall t, t = "image" \/ t = "video" ->
              bool_decide (t ∈ l)
              = bool_decide
                  (t ∈ filter (fun x => x = "image" \/ x = "video") l)).
    { intros t Ht. apply bool_decide_ext. rewrite list_elem_of_filter. tauto. }
    rewrite <- !E by auto. reflexivity.
  - intros l Hi Hv. rewrite get_media_type_cases.
    rewrite !bool_decide_eq_true_2 by assumption. reflexivity.
  - intros l Hi Hv. rewrite get_media_type_cases.
    rewrite (bool_decide_eq_true_2 _ Hi), (bool_decide_eq_false_2 _ Hv).
    reflexivity.
  - intros l Hi Hv. rewrite get_media_type_cases.
    rewrite (bool_decide_eq_true_2 _ Hv), (bool_decide_eq_false_2 _ Hi).
    reflexivity.
  - intros l Hi Hv. rewrite get_media_type_cases.
    rewrite (bool_decide_eq_false_2 _ Hv), (bool_decide_eq_false_2 _ Hi).
    reflexivity.
Qed.

Example get_media_type_examples :
  get_media_type (Some ["video"; "image"]) = "both"
  /\ get_media_type (Some ["image"; "video"; "image"]) = "both"
  /\ get_media_type (Some ["audio"]) = "none"
  /\ get_media_type (Some ["image"; "audio"]) = "image-only".
Proof. repeat split; vm_compute; reflexivity. Qed.

(** ** Order of floats that are not NaN *)

Lemma SFcompare_antisym (x y : spec_float) (c : comparison) :
  SFcompare x y = Some c -> SFcompare y x = Some (CompOpp c).
Proof.
  destruct x as [sx|sx| |sx mx ex], y as [sy|sy| |sy my ey]; simpl;
    try discriminate; intros [= <-];
    try (destruct sx; reflexivity); try (destruct sy; reflexivity);
    try (destruct sx, sy; reflexivity).
  destruct sx, sy; simpl; try reflexivity;
    rewrite (Z.compare_antisym ex ey);
    destruct (ex ?= ey)%Z; simpl; try reflexivity.
  - rewrite CompOpp_involutive. f_equal.
    exact (Pos.compare_cont_antisym my mx Eq).
  - f_equal. symmetry. exact (Pos.compare_cont_antisym mx my Eq).
Qed.

Lemma SFcompare_defined (x y : spec_float) :
  is_Some (SFcompare x x) -> is_Some (SFcompare y y) ->
  is_Some (SFcompare x y).
Proof.
  destruct x, y; simpl; intros [? Hx] [? Hy]; try discriminate; eauto.
Qed.

Lemma not_nan_compare (x : float) :
  is_nan x = false -> is_Some (SFcompare (Prim2SF x) (Prim2SF x)).
Proof.
  unfold is_nan. rewrite FloatAxioms.eqb_spec. unfold SFeqb.
  destruct (SFcompare (Prim2SF x) (Prim2SF x)); [eauto | discriminate].
Qed.

(** On floats that are not NaN, [not (x < y)] is [y <= x]. *)
Lemma float_not_lt_ge (x y : float) :
  is_nan x = false -> is_nan y = false ->
  (x <? y)%float = false -> (y <=? x)%float = true.
Proof.
  intros Hx Hy. rewrite FloatAxioms.ltb_spec, FloatAxioms.leb_spec. unfold SFltb, SFleb.
  destruct (SFcompare_defined _ _ (not_nan_compare _ Hx) (not_nan_compare _ Hy))
    as [c Hc].
  rewrite Hc, (SFcompare_antisym _ _ _ Hc).
  destruct c; simpl; congruence.
Qed.

Lemma float_lt_le (x y : float) :
  (x <? y)%float = true -> (x <=? y)%float = true.
Proof.
  rewrite FloatAxioms.ltb_spec, FloatAxioms.leb_spec. unfold SFltb, SFleb.
  destruct (SFcompare (Prim2SF x) (Prim2SF y)) as [[]|]; congruence.
Qed.

(** ** Ranker *)

Section RankerFacts.
Variable py_str : pyval -> string.
Variable str_to_float : string -> result float.
Variable sort_reverse : list (float * dict) -> list (float * dict).
Hypothesis Hsort : sorts_stably sort_reverse.

Let score := proxy_score py_str str_to_float.

Lemma keyed_defined (ads : list dict) :
  (forall ad, ad ∈ ads -> exists s, score ad = ret s /\ is_nan s = false) ->
  exists ks, keyed py_str str_to_float ads = ret ks
             /\ ks.*2 = ads
             /\ Forall (well_keyed py_str str_to_float) ks.
Proof.
  induction ads as [|ad ads IH]; intros H.
  - exists []. repeat split. constructor.
  - destruct (H ad) as (s & Hs & Hn); [left|].
    destruct IH as (ks & Hk & Hks & Hf).
    { intros a Ha. apply H. right. exact Ha. }
    exists ((s, ad) :: ks). simpl. fold score. rewrite Hs. simpl.
    rewrite Hk. simpl. repeat split.
    + f_equal. exact Hks.
    + constructor; [split; assumption | assumption].
Qed.

Lemma insert_desc_perm (x : float * dict) (l : list (float * dict)) :
  insert_desc x l ≡ₚ x :: l.
Proof.
  induction l as [|y l IH]; simpl; [reflexivity|].
  destruct (x.1 <? y.1)%float; [|reflexivity].
  rewrite IH. apply Permutation_swap.
Qed.

Lemma sorted_desc_perm (l : list (float * dict)) : sorted_desc l ≡ₚ l.
Proof.
  induction l as [|x l IH]; simpl; [reflexivity|].
  rewrite insert_desc_perm, IH. reflexivity.
Qed.

Lemma insert_desc_hd (y x : float * dict) (l : list (float * dict)) :
  ge_key y x -> HdRel ge_key y l -> HdRel ge_key y (insert_desc x l).
Proof.
  intros Hyx Hl. destruct l as [|z l]; simpl; [constructor; exact Hyx|].
  destruct (x.1 <? z.1)%float; constructor; [|exact Hyx].
  inversion Hl; assumption.
Qed.

Lemma insert_desc_sorted (x : float * dict) (l : list (float * dict)) :
  is_nan x.1 = false -> Forall (fun p => is_nan p.1 = false) l ->
  Sorted ge_key l -> Sorted ge_key (insert_desc x l).
Proof.
  intros Hx Hl Hs. induction Hs as [|y l Hs IH Hd]; simpl.
  - repeat constructor.
  - inversion Hl as [|? ? Hy Hl']; subst.
    destruct (x.1 <? y.1)%float eqn:E.
    + constructor; [apply IH; exact Hl'|].
      apply insert_desc_hd; [|exact Hd].
      apply float_lt_le. exact E.
    + constructor; [constructor; assumption|].
      constructor. apply float_not_lt_ge; assumption.
Qed.

Lemma sorted_desc_sorted (l : list (float * dict)) :
  Forall (fun p => is_nan p.1 = false) l -> Sorted ge_key (sorted_desc l).
Proof.
  induction 1 as [|x l Hx Hl IH]; simpl; [constructor|].
  apply insert_desc_sorted; [exact Hx| |exact IH].
  rewrite sorted_desc_perm. exact Hl.
Qed.
Lemma sorted_fst (l : list (float * dict)) :
  Sorted ge_key l -> Sorted ge_score l.*1.
Proof.
  induction 1 as [|x l Hs IH Hd]; simpl; constructor; [exact IH|].
  destruct Hd; simpl; constructor. assumption.
Qed.

Lemma sorted_take {A} (R : A -> A -> Prop) (n : nat) (l : list A) :
  Sorted R l -> Sorted R (take n l).
Proof.
  intros H. revert n. induction H as [|x l Hs IH Hd]; intros [|n]; simpl;
    try constructor; [apply IH|].
  destruct Hd; destruct n; simpl; constructor. assumption.
Qed.

(** C2. When every record of the list has a score that is not NaN, the
    ranking has [min 10 (length ads)] records, taken from the list, and
    their scores are non-increasing; the ranking of the empty list is
    empty.  [sorted] is taken by its contract on keys without NaN. *)
Theorem top_10_ads_shape :
  (forall ads : list dict,
      (forall ad, ad ∈ ads ->
                  exists s, score ad = ret s /\ is_nan s = false) ->
      exists ranked scores,
        top_10_ads py_str str_to_float sort_reverse ads = ret ranked
        /\ length ranked = Nat.min 10 (length ads)
        /\ Forall2 (fun ad s => score ad = ret s) ranked scores
        /\ Sorted ge_score scores
        /\ ranked ⊆+ ads)
  /\ top_10_ads py_str str_to_float sort_reverse [] = ret [].
Proof.
  split; [|reflexivity].
  intros ads H. destruct (keyed_defined ads H) as (ks & Hk & Hks & Hf).
  exists (take 10 (sorted_desc ks).*2), (take 10 (sorted_desc ks).*1).
  assert (Hf' : Forall (well_keyed py_str str_to_float) (sorted_desc ks)).
  { rewrite sorted_desc_perm. exact Hf. }
  assert (Hn : Forall (fun p : float * dict => is_nan p.1 = false) ks).
  { eapply Forall_impl; [exact Hf|]. intros p Hp. exact (proj2 Hp). }
  repeat split.
  - unfold top_10_ads. rewrite Hk. cbn [bind ret]. rewrite (Hsort ks Hn).
    destruct ads; [|reflexivity].
    destruct ks; [reflexivity|discriminate].
  - rewrite length_take, length_fmap, (Permutation_length (sorted_desc_perm ks)).
    rewrite <- Hks, length_fmap. reflexivity.
  - rewrite <- !fmap_take. apply Forall2_fmap, Forall_Forall2_diag.
    apply Forall_take. eapply Forall_impl; [exact Hf'|].
    intros p Hp. exact (proj1 Hp).
  - rewrite <- fmap_take. apply sorted_fst, sorted_take, sorted_desc_sorted.
    eapply Forall_impl; [exact Hf|]. intros p Hp. exact (proj2 Hp).
  - transitivity ((sorted_desc ks).*2).
    + apply sublist_submseteq, sublist_take.
    + rewrite <- Hks. apply Permutation_submseteq, fmap_Permutation.
      apply sorted_desc_perm.
Qed.
End RankerFacts.

Lemma top_10_ads_shape_witness :
  exists ranked scores,
    top_10_ads Sample.py_str Sample.str_to_float sorted_desc Sample2.ads
    = ret ranked
    /\ length ranked = Nat.min 10 (length Sample2.ads)
    /\ Forall2 (fun ad s =>
                  proxy_score Sample.py_str Sample.str_to_float ad = ret s)
         ranked scores
    /\ Sorted ge_score scores
    /\ ranked ⊆+ Sample2.ads.
Proof.
  apply (proj1 (top_10_ads_shape Sample.py_str Sample.str_to_float
                  sorted_desc (fun ks _ => eq_refl))).
  intros ad Had. unfold Sample2.ads in Had.
  rewrite !elem_of_cons, elem_of_nil in Had.
  destruct Had as [->|[->|[->|[]]]]; eexists; split; reflexivity.
Defined.

Example top_10_ads_example :
  match top_10_ads Sample.py_str Sample.str_to_float sorted_desc Sample2.ads
  with
  | inr ranked => (fun ad : dict => ad !! "media_type") <$> ranked
  | inl _ => []
  end
  = [Some (VStr "video-only"); Some (VStr "image-only"); Some (VStr "both")].
Proof. vm_compute. reflexivity. Qed.

(** ** The matcher on quantity patterns *)

Lemma hours_re_qty : hours_re = qty_re "hr".
Proof. reflexivity. Qed.

Lemma minutes_re_qty : minutes_re = qty_re "min".
Proof. reflexivity. Qed.

Lemma space_not_digit (c : ascii) : is_space c = true -> is_digit c = false.
Proof.
  destruct c as [[] [] [] [] [] [] [] []]; vm_compute; congruence.
Qed.

Lemma digit_not_space (c : ascii) : is_digit c = true -> is_space c = false.
Proof.
  destruct c as [[] [] [] [] [] [] [] []]; vm_compute; congruence.
Qed.

Lemma unit_word_hr : unit_word "hr".
Proof.
  intros c. destruct c as [[] [] [] [] [] [] [] []]; vm_compute; congruence.
Qed.

Lemma unit_word_min : unit_word "min".
Proof.
  intros c. destruct c as [[] [] [] [] [] [] [] []]; vm_compute; congruence.
Qed.

(** Greedy repetition never has to give a character back when what follows
    cannot start with a character of the class. *)
Lemma star_skip {A} (p : ascii -> bool) (s : string) (k : string -> option A) :
  (forall c s', p c = true -> k (String c s') = None) ->
  Re.star p s k = k (skip p s).
Proof.
  intros H. induction s as [|c s IH]; simpl; [reflexivity|].
  destruct (p c) eqn:E; [|reflexivity].
  rewrite IH. destruct (k (skip p s)) eqn:K; [reflexivity|].
  apply H. exact E.
Qed.

Lemma exec_lit (w s : string) (g : option string) :
  Re.exec (lit_re w (Re.Opt (Re.Class (ichar "s")))) s g (fun _ g' => Some g')
  = if starts_with_i w s then Some g else None.
Proof.
  revert s. induction w as [|l w IH]; intros s; simpl.
  - destruct s as [|c s]; [reflexivity|]. destruct (ichar "s" c); reflexivity.
  - destruct s as [|c s]; [reflexivity|].
    destruct (ichar l c); [apply IH|reflexivity].
Qed.

Lemma starts_with_i_head (w : string) (c : ascii) (s : string) :
  unit_word w -> is_digit c || is_space c = true ->
  starts_with_i w (String c s) = false.
Proof.
  destruct w as [|l w]; [intros []|]. intros Hw Hc. simpl.
  rewrite (Hw c Hc). reflexivity.
Qed.

(** [re.match] of a quantity pattern, without backtracking. *)
Lemma match_here_qty (w s : string) :
  unit_word w -> Re.match_here (qty_re w) s = Some <$> qty_at w s.
Proof.
  intros Hw. unfold Re.match_here, qty_re, qty_at. simpl.
  destruct s as [|c s0]; [reflexivity|].
  destruct (is_digit c) eqn:Ec; [|reflexivity].
  rewrite star_skip.
  - rewrite star_skip.
    + rewrite exec_lit.
      destruct (starts_with_i w (skip is_space (skip is_digit s0)));
        reflexivity.
    + intros c' s' Hc'. rewrite exec_lit, starts_with_i_head; auto.
      rewrite Hc'. apply orb_true_r.
  - intros c' s' Hc'. simpl.
    rewrite (digit_not_space c' Hc').
    rewrite exec_lit, starts_with_i_head; auto. rewrite Hc'. reflexivity.
Qed.

Lemma search_qty (w s : string) :
  unit_word w ->
  Re.search (qty_re w) s =
    match qty_at w s with
    | Some d => Some (Some d)
    | None =>
        match s with
        | String _ s' => Re.search (qty_re w) s'
        | EmptyString => None
        end
    end.
Proof.
  intros Hw. destruct s as [|c s]; cbn [Re.search];
    rewrite (match_here_qty _ _ Hw);
    destruct (qty_at w _); reflexivity.
Qed.

(** ** Texts built by concatenation *)

Lemma str_length_app (a b : string) :
  String.length (a ++ b) = (String.length a + String.length b)%nat.
Proof. induction a as [|c a IH]; simpl; [reflexivity|]. rewrite IH. reflexivity. Qed.

Lemma substring_prefix (a b : string) :
  substring 0 (String.length a) (a ++ b) = a.
Proof.
  induction a as [|c a IH]; simpl.
  - destruct b; reflexivity.
  - rewrite IH. reflexivity.
Qed.

Lemma consumed_app (a b : string) : Re.consumed (a ++ b) b = a.
Proof.
  unfold Re.consumed. rewrite str_length_app.
  replace (String.length a + String.length b - String.length b)%nat
    with (String.length a) by lia.
  apply substring_prefix.
Qed.

Lemma skip_head_not (p : ascii -> bool) (s : string) :
  head_not p s -> skip p s = s.
Proof. destruct s as [|c s]; simpl; [reflexivity|]. intros ->. reflexivity. Qed.

Lemma skip_app (p : ascii -> bool) (a b : string) :
  all_chars p a = true -> head_not p b -> skip p (a ++ b) = b.
Proof.
  intros Ha Hb. induction a as [|c a IH]; simpl in *.
  - apply skip_head_not. exact Hb.
  - apply andb_true_iff in Ha as [-> Ha]. apply IH. exact Ha.
Qed.

Lemma head_not_app (p q : ascii -> bool) (a b : string) :
  (forall c, q c = true -> p c = false) ->
  all_chars q a = true -> head_not p b -> head_not p (a ++ b).
Proof.
  intros Hpq Ha Hb. destruct a as [|c a]; simpl in *; [exact Hb|].
  apply andb_true_iff in Ha as [Hc _]. apply Hpq. exact Hc.
Qed.

Lemma starts_head_not (w s : string) :
  unit_word w -> starts_with_i w s = true ->
  head_not is_digit s /\ head_not is_space s.
Proof.
  intros Hw Hs. destruct s as [|c s]; simpl; [split; exact I|].
  destruct (is_digit c) eqn:Ed.
  - rewrite starts_with_i_head in Hs; [discriminate|exact Hw|].
    rewrite Ed. reflexivity.
  - split; [reflexivity|]. destruct (is_space c) eqn:Es; [|reflexivity].
    rewrite starts_with_i_head in Hs; [discriminate|exact Hw|].
    rewrite Es. apply orb_true_r.
Qed.

Lemma qty_at_head_not (w s : string) : head_not is_digit s -> qty_at w s = None.
Proof. destruct s as [|c s]; simpl; [reflexivity|]. intros ->. reflexivity. Qed.

(** A quantity followed by its unit is read whole. *)
Lemma qty_at_hit (w d sp rest : string) :
  unit_word w -> digits d -> spaces sp -> starts_with_i w rest = true ->
  qty_at w (d ++ sp ++ rest) = Some d.
Proof.
  intros Hw [Hne Hd] Hsp Hr. unfold spaces in Hsp.
  destruct (starts_head_not _ _ Hw Hr) as [Hrd Hrs].
  destruct d as [|c d]; [congruence|]. simpl in Hd.
  apply andb_true_iff in Hd as [Hc Hd].
  unfold qty_at. change (String c d ++ sp ++ rest)
    with (String c (d ++ sp ++ rest)).
  cbv beta iota zeta. rewrite Hc. rewrite (skip_app is_digit d (sp ++ rest) Hd).
  - rewrite (skip_app is_space sp rest Hsp Hrs), Hr.
    change (String c (d ++ sp ++ rest)) with (String c d ++ sp ++ rest).
    rewrite consumed_app. reflexivity.
  - apply (head_not_app is_digit is_space sp rest);
      auto using space_not_digit.
Qed.

(** A quantity followed by something else is not read, from any of its
    digits on. *)
Lemma qty_at_miss (w d sp rest : string) :
  all_chars is_digit d = true -> spaces sp ->
  head_not is_digit rest -> head_not is_space rest ->
  starts_with_i w rest = false ->
  qty_at w (d ++ sp ++ rest) = None.
Proof.
  intros Hd Hsp Hrd Hrs Hr. unfold spaces in Hsp. destruct d as [|c d].
  - apply qty_at_head_not.
    apply (head_not_app is_digit is_space sp rest);
      auto using space_not_digit.
  - simpl in Hd. apply andb_true_iff in Hd as [Hc Hd].
    unfold qty_at. change (String c d ++ sp ++ rest)
      with (String c (d ++ sp ++ rest)).
    cbv beta iota zeta. rewrite Hc. rewrite (skip_app is_digit d (sp ++ rest) Hd).
    + rewrite (skip_app is_space sp rest Hsp Hrs), Hr. reflexivity.
    + apply (head_not_app is_digit is_space sp rest);
      auto using space_not_digit.
Qed.

(** ** Searching a text for a quantity *)

Section Search.
Variable w : string.
Hypothesis Hw : unit_word w.

Lemma search_no_digit_prefix (pre s : string) :
  no_digit pre -> Re.search (qty_re w) (pre ++ s) = Re.search (qty_re w) s.
Proof.
  unfold no_digit. induction pre as [|c pre IH]; intros H;
    [reflexivity|].
  simpl in H. apply andb_true_iff in H as [Hc H].
  apply negb_true_iff in Hc.
  change (String c pre ++ s) with (String c (pre ++ s)).
  rewrite (search_qty _ _ Hw), qty_at_head_not by exact Hc.
  apply IH. exact H.
Qed.

Lemma search_none (s : string) :
  no_digit s -> Re.search (qty_re w) s = None.
Proof.
  unfold no_digit. induction s as [|c s IH]; simpl all_chars; intros H.
  - rewrite (search_qty _ _ Hw). reflexivity.
  - apply andb_true_iff in H as [Hc H]. apply negb_true_iff in Hc.
    rewrite (search_qty _ _ Hw), qty_at_head_not by exact Hc.
    apply IH. exact H.
Qed.

Lemma search_hit (d sp rest : string) :
  digits d -> spaces sp -> starts_with_i w rest = true ->
  Re.search (qty_re w) (d ++ sp ++ rest) = Some (Some d).
Proof.
  intros Hd Hsp Hr.
  rewrite (search_qty _ _ Hw), (qty_at_hit _ _ _ _ Hw Hd Hsp Hr).
  reflexivity.
Qed.

Lemma spaces_no_digit (sp : string) : spaces sp -> no_digit sp.
Proof.
  unfold spaces, no_digit. induction sp as [|c sp IH]; simpl;
    [reflexivity|].
  intros H. apply andb_true_iff in H as [Hc H].
  rewrite (space_not_digit c Hc). simpl. apply IH. exact H.
Qed.

Lemma search_miss (d sp rest : string) :
  all_chars is_digit d = true -> spaces sp ->
  head_not is_digit rest -> head_not is_space rest ->
  starts_with_i w rest = false ->
  Re.search (qty_re w) (d ++ sp ++ rest) = Re.search (qty_re w) rest.
Proof.
  intros Hd Hsp Hrd Hrs Hr. induction d as [|c d IH].
  - apply (search_no_digit_prefix sp rest), spaces_no_digit, Hsp.
  - change (String c d ++ sp ++ rest) with (String c (d ++ sp ++ rest)).
    rewrite (search_qty _ _ Hw).
    change (String c (d ++ sp ++ rest)) with (String c d ++ sp ++ rest).
    rewrite qty_at_miss by assumption.
    simpl in Hd. apply andb_true_iff in Hd as [_ Hd].
    apply IH. exact Hd.
Qed.
End Search.

Lemma parse_duration_unfold (text : string) :
  parse_duration (Some text) =
    let* hours := quantity (Re.search hours_re text) in
    let* minutes := quantity (Re.search minutes_re text) in
    hours_plus_minutes hours minutes.
Proof. destruct text; [vm_compute|]; reflexivity. Qed.

(** ** Duration parsing *)

Lemma hr_word (hs rest : string) :
  hs = "hr" \/ hs = "hrs" ->
  starts_with_i "hr" (hs ++ rest) = true
  /\ starts_with_i "min" (hs ++ rest) = false
  /\ head_not is_digit (hs ++ rest) /\ head_not is_space (hs ++ rest)
  /\ no_digit hs.
Proof. intros [-> | ->]; repeat split; reflexivity. Qed.

Lemma min_word (ms rest : string) :
  ms = "min" \/ ms = "mins" ->
  starts_with_i "min" (ms ++ rest) = true
  /\ starts_with_i "hr" (ms ++ rest) = false
  /\ head_not is_digit (ms ++ rest) /\ head_not is_space (ms ++ rest)
  /\ no_digit ms.
Proof. intros [-> | ->]; repeat split; reflexivity. Qed.

Lemma digits_all (d : string) : digits d -> all_chars is_digit d = true.
Proof. intros [_ H]. exact H. Qed.

Lemma parse_hours_minutes
  (pre dx w1 hs mid dy w2 ms post : string) :
  no_digit pre -> digits dx -> spaces w1 -> hs = "hr" \/ hs = "hrs" ->
  no_digit mid -> digits dy -> spaces w2 -> ms = "min" \/ ms = "mins" ->
  parse_duration
    (Some (pre ++ dx ++ w1 ++ hs ++ mid ++ dy ++ w2 ++ ms ++ post))
  = let* X := py_int dx in
    let* Y := py_int dy in
    hours_plus_minutes X Y.
Proof.
  intros Hpre Hdx Hw1 Hhs Hmid Hdy Hw2 Hms.
  destruct (hr_word hs (mid ++ dy ++ w2 ++ ms ++ post) Hhs)
    as (Hh1 & Hh2 & Hh3 & Hh4 & Hh5).
  destruct (min_word ms post Hms) as (Hm1 & _).
  rewrite parse_duration_unfold, hours_re_qty, minutes_re_qty.
  rewrite (search_no_digit_prefix "hr" unit_word_hr pre _ Hpre).
  rewrite (search_hit "hr" unit_word_hr dx w1 _ Hdx Hw1 Hh1).
  rewrite (search_no_digit_prefix "min" unit_word_min pre _ Hpre).
  rewrite (search_miss "min" unit_word_min dx w1 _ (digits_all _ Hdx) Hw1
             Hh3 Hh4 Hh2).
  rewrite (search_no_digit_prefix "min" unit_word_min hs _ Hh5).
  rewrite (search_no_digit_prefix "min" unit_word_min mid _ Hmid).
  rewrite (search_hit "min" unit_word_min dy w2 _ Hdy Hw2 Hm1).
  reflexivity.
Qed.

Lemma parse_hours_only (pre dx w1 hs post : string) :
  no_digit pre -> digits dx -> spaces w1 -> hs = "hr" \/ hs = "hrs" ->
  no_digit post ->
  parse_duration (Some (pre ++ dx ++ w1 ++ hs ++ post))
  = let* X := py_int dx in hours_plus_minutes X 0.
Proof.
  intros Hpre Hdx Hw1 Hhs Hpost.
  destruct (hr_word hs post Hhs) as (Hh1 & Hh2 & Hh3 & Hh4 & Hh5).
  rewrite parse_duration_unfold, hours_re_qty, minutes_re_qty.
  rewrite (search_no_digit_prefix "hr" unit_word_hr pre _ Hpre).
  rewrite (search_hit "hr" unit_word_hr dx w1 _ Hdx Hw1 Hh1).
  rewrite (search_no_digit_prefix "min" unit_word_min pre _ Hpre).
  rewrite (search_miss "min" unit_word_min dx w1 _ (digits_all _ Hdx) Hw1
             Hh3 Hh4 Hh2).
  rewrite (search_no_digit_prefix "min" unit_word_min hs _ Hh5).
  rewrite (search_none "min" unit_word_min post Hpost).
  reflexivity.
Qed.

Lemma parse_minutes_only (pre dy w2 ms post : string) :
  no_digit pre -> digits dy -> spaces w2 -> ms = "min" \/ ms = "mins" ->
  no_digit post ->
  parse_duration (Some (pre ++ dy ++ w2 ++ ms ++ post))
  = let* Y := py_int dy in hours_plus_minutes 0 Y.
Proof.
  intros Hpre Hdy Hw2 Hms Hpost.
  destruct (min_word ms post Hms) as (Hm1 & Hm2 & Hm3 & Hm4 & Hm5).
  rewrite parse_duration_unfold, hours_re_qty, minutes_re_qty.
  rewrite (search_no_digit_prefix "hr" unit_word_hr pre _ Hpre).
  rewrite (search_miss "hr" unit_word_hr dy w2 _ (digits_all _ Hdy) Hw2
             Hm3 Hm4 Hm2).
  rewrite (search_no_digit_prefix "hr" unit_word_hr ms _ Hm5).
  rewrite (search_none "hr" unit_word_hr post Hpost).
  rewrite (search_no_digit_prefix "min" unit_word_min pre _ Hpre).
  rewrite (search_hit "min" unit_word_min dy w2 _ Hdy Hw2 Hm1).
  reflexivity.
Qed.

Lemma parse_no_quantity (text : string) :
  no_digit text -> parse_duration (Some text) = ret 0.0%float.
Proof.
  intros H. rewrite parse_duration_unfold, hours_re_qty, minutes_re_qty.
  rewrite (search_none "hr" unit_word_hr text H).
  rewrite (search_none "min" unit_word_min text H).
  vm_compute. reflexivity.
Qed.

Lemma ret_neq (x y : float) :
  (x =? y)%float = false -> (y =? y)%float = true ->
  @ret float x <> ret y.
Proof.
  intros Hxy Hyy E.
  apply (f_equal (fun r : result float =>
                    match r with
                    | inr z => (z =? y)%float
                    | inl _ => false
                    end)) in E.
  simpl in E. congruence.
Qed.

Lemma starts_occurs (w s : string) :
  starts_with_i w s = true -> occurs_i w s = true.
Proof. intros H. destruct s; simpl; rewrite H; reflexivity. Qed.

Lemma occurs_tail (w : string) (c : ascii) (s : string) :
  occurs_i w s = true -> occurs_i w (String c s) = true.
Proof. intros H. simpl. rewrite H. apply orb_true_r. Qed.

Lemma occurs_skip (w : string) (p : ascii -> bool) (s : string) :
  occurs_i w (skip p s) = true -> occurs_i w s = true.
Proof.
  induction s as [|c s IH]; simpl skip; [auto|].
  destruct (p c); [|auto]. intros H. apply occurs_tail, IH, H.
Qed.

Lemma qty_at_occurs (w s d : string) :
  qty_at w s = Some d -> occurs_i w s = true.
Proof.
  unfold qty_at. destruct s as [|c s0]; [discriminate|].
  destruct (is_digit c); [|discriminate].
  destruct (starts_with_i w (skip is_space (skip is_digit s0))) eqn:E;
    [|discriminate].
  intros _. apply occurs_tail, (occurs_skip w is_digit),
    (occurs_skip w is_space), starts_occurs, E.
Qed.

(** A text in which the unit word does not occur has no quantity of it. *)
Lemma search_absent (w s : string) :
  unit_word w -> occurs_i w s = false -> Re.search (qty_re w) s = None.
Proof.
  intros Hw. induction s as [|c s IH]; intros H;
    rewrite (search_qty _ _ Hw).
  - reflexivity.
  - destruct (qty_at w (String c s)) as [d|] eqn:E.
    + rewrite (qty_at_occurs _ _ _ E) in H. discriminate.
    + apply IH. simpl in H. apply orb_false_iff in H as [_ H]. exact H.
Qed.

(** ** The leftmost quantity *)

Lemma first_qty_unfold (w s : string) :
  first_qty w s
  = match qty_at w s with
    | Some d => Some d
    | None =>
        match s with
        | String _ s' => first_qty w s'
        | EmptyString => None
        end
    end.
Proof. destruct s; reflexivity. Qed.

(** [re.search] of a quantity pattern finds the leftmost quantity. *)
Lemma search_first (w s : string) :
  unit_word w -> Re.search (qty_re w) s = Some <$> first_qty w s.
Proof.
  intros Hw. induction s as [|c s IH];
    rewrite (search_qty _ _ Hw), first_qty_unfold.
  - destruct (qty_at w ""); reflexivity.
  - destruct (qty_at w (String c s)); [reflexivity|exact IH].
Qed.

Lemma quantity_read_int (q : option string) :
  quantity (Some <$> q) = read_int q.
Proof. destruct q; reflexivity. Qed.

Lemma parse_duration_first (text : string) :
  parse_duration (Some text)
  = let* X := read_int (first_qty "hr" text) in
    let* Y := read_int (first_qty "min" text) in
    hours_plus_minutes X Y.
Proof.
  rewrite parse_duration_unfold, hours_re_qty, minutes_re_qty.
  rewrite (search_first "hr" text unit_word_hr).
  rewrite (search_first "min" text unit_word_min).
  rewrite !quantity_read_int. reflexivity.
Qed.

Lemma first_qty_absent (w s : string) :
  occurs_i w s = false -> first_qty w s = None.
Proof.
  induction s as [|c s IH]; intros H; rewrite first_qty_unfold.
  - destruct (qty_at w "") eqn:E; [|reflexivity].
    rewrite (qty_at_occurs _ _ _ E) in H. discriminate.
  - destruct (qty_at w (String c s)) as [d|] eqn:E.
    + rewrite (qty_at_occurs _ _ _ E) in H. discriminate.
    + apply IH. simpl in H. apply orb_false_iff in H as [_ H]. exact H.
Qed.

Lemma first_qty_no_digit (w s : string) : no_digit s -> first_qty w s = None.
Proof.
  unfold no_digit. induction s as [|c s IH]; simpl all_chars; intros H;
    rewrite first_qty_unfold.
  - reflexivity.
  - apply andb_true_iff in H as [Hc H]. apply negb_true_iff in Hc.
    rewrite qty_at_head_not by exact Hc. apply IH. exact H.
Qed.

Lemma ends_in_no_digit (s : string) : no_digit s -> ends_in is_digit s = false.
Proof.
  unfold no_digit. induction s as [|c s IH]; [reflexivity|].
  simpl all_chars. intros H. apply andb_true_iff in H as [Hc H].
  apply negb_true_iff in Hc. cbn [ends_in].
  destruct s; [exact Hc|apply IH; exact H].
Qed.

Lemma ends_in_all (p : ascii -> bool) (c : ascii) (s : string) :
  all_chars p (String c s) = true -> ends_in p (String c s) = true.
Proof.
  revert c. induction s as [|c' s IH]; intros c; simpl all_chars;
    intros H; apply andb_true_iff in H as [Hc H].
  - exact Hc.
  - cbn [ends_in]. apply IH. exact H.
Qed.

Lemma ends_in_tail (p : ascii -> bool) (c : ascii) (s : string) :
  ends_in p (String c s) = false -> ends_in p s = false.
Proof. destruct s; [reflexivity|]. cbn [ends_in]. auto. Qed.

Lemma skip_app_cases (p : ascii -> bool) (a b : string) :
  skip p (a ++ b) = if all_chars p a then skip p b else skip p a ++ b.
Proof.
  induction a as [|c a IH]; [reflexivity|].
  change (String c a ++ b) with (String c (a ++ b)). cbn [skip all_chars].
  destruct (p c); [exact IH|reflexivity].
Qed.

Lemma to_lower_of_digit (c : ascii) : is_digit c = true -> to_lower c = c.
Proof.
  destruct c as [[] [] [] [] [] [] [] []]; vm_compute; congruence.
Qed.

(** A unit word without digits that starts a text followed by a digit lies
    before the digit. *)
Lemma starts_before_digit (w x t : string) :
  no_digit w -> t <> "" -> head_not (fun c => negb (is_digit c)) t ->
  starts_with_i w (x ++ t) = true -> starts_with_i w x = true.
Proof.
  unfold no_digit. revert x. induction w as [|l w IH]; intros x Hw Ht Hd;
    [reflexivity|].
  simpl all_chars in Hw. apply andb_true_iff in Hw as [Hl Hw].
  apply negb_true_iff in Hl. destruct x as [|c x].
  - destruct t as [|c t]; [congruence|]. simpl in Hd.
    apply negb_false_iff in Hd. cbn [append starts_with_i].
    intros H. apply andb_true_iff in H as [H _]. unfold ichar in H.
    rewrite (to_lower_of_digit c Hd) in H. apply Ascii.eqb_eq in H.
    subst l. congruence.
  - change (String c x ++ t) with (String c (x ++ t)). cbn [starts_with_i].
    intros H. apply andb_true_iff in H as [-> H]. exact (IH x Hw Ht Hd H).
Qed.

(** A quantity does not start in a text that has none and does not end
    with a digit, whatever digits follow the text. *)
Lemma qty_at_extend (w : string) (c : ascii) (b t : string) :
  unit_word w -> no_digit w ->
  t <> "" -> head_not (fun c => negb (is_digit c)) t ->
  ends_in is_digit (String c b) = false ->
  qty_at w (String c b) = None ->
  qty_at w (String c b ++ t) = None.
Proof.
  intros Hw Hn Ht Hd He Hq.
  assert (Hts : skip is_space t = t).
  { destruct t as [|x t]; [reflexivity|]. simpl in Hd.
    apply negb_false_iff in Hd. cbn [skip].
    rewrite (digit_not_space x Hd). reflexivity. }
  assert (Htw : starts_with_i w t = false).
  { destruct t as [|x t]; [congruence|]. simpl in Hd.
    apply negb_false_iff in Hd. apply starts_with_i_head; [exact Hw|].
    rewrite Hd. reflexivity. }
  change (String c b ++ t) with (String c (b ++ t)).
  unfold qty_at in *. destruct (is_digit c) eqn:Ec; [|reflexivity].
  cbv zeta in *. rewrite skip_app_cases.
  destruct (all_chars is_digit b) eqn:Ab.
  { rewrite ends_in_all in He; [discriminate|]. simpl. rewrite Ec, Ab.
    reflexivity. }
  rewrite skip_app_cases.
  destruct (all_chars is_space (skip is_digit b)).
  { rewrite Hts, Htw. reflexivity. }
  destruct (starts_with_i w (skip is_space (skip is_digit b) ++ t)) eqn:E;
    [|reflexivity].
  rewrite (starts_before_digit _ _ _ Hn Ht Hd E) in Hq. discriminate Hq.
Qed.

Lemma digits_head (d rest : string) :
  digits d ->
  d ++ rest <> "" /\ head_not (fun c => negb (is_digit c)) (d ++ rest).
Proof.
  intros [Hne Hd]. destruct d as [|c d]; [congruence|].
  simpl in Hd. apply andb_true_iff in Hd as [Hc _].
  split; [discriminate|]. simpl. rewrite Hc. reflexivity.
Qed.

(** The quantity that follows a clear prefix is the leftmost one. *)
Lemma first_qty_leftmost (w pre d sp rest : string) :
  unit_word w -> no_digit w -> clear_of w pre = true ->
  digits d -> spaces sp -> starts_with_i w rest = true ->
  first_qty w (pre ++ d ++ sp ++ rest) = Some d.
Proof.
  intros Hw Hn Hc Hd Hsp Hr.
  destruct (digits_head d (sp ++ rest) Hd) as [Ht Hh].
  unfold clear_of in Hc.
  destruct (first_qty w pre) eqn:Hf; [discriminate|].
  apply negb_true_iff in Hc.
  induction pre as [|c pre IH].
  - change ("" ++ d ++ sp ++ rest) with (d ++ sp ++ rest).
    rewrite first_qty_unfold, (qty_at_hit _ _ _ _ Hw Hd Hsp Hr).
    reflexivity.
  - rewrite first_qty_unfold in Hf.
    destruct (qty_at w (String c pre)) eqn:Hq; [discriminate|].
    rewrite first_qty_unfold, (qty_at_extend w c pre _ Hw Hn Ht Hh Hc Hq).
    change (String c pre ++ d ++ sp ++ rest)
      with (String c (pre ++ d ++ sp ++ rest)).
    cbv iota beta. apply IH; [exact Hf|]. exact (ends_in_tail _ _ _ Hc).
Qed.

Lemma no_digit_hr : no_digit "hr".
Proof. reflexivity. Qed.

Lemma no_digit_min : no_digit "min".
Proof. reflexivity. Qed.

Lemma unit_cases (w : string) :
  w = "hr" \/ w = "min" -> unit_word w /\ no_digit w.
Proof.
  intros [-> | ->]; split;
    auto using unit_word_hr, unit_word_min, no_digit_hr, no_digit_min.
Qed.

Lemma clear_of_no_digit (w pre : string) : no_digit pre -> clear_of w pre = true.
Proof.
  intros H. unfold clear_of.
  rewrite (first_qty_no_digit w pre H), (ends_in_no_digit pre H). reflexivity.
Qed.

Lemma clear_of_absent (w pre : string) :
  occurs_i w pre = false -> ends_in is_digit pre = false ->
  clear_of w pre = true.
Proof.
  intros H1 H2. unfold clear_of. rewrite (first_qty_absent w pre H1), H2.
  reflexivity.
Qed.

Lemma parse_leftmost (text p1 dx s1 r1 p2 dy s2 r2 : string) :
  text = p1 ++ dx ++ s1 ++ r1 -> clear_of "hr" p1 = true -> digits dx ->
  spaces s1 -> starts_with_i "hr" r1 = true ->
  text = p2 ++ dy ++ s2 ++ r2 -> clear_of "min" p2 = true -> digits dy ->
  spaces s2 -> starts_with_i "min" r2 = true ->
  parse_duration (Some text)
  = let* X := py_int dx in
    let* Y := py_int dy in
    hours_plus_minutes X Y.
Proof.
  intros E1 C1 D1 S1 R1 E2 C2 D2 S2 R2. rewrite parse_duration_first.
  rewrite E1 at 1.
  rewrite (first_qty_leftmost "hr" p1 dx s1 r1 unit_word_hr no_digit_hr C1 D1
             S1 R1).
  rewrite E2.
  rewrite (first_qty_leftmost "min" p2 dy s2 r2 unit_word_min no_digit_min
             C2 D2 S2 R2).
  reflexivity.
Qed.

Lemma parse_leftmost_hours (text p1 dx s1 r1 : string) :
  text = p1 ++ dx ++ s1 ++ r1 -> clear_of "hr" p1 = true -> digits dx ->
  spaces s1 -> starts_with_i "hr" r1 = true ->
  first_qty "min" text = None ->
  parse_duration (Some text) = let* X := py_int dx in hours_plus_minutes X 0.
Proof.
  intros E1 C1 D1 S1 R1 M. rewrite parse_duration_first, M.
  rewrite E1.
  rewrite (first_qty_leftmost "hr" p1 dx s1 r1 unit_word_hr no_digit_hr C1 D1
             S1 R1).
  reflexivity.
Qed.

Lemma parse_leftmost_minutes (text p2 dy s2 r2 : string) :
  text = p2 ++ dy ++ s2 ++ r2 -> clear_of "min" p2 = true -> digits dy ->
  spaces s2 -> starts_with_i "min" r2 = true ->
  first_qty "hr" text = None ->
  parse_duration (Some text) = let* Y := py_int dy in hours_plus_minutes 0 Y.
Proof.
  intros E2 C2 D2 S2 R2 H. rewrite parse_duration_first, H.
  rewrite E2.
  rewrite (first_qty_leftmost "min" p2 dy s2 r2 unit_word_min no_digit_min
             C2 D2 S2 R2).
  reflexivity.
Qed.

Lemma parse_no_unit (text : string) :
  first_qty "hr" text = None -> first_qty "min" text = None ->
  parse_duration (Some text) = ret 0.0%float.
Proof.
  intros H M. rewrite parse_duration_first, H, M. vm_compute. reflexivity.
Qed.

(** C3, as the code has it.  Digits are the characters that [\d] matches,
    on the code points of the model [0] to [9].  A quantity of a unit is a
    run of digits, optional white space and the unit word, "hr" or "min" in
    any case, with whatever follows; [first_qty] is the leftmost quantity
    of the unit in the text.  For every text the result is
    [round(X + Y / 60.0, 2)] in double arithmetic, X and Y being the
    leftmost quantities of hours and of minutes, 0 for a unit that has no
    quantity, and an error when [int] or the conversion to float refuses X
    or Y.  The quantity that follows a prefix is the leftmost one when the
    prefix has no quantity of the unit and does not end with a digit, in
    particular when the prefix has no digit, or does not hold the unit word
    and does not end with a digit; a text in which the unit word does not
    occur, or which has no digit, has no quantity of the unit.  So
    "X hrs" and "Y mins" give the formula of the claim in either order and
    among other numbers, as long as each is the leftmost quantity of its
    unit; the absent and the empty text give 0.0. *)
Theorem parse_duration_formula :
  (forall text : string,
      parse_duration (Some text)
      = let* X := read_int (first_qty "hr" text) in
        let* Y := read_int (first_qty "min" text) in
        hours_plus_minutes X Y)
  /\ (forall w pre d sp rest : string,
         w = "hr" \/ w = "min" -> clear_of w pre = true ->
         digits d -> spaces sp -> starts_with_i w rest = true ->
         first_qty w (pre ++ d ++ sp ++ rest) = Some d)
  /\ (forall w pre : string, no_digit pre -> clear_of w pre = true)
  /\ (forall w pre : string,
         occurs_i w pre = false -> ends_in is_digit pre = false ->
         clear_of w pre = true)
  /\ (forall w text : string,
         occurs_i w text = false -> first_qty w text = None)
  /\ (forall w text : string, no_digit text -> first_qty w text = None)
  /\ (forall text p1 dx s1 r1 p2 dy s2 r2 : string,
         text = p1 ++ dx ++ s1 ++ r1 -> clear_of "hr" p1 = true ->
         digits dx -> spaces s1 -> starts_with_i "hr" r1 = true ->
         text = p2 ++ dy ++ s2 ++ r2 -> clear_of "min" p2 = true ->
         digits dy -> spaces s2 -> starts_with_i "min" r2 = true ->
         parse_duration (Some text)
         = let* X := py_int dx in
           let* Y := py_int dy in
           hours_plus_minutes X Y)
  /\ (forall text p1 dx s1 r1 : string,
         text = p1 ++ dx ++ s1 ++ r1 -> clear_of "hr" p1 = true ->
         digits dx -> spaces s1 -> starts_with_i "hr" r1 = true ->
         first_qty "min" text = None ->
         parse_duration (Some text)
         = let* X := py_int dx in hours_plus_minutes X 0)
  /\ (forall text p2 dy s2 r2 : string,
         text = p2 ++ dy ++ s2 ++ r2 -> clear_of "min" p2 = true ->
         digits dy -> spaces s2 -> starts_with_i "min" r2 = true ->
         first_qty "hr" text = None ->
         parse_duration (Some text)
         = let* Y := py_int dy in hours_plus_minutes 0 Y)
  /\ (forall text : string,
         first_qty "hr" text = None -> first_qty "min" text = None ->
         parse_duration (Some text) = ret 0.0%float)
  /\ (forall pre dx w1 hs mid dy w2 ms post : string,
         no_digit pre -> digits dx -> spaces w1 -> hs = "hr" \/ hs = "hrs" ->
         no_digit mid -> digits dy -> spaces w2 ->
         ms = "min" \/ ms = "mins" ->
         parse_duration
           (Some (pre ++ dx ++ w1 ++ hs ++ mid ++ dy ++ w2 ++ ms ++ post))
         = let* X := py_int dx in
           let* Y := py_int dy in
           hours_plus_minutes X Y)
  /\ (forall text : string,
         no_digit text -> parse_duration (Some text) = ret 0.0%float)
  /\ parse_duration None = ret 0.0%float
  /\ parse_duration (Some "") = ret 0.0%float
  /\ parse_duration (Some "Active for 2 hrs 30 mins") = ret 2.5%float
  /\ parse_duration (Some "Active for 45 mins") = ret 0.75%float
  /\ parse_duration (Some "Active for 1 hr 15 mins") = ret 1.25%float
  /\ parse_duration (Some "2 hrs 30 mins") = ret 2.5%float
  /\ parse_duration (Some "Ad 7: 2 hrs 30 mins") = ret 2.5%float
  /\ parse_duration (Some "2 hrs on 3 devices") = ret 2.0%float
  /\ parse_duration (Some "30 mins 2 hrs") = ret 2.5%float.
Proof.
  split; [exact parse_duration_first|].
  split.
  { intros w pre d sp rest Hw. destruct (unit_cases w Hw) as [U N].
    exact (first_qty_leftmost w pre d sp rest U N). }
  split; [exact clear_of_no_digit|].
  split; [exact clear_of_absent|].
  split; [exact first_qty_absent|].
  split; [exact first_qty_no_digit|].
  split; [exact parse_leftmost|].
  split; [exact parse_leftmost_hours|].
  split; [exact parse_leftmost_minutes|].
  split; [exact parse_no_unit|].
  split; [exact parse_hours_minutes|].
  split; [exact parse_no_quantity|].
  repeat split; vm_compute; reflexivity.
Qed.

Lemma parse_duration_formula_witness :
  parse_duration (Some "Ad 7: 2 hrs 30 mins")
  = let* X := py_int "2" in
    let* Y := py_int "30" in
    hours_plus_minutes X Y.
Proof.
  apply (proj1 (proj2 (proj2 (proj2 (proj2 (proj2 (proj2
           parse_duration_formula))))))
           "Ad 7: 2 hrs 30 mins" "Ad 7: " "2" " " "hrs 30 mins"
           "Ad 7: 2 hrs " "30" " " "mins");
    try reflexivity; split; try discriminate; reflexivity.
Defined.

(** C3 as stated fails: text put before the quantities is not arbitrary,
    and the integers are not unbounded. *)
Lemma parse_duration_prefix_counterexample :
  parse_duration (Some ("1 min and " ++ "2 hrs 30 mins")) = ret 2.02%float
  /\ hours_plus_minutes 2 30 = ret 2.5%float
  /\ parse_duration (Some ("1 min and " ++ "2 hrs 30 mins"))
     <> hours_plus_minutes 2 30
  /\ parse_duration (Some ("1" ++ zeros 309 ++ " hrs"))
     = raise OverflowError.
Proof.
  assert (E1 : parse_duration (Some ("1 min and " ++ "2 hrs 30 mins"))
               = ret 2.02%float) by (vm_compute; reflexivity).
  assert (E2 : hours_plus_minutes 2 30 = ret 2.5%float)
    by (vm_compute; reflexivity).
  split; [exact E1|]. split; [exact E2|]. split.
  - rewrite E1, E2. apply ret_neq; reflexivity.
  - vm_compute. reflexivity.
Qed.

(** ** Spelled-out units *)

(** C6, as the code has it.  "hours" is not read: a text in which "hr" does
    not occur has no hours, and a quantity followed by "hours" in a text
    without other digits gives 0.0.  "minutes" is read, because it starts
    with "min": a quantity followed by "minutes" counts as minutes. *)
Theorem spelled_out_units :
  (forall text : string,
      occurs_i "hr" text = false ->
      quantity (Re.search hours_re text) = ret 0)
  /\ (forall pre d sp post : string,
         no_digit pre -> digits d -> spaces sp -> no_digit post ->
         parse_duration (Some (pre ++ d ++ sp ++ "hours" ++ post))
         = ret 0.0%float)
  /\ (forall pre d sp post : string,
         no_digit pre -> digits d -> spaces sp ->
         quantity (Re.search minutes_re (pre ++ d ++ sp ++ "minutes" ++ post))
         = py_int d)
  /\ (forall pre d sp post : string,
         no_digit pre -> digits d -> spaces sp -> no_digit post ->
         parse_duration (Some (pre ++ d ++ sp ++ "minutes" ++ post))
         = let* Y := py_int d in hours_plus_minutes 0 Y)
  /\ parse_duration (Some "Active for 2 hours") = ret 0.0%float
  /\ parse_duration (Some "Active for 30 minutes") = ret 0.5%float.
Proof.
  split; [|split; [|split; [|split]]].
  - intros text H. rewrite hours_re_qty, (search_absent _ _ unit_word_hr H).
    reflexivity.
  - intros pre d sp post Hpre Hd Hsp Hpost.
    assert (Hrest : no_digit ("hours" ++ post)) by exact Hpost.
    rewrite parse_duration_unfold, hours_re_qty, minutes_re_qty.
    rewrite (search_no_digit_prefix "hr" unit_word_hr pre _ Hpre).
    rewrite (search_miss "hr" unit_word_hr d sp _ (digits_all _ Hd) Hsp)
      by reflexivity.
    rewrite (search_none "hr" unit_word_hr _ Hrest).
    rewrite (search_no_digit_prefix "min" unit_word_min pre _ Hpre).
    rewrite (search_miss "min" unit_word_min d sp _ (digits_all _ Hd) Hsp)
      by reflexivity.
    rewrite (search_none "min" unit_word_min _ Hrest).
    vm_compute. reflexivity.
  - intros pre d sp post Hpre Hd Hsp. rewrite minutes_re_qty.
    rewrite (search_no_digit_prefix "min" unit_word_min pre _ Hpre).
    rewrite (search_hit "min" unit_word_min d sp _ Hd Hsp) by reflexivity.
    reflexivity.
  - intros pre d sp post Hpre Hd Hsp Hpost.
    apply (parse_minutes_only pre d sp "min" ("utes" ++ post)); auto.
  - split; vm_compute; reflexivity.
Qed.

Lemma spelled_out_units_witness :
  quantity (Re.search hours_re "Active for 2 hours") = ret 0.
Proof.
  apply (proj1 spelled_out_units). reflexivity.
Defined.

(** C6 as stated fails on "minutes". *)
Lemma minutes_counterexample :
  parse_duration (Some "Active for 30 minutes") = ret 0.5%float
  /\ parse_duration (Some "Active for 30 minutes") <> ret 0.0%float.
Proof.
  assert (E : parse_duration (Some "Active for 30 minutes") = ret 0.5%float)
    by (vm_compute; reflexivity).
  split; [exact E|]. rewrite E. apply ret_neq; reflexivity.
Qed.

(** ** Schemas *)

Lemma validate_strs_strs (l : list string) :
  validate_strs (VStr <$> l) = ret l.
Proof.
  induction l as [|s l IH]; [reflexivity|].
  rewrite fmap_cons. cbn [validate_strs validate_str bind ret].
  rewrite IH. reflexivity.
Qed.

Lemma validate_opt_str_opt_str (o : option string) :
  validate_opt_str (opt_str o) = ret o.
Proof. destruct o; reflexivity. Qed.

Section Enrichment.
Variable detect : string -> result string.
Variable str_to_float : string -> result float.
Variable validate_datetime : pyval -> result datetime.
Variable now : nat -> datetime.

Let enrich := _enrich_single_record detect str_to_float validate_datetime now.

(** The record that enrichment builds once the duration has parsed. *)
Lemma enrich_single_record_value (n : AdNormalizedSchema.t) (ln : nat)
  (d : float) :
  parse_duration (AdNormalizedSchema.active n) = ret d ->
  enrich n ln =
    ret (AdEnrichedSchema.model_dump
           {| AdEnrichedSchema.ad_id := AdNormalizedSchema.ad_id n;
              AdEnrichedSchema.ad_text := AdNormalizedSchema.ad_text n;
              AdEnrichedSchema.active := AdNormalizedSchema.active n;
              AdEnrichedSchema.media := AdNormalizedSchema.media n;
              AdEnrichedSchema.country := AdNormalizedSchema.country n;
              AdEnrichedSchema.duration_hours := d;
              AdEnrichedSchema.media_type :=
                get_media_type (Some (AdNormalizedSchema.media n));
              AdEnrichedSchema.language :=
                Some (detect_language detect (AdNormalizedSchema.ad_text n));
              AdEnrichedSchema.enriched_at := now ln |}).
Proof.
  intros Hd. unfold enrich, _enrich_single_record. rewrite Hd.
  unfold bind at 1. unfold AdEnrichedSchema.make, required, optional.
  simplify_map_eq.
  rewrite validate_opt_str_opt_str. simpl.
  rewrite validate_strs_strs. reflexivity.
Qed.
(** C9, as the code has it.  An enriched record carries [ad_id],
    [ad_text], [active], [media] and [country] of the normalized record
    unchanged and adds [duration_hours], [media_type], [language] and
    [enriched_at]; [normalized_at] is not carried over. *)
Theorem enriched_record_fields (n : AdNormalizedSchema.t) (ln : nat)
  (r : dict) :
  enrich n ln = ret r ->
  (forall k, k ∈ carried_fields ->
             r !! k = AdNormalizedSchema.model_dump n !! k)
  /\ (exists d, parse_duration (AdNormalizedSchema.active n) = ret d
                /\ r !! "duration_hours" = Some (VFloat d))
  /\ r !! "media_type"
     = Some (VStr (get_media_type (Some (AdNormalizedSchema.media n))))
  /\ r !! "language"
     = Some (VStr (detect_language detect (AdNormalizedSchema.ad_text n)))
  /\ r !! "enriched_at" = Some (VDatetime (now ln))
  /\ AdNormalizedSchema.model_dump n !! "normalized_at"
     = Some (VDatetime (AdNormalizedSchema.normalized_at n))
  /\ r !! "normalized_at" = None.
Proof.
  intros H. destruct (parse_duration (AdNormalizedSchema.active n))
    as [e|d] eqn:Hd.
  { unfold enrich, _enrich_single_record in H. rewrite Hd in H.
    discriminate H. }
  rewrite (enrich_single_record_value n ln d Hd) in H.
  injection H as <-.
  split; [|split; [|repeat split]].
  - intros k Hk. unfold carried_fields in Hk.
    rewrite !elem_of_cons, elem_of_nil in Hk.
    destruct Hk as [->|[->|[->|[->|[->|[]]]]]]; reflexivity.
  - exists d. split; reflexivity.
Qed.
End Enrichment.

Lemma enriched_record_fields_witness :
  exists r,
    _enrich_single_record Env.detect Sample.str_to_float
      Env.validate_datetime Env.now Env.normalized_ad 1 = ret r
    /\ r !! "ad_id" = Some (VStr "a1")
    /\ r !! "duration_hours" = Some (VFloat 2.5)
    /\ r !! "normalized_at" = None.
Proof.
  destruct (_enrich_single_record Env.detect Sample.str_to_float
              Env.validate_datetime Env.now Env.normalized_ad 1)
    as [e|r] eqn:E; [vm_compute in E; discriminate E|].
  exists r. split; [reflexivity|].
  destruct (enriched_record_fields _ _ _ _ _ _ _ E)
    as (Hc & (d & Hd & Hdur) & _ & _ & _ & _ & Hn).
  split; [|split].
  - rewrite (Hc "ad_id"); [reflexivity|]. left.
  - rewrite Hdur. vm_compute in Hd. congruence.
  - exact Hn.
Defined.

(** C9 as stated fails: the normalized record has [normalized_at] and the
    enriched record has not. *)
Lemma normalized_at_dropped :
  exists r,
    _enrich_single_record Env.detect Sample.str_to_float
      Env.validate_datetime Env.now Env.normalized_ad 1 = ret r
    /\ ~ (forall k,
             is_Some (AdNormalizedSchema.model_dump Env.normalized_ad !! k) ->
             r !! k = AdNormalizedSchema.model_dump Env.normalized_ad !! k).
Proof.
  eexists. split; [vm_compute; reflexivity|].
  intros H. specialize (H "normalized_at"). vm_compute in H.
  discriminate H. eexists. reflexivity.
Qed.

(** ** The stage functions *)

Lemma read_lines_text (fs : files) (i : string) (lines : list string) :
  fs !! i = Some (Text lines) -> read_lines fs i = ret lines.
Proof. intros H. unfold read_lines. rewrite H. reflexivity. Qed.

Lemma read_lines_raises (fs : files) (i : string) :
  raises (read_lines fs i) <-> forall lines, fs !! i <> Some (Text lines).
Proof.
  unfold read_lines, raises. destruct (fs !! i) as [[lines| |]|]; split.
  - intros [e He]. discriminate He.
  - intros H. destruct (H lines eq_refl).
  - discriminate.
  - eauto.
  - discriminate.
  - eauto.
  - discriminate.
  - eauto.
Qed.

Lemma read_lines_missing (fs : files) (i : string) :
  read_lines fs i = raise FileNotFoundError <-> fs !! i = None.
Proof.
  unfold read_lines. destruct (fs !! i) as [[lines| |]|]; split;
    try discriminate; reflexivity.
Qed.

Lemma reraise_cases (e : exn) :
  reraise e = FileNotFoundError \/ exists cause, reraise e = RuntimeError cause.
Proof. destruct e; simpl; eauto. Qed.

Lemma raises_inl {A} (e : exn) : raises (@inl exn A e).
Proof. exists e. reflexivity. Qed.

Lemma raises_inr {A} (a : A) : ~ raises (@inr exn A a).
Proof. intros [e He]. discriminate He. Qed.

Lemma result_unit (m : result unit) : m = ret tt \/ raises m.
Proof. destruct m as [e|[]]; [right; apply raises_inl|left; reflexivity]. Qed.

Lemma bind_ret_raises {A B} (m : result A) (f : A -> B) :
  (raises (let* x := m in ret (f x)) <-> raises m)
  /\ (forall e, (let* x := m in ret (f x)) = raise e <-> m = raise e).
Proof.
  destruct m as [e0|a]; cbn [bind]; split.
  - split; intros _; apply raises_inl.
  - intros e. unfold raise. split; intros [= ->]; reflexivity.
  - split; intros H; destruct (raises_inr _ H).
  - intros e. split; discriminate.
Qed.

Section Stages.
Variable json_loads : string -> result pyval.
Variable json_dumps : dict -> string.
Variable to_csv : list dict -> result (list string).
Variable detect : string -> result string.
Variable py_str : pyval -> string.
Variable str_to_float : string -> result float.
Variable validate_datetime : pyval -> result datetime.
Variable now : nat -> datetime.
Variable timestamp : string.
Variable sort_reverse : list (float * dict) -> list (float * dict).
Variable mkdir : string -> result unit.
Variable open_w : string -> result unit.
Variable failed_write : files -> string -> files.

Let normalize :=
  normalize_ads json_loads json_dumps validate_datetime now timestamp mkdir
    open_w.
Let enrich :=
  enrich_ads json_loads json_dumps detect str_to_float validate_datetime now
    timestamp mkdir open_w.
Let rank :=
  rank_ads json_loads to_csv py_str str_to_float validate_datetime now
    timestamp sort_reverse mkdir failed_write.
Let process := _process_raw_data json_loads validate_datetime now.
Let process' :=
  _process_normalized_data json_loads detect str_to_float validate_datetime
    now.
Let load := _load_enriched_ads json_loads str_to_float validate_datetime now.
Let top := top_10_ads py_str str_to_float sort_reverse.

(** The three stage functions, step by step. *)
Lemma normalize_ads_value (fs : files) (i : string) (o : option string) :
  normalize fs i o
  = let p := default (silver_path timestamp) o in
    match mkdir p with
    | inl e => (raise (reraise e), fs)
    | inr _ =>
        match process fs i with
        | inl e => (raise (reraise e), fs)
        | inr (data, stats) =>
            match open_w p with
            | inl e => (raise (reraise e), fs)
            | inr _ => (ret p, <[p := Text (jsonl json_dumps data)]> fs)
            end
        end
    end.
Proof.
  unfold normalize, normalize_ads, _ensure_output_directory,
    _write_normalized_data, silver_path, process, jsonl.
  destruct o as [p|]; cbn [default]; cbv zeta;
    (destruct (mkdir _) as [e|[]]; [reflexivity|]); cbn [bind];
    (destruct (_process_raw_data _ _ _ fs i) as [e|[data stats]];
     [reflexivity|]); cbn [bind];
    (destruct (open_w _) as [e|[]]; reflexivity).
Qed.

Lemma enrich_ads_value (fs : files) (i : string) (o : option string) :
  enrich fs i o
  = let p := default (gold_path timestamp) o in
    match mkdir p with
    | inl e => (raise (reraise e), fs)
    | inr _ =>
        match process' fs i with
        | inl e => (raise (reraise e), fs)
        | inr (data, stats) =>
            match open_w p with
            | inl e => (raise (reraise e), fs)
            | inr _ => (ret p, <[p := Text (jsonl json_dumps data)]> fs)
            end
        end
    end.
Proof.
  unfold enrich, enrich_ads, _ensure_output_directory,
    _write_enriched_data, gold_path, process', jsonl.
  destruct o as [p|]; cbn [default]; cbv zeta;
    (destruct (mkdir _) as [e|[]]; [reflexivity|]); cbn [bind];
    (destruct (_process_normalized_data _ _ _ _ _ fs i)
       as [e|[data stats]]; [reflexivity|]); cbn [bind];
    (destruct (open_w _) as [e|[]]; reflexivity).
Qed.

Lemma rank_ads_value (fs : files) (i : string) (o : option string) :
  rank fs i o
  = let p := default (top10_path timestamp) o in
    match load fs i with
    | inl e => (raise (reraise e), fs)
    | inr ([], stats) => (ret p, fs)
    | inr (ads, stats) =>
        match top ads with
        | inl e => (raise (reraise e), fs)
        | inr top_ads =>
            match mkdir p with
            | inl e => (raise (reraise e), fs)
            | inr _ =>
                match to_csv top_ads with
                | inl e => (raise (reraise e), failed_write fs p)
                | inr rows => (ret p, <[p := Text rows]> fs)
                end
            end
        end
    end.
Proof.
  unfold rank, rank_ads, _save_ranking_results, top10_path, load, top.
  destruct o as [p|]; cbn [default]; cbv zeta;
    (destruct (_load_enriched_ads _ _ _ _ fs i) as [e|[[|ad ads] stats]];
     [reflexivity|reflexivity|]);
    (destruct (top_10_ads _ _ _ (ad :: ads)) as [e|top_ads];
     [reflexivity|]);
    (destruct (mkdir _) as [e|[]]; [reflexivity|]);
    (destruct (to_csv top_ads) as [e|rows]; reflexivity).
Qed.

Lemma process_value (fs : files) (i : string) :
  process fs i
  = let* lines := read_lines fs i in
    ret (normalize_loop json_loads validate_datetime now 1 lines
           ([], initial_stats)).
Proof. reflexivity. Qed.

Lemma process_raises (fs : files) (i : string) :
  (raises (process fs i) <-> raises (read_lines fs i))
  /\ (forall e, process fs i = raise e <-> read_lines fs i = raise e).
Proof. apply bind_ret_raises. Qed.

Lemma process'_raises (fs : files) (i : string) :
  (raises (process' fs i) <-> raises (read_lines fs i))
  /\ (forall e, process' fs i = raise e <-> read_lines fs i = raise e).
Proof. apply bind_ret_raises. Qed.

Lemma load_raises (fs : files) (i : string) :
  (raises (load fs i) <-> raises (read_lines fs i))
  /\ (forall e, load fs i = raise e <-> read_lines fs i = raise e).
Proof. apply bind_ret_raises. Qed.

Lemma proxy_score_dump (x : AdEnrichedSchema.t) :
  exists s, proxy_score py_str str_to_float (AdEnrichedSchema.model_dump x)
            = ret s.
Proof.
  unfold proxy_score, dict_get, AdEnrichedSchema.model_dump.
  simplify_map_eq. eexists. reflexivity.
Qed.

Lemma keyed_dumps (ads : list dict) :
  Forall (fun d => exists x, d = AdEnrichedSchema.model_dump x) ads ->
  exists ks, keyed py_str str_to_float ads = ret ks.
Proof.
  induction 1 as [|d ads [x ->] _ [ks IH]]; simpl; [eexists; reflexivity|].
  destruct (proxy_score_dump x) as [s ->]. rewrite IH.
  eexists. reflexivity.
Qed.

Lemma load_loop_dumps (lines : list string) (ln : nat)
  (st : list dict * counters) :
  Forall (fun d => exists x, d = AdEnrichedSchema.model_dump x) st.1 ->
  Forall (fun d => exists x, d = AdEnrichedSchema.model_dump x)
    (load_loop json_loads str_to_float validate_datetime now ln lines st).1.
Proof.
  revert ln st. induction lines as [|line lines IH]; intros ln st H;
    simpl; [exact H|].
  apply IH. destruct st as [ads stats]. unfold load_step.
  destruct (let* v := json_loads line in _) as [e|ad]; simpl; [exact H|].
  apply Forall_app. split; [exact H|].
  constructor; [eexists; reflexivity|constructor].
Qed.

(** The records that the ranking stage has loaded can be ranked. *)
Lemma top_loaded (fs : files) (i : string) (ads : list dict)
  (stats : counters) :
  load fs i = ret (ads, stats) -> exists top_ads, top ads = ret top_ads.
Proof.
  unfold load, _load_enriched_ads.
  destruct (read_lines fs i) as [e|lines]; [discriminate|]. cbn [bind].
  intros [= E].
  pose proof (load_loop_dumps lines 1
                ([], <["processed" := 0%nat]> (<["errors" := 0%nat]> ∅))
                (Forall_nil_2 _)) as Hd.
  rewrite E in Hd. cbn [fst] in Hd.
  destruct (keyed_dumps _ Hd) as [ks Hks].
  unfold top, top_10_ads. rewrite Hks.
  destruct ads; eexists; reflexivity.
Qed.

(** C7, as the code has it.  Failures of single records never make a
    stage raise: with an input of text lines, whatever they are, the stage
    returns its output path, provided the directory of the output can be
    made and the output can be written.  A stage raises exactly when
    reading the input itself fails (the file is absent, cannot be opened or
    does not decode), or making the output directory or writing the output
    fails; for ranking the output counts only when there is a record to
    write.  What it raises is [FileNotFoundError], as for the absent
    input, or a [RuntimeError] that carries the cause. *)
Theorem stage_raises_iff (fs : files) (i : string) (o : option string) :
  (raises (normalize fs i o).1
   <-> raises (mkdir (default (silver_path timestamp) o))
       \/ raises (read_lines fs i)
       \/ raises (open_w (default (silver_path timestamp) o)))
  /\ (raises (enrich fs i o).1
      <-> raises (mkdir (default (gold_path timestamp) o))
          \/ raises (read_lines fs i)
          \/ raises (open_w (default (gold_path timestamp) o)))
  /\ (raises (rank fs i o).1
      <-> raises (read_lines fs i)
          \/ exists ads stats top_ads,
               load fs i = ret (ads, stats) /\ ads <> []
               /\ top ads = ret top_ads
               /\ (raises (mkdir (default (top10_path timestamp) o))
                   \/ raises (to_csv top_ads)))
  /\ (raises (read_lines fs i) <-> forall lines, fs !! i <> Some (Text lines))
  /\ (forall e,
         (normalize fs i o).1 = raise e \/ (enrich fs i o).1 = raise e
         \/ (rank fs i o).1 = raise e ->
         e = FileNotFoundError \/ exists cause, e = RuntimeError cause)
  /\ (fs !! i = None ->
      (rank fs i o).1 = raise FileNotFoundError
      /\ (mkdir (default (silver_path timestamp) o) = ret tt ->
          (normalize fs i o).1 = raise FileNotFoundError)
      /\ (mkdir (default (gold_path timestamp) o) = ret tt ->
          (enrich fs i o).1 = raise FileNotFoundError))
  /\ (forall lines,
         fs !! i = Some (Text lines) ->
         (mkdir (default (silver_path timestamp) o) = ret tt ->
          open_w (default (silver_path timestamp) o) = ret tt ->
          (normalize fs i o).1 = ret (default (silver_path timestamp) o))
         /\ (mkdir (default (gold_path timestamp) o) = ret tt ->
             open_w (default (gold_path timestamp) o) = ret tt ->
             (enrich fs i o).1 = ret (default (gold_path timestamp) o))
         /\ (mkdir (default (top10_path timestamp) o) = ret tt ->
             (forall rows, exists out, to_csv rows = ret out) ->
             (rank fs i o).1 = ret (default (top10_path timestamp) o))).
Proof.
  rewrite normalize_ads_value, enrich_ads_value, rank_ads_value. cbv zeta.
  set (pn := default (silver_path timestamp) o).
  set (pe := default (gold_path timestamp) o).
  set (pr := default (top10_path timestamp) o).
  destruct (process_raises fs i) as [Pn Pn'].
  destruct (process'_raises fs i) as [Pe Pe'].
  destruct (load_raises fs i) as [Pl Pl'].
  split; [|split; [|split; [|split; [|split; [|split]]]]].
  - destruct (mkdir pn) as [e|[]]; [split; [left; apply raises_inl|]|].
    { intros _. apply raises_inl. }
    destruct (process fs i) as [e|[data stats]] eqn:E.
    { split; [intros _; right; left; apply Pn, raises_inl|].
      intros _. apply raises_inl. }
    destruct (open_w pn) as [e|[]]; [split; [right; right; apply raises_inl|]|].
    { intros _. apply raises_inl. }
    split; [intros H; destruct (raises_inr _ H)|].
    intros [H|[H|H]]; try destruct (raises_inr _ H).
    apply Pn in H. destruct (raises_inr _ H).
  - destruct (mkdir pe) as [e|[]]; [split; [left; apply raises_inl|]|].
    { intros _. apply raises_inl. }
    destruct (process' fs i) as [e|[data stats]] eqn:E.
    { split; [intros _; right; left; apply Pe, raises_inl|].
      intros _. apply raises_inl. }
    destruct (open_w pe) as [e|[]]; [split; [right; right; apply raises_inl|]|].
    { intros _. apply raises_inl. }
    split; [intros H; destruct (raises_inr _ H)|].
    intros [H|[H|H]]; try destruct (raises_inr _ H).
    apply Pe in H. destruct (raises_inr _ H).
  - destruct (load fs i) as [e|[ads stats]] eqn:E.
    { split; [intros _; left; apply Pl, raises_inl|].
      intros _. apply raises_inl. }
    assert (Hl : ~ raises (read_lines fs i)).
    { intros H. apply Pl in H. destruct (raises_inr _ H). }
    destruct (top_loaded fs i ads stats E) as [top_ads Ht].
    destruct ads as [|ad ads].
    { split; [intros H; destruct (raises_inr _ H)|].
      intros [H|(ads' & stats' & t' & [= <- <-] & Hne & _)];
        [contradiction|congruence]. }
    rewrite Ht. unfold ret.
    destruct (mkdir pr) as [e|[]].
    { split; [|intros _; apply raises_inl]. intros _. right.
      exists (ad :: ads), stats, top_ads.
      repeat split; [discriminate|exact Ht|left; apply raises_inl]. }
    destruct (to_csv top_ads) as [e|rows] eqn:Ec.
    { split; [|intros _; apply raises_inl]. intros _. right.
      exists (ad :: ads), stats, top_ads.
      repeat split; [discriminate|exact Ht|right].
      rewrite Ec. apply raises_inl. }
    split; [intros H; destruct (raises_inr _ H)|].
    intros [H|(ads' & stats' & t' & [= <- <-] & Hne & Ht' & Hc)];
      [contradiction|].
    rewrite Ht in Ht'. injection Ht' as <-. rewrite Ec in Hc.
    destruct Hc as [H|H]; destruct (raises_inr _ H).
  - apply read_lines_raises.
  - intros e H.
    assert (R : forall m : result string * files,
               (exists e' fs', m = (raise (reraise e'), fs'))
               \/ (exists p fs', m = (ret p, fs')) ->
               m.1 = raise e ->
               e = FileNotFoundError \/ exists cause, e = RuntimeError cause).
    { intros m [(e' & fs' & ->)|(p & fs' & ->)]; [|discriminate].
      intros [= <-]. apply reraise_cases. }
    destruct H as [H|[H|H]]; revert H; apply R.
    + destruct (mkdir pn) as [?|[]]; [left; eauto|].
      destruct (process fs i) as [?|[data stats]]; [left; eauto|].
      destruct (open_w pn) as [?|[]]; [left; eauto|right; eauto].
    + destruct (mkdir pe) as [?|[]]; [left; eauto|].
      destruct (process' fs i) as [?|[data stats]]; [left; eauto|].
      destruct (open_w pe) as [?|[]]; [left; eauto|right; eauto].
    + destruct (load fs i) as [?|[[|ad ads] stats]];
        [left; eauto|right; eauto|].
      destruct (top (ad :: ads)) as [?|top_ads]; [left; eauto|].
      destruct (mkdir pr) as [?|[]]; [left; eauto|].
      destruct (to_csv top_ads) as [?|rows]; [left; eauto|right; eauto].
  - intros H. apply read_lines_missing in H.
    rewrite (proj2 (Pn' _) H), (proj2 (Pe' _) H), (proj2 (Pl' _) H).
    split; [reflexivity|]. split; intros ->; reflexivity.
  - intros lines H. apply read_lines_text in H.
    unfold process, process', load, _process_raw_data,
      _process_normalized_data, _load_enriched_ads in *.
    rewrite H in *. cbn [bind ret] in *.
    split; [|split].
    + intros -> ->. destruct (normalize_loop _ _ _ 1 lines _). reflexivity.
    + intros -> ->.
      destruct (enrich_loop _ _ _ _ _ 1 lines _). reflexivity.
    + intros Hm Hc.
      destruct (top_loaded fs i (load_loop json_loads str_to_float
                                   validate_datetime now 1 lines
                                   ([], <["processed" := 0%nat]>
                                          (<["errors" := 0%nat]> ∅))).1
                  (load_loop json_loads str_to_float validate_datetime now 1
                     lines ([], <["processed" := 0%nat]>
                                  (<["errors" := 0%nat]> ∅))).2)
        as [top_ads Ht].
      { unfold load, _load_enriched_ads. rewrite H. cbn [bind ret].
        destruct (load_loop _ _ _ _ 1 lines _). reflexivity. }
      destruct (load_loop _ _ _ _ 1 lines _) as [[|ad ads] stats];
        [reflexivity|].
      cbn [fst] in Ht. rewrite Ht, Hm. unfold ret. cbv beta iota.
      destruct (Hc top_ads) as [out ->]. reflexivity.
Qed.

(** C8, as the code has it.  Normalization and enrichment write their
    buffer, empty or not, to the output path they return.  Ranking writes
    the table only when at least one record was loaded; with none it
    returns the path and leaves the files as they were. *)
Theorem stage_output_written (fs fs' : files) (i p : string)
  (o : option string) :
  (normalize fs i o = (ret p, fs') ->
   exists data stats,
     process fs i = ret (data, stats)
     /\ fs' !! p
        = Some (Text ((fun item => json_dumps item ++ newline) <$> data)))
  /\ (enrich fs i o = (ret p, fs') ->
      exists data stats,
        process' fs i = ret (data, stats)
        /\ fs' !! p
           = Some (Text ((fun item => json_dumps item ++ newline) <$> data)))
  /\ (rank fs i o = (ret p, fs') ->
      exists ads stats,
        load fs i = ret (ads, stats)
        /\ (ads = [] -> fs' = fs)
        /\ (ads <> [] ->
            exists top_ads rows,
              top ads = ret top_ads /\ to_csv top_ads = ret rows
              /\ fs' !! p = Some (Text rows))).
Proof.
  rewrite normalize_ads_value, enrich_ads_value, rank_ads_value. cbv zeta.
  split; [|split].
  - destruct (mkdir _) as [?|[]]; [discriminate|].
    destruct (process fs i) as [?|[data stats]]; [discriminate|].
    destruct (open_w _) as [?|[]]; [discriminate|].
    intros [= <- <-]. exists data, stats. split; [reflexivity|].
    apply lookup_insert_eq.
  - destruct (mkdir _) as [?|[]]; [discriminate|].
    destruct (process' fs i) as [?|[data stats]]; [discriminate|].
    destruct (open_w _) as [?|[]]; [discriminate|].
    intros [= <- <-]. exists data, stats. split; [reflexivity|].
    apply lookup_insert_eq.
  - destruct (load fs i) as [?|[[|ad ads] stats]]; [discriminate| |].
    + intros [= <- <-]. exists [], stats.
      split; [reflexivity|]. split; [reflexivity|congruence].
    + destruct (top (ad :: ads)) as [?|top_ads] eqn:Et; [discriminate|].
      destruct (mkdir _) as [?|[]]; [discriminate|].
      destruct (to_csv top_ads) as [?|rows] eqn:Ec; [discriminate|].
      intros [= <- <-]. exists (ad :: ads), stats.
      split; [reflexivity|]. split; [discriminate|].
      intros _. exists top_ads, rows.
      split; [exact Et|]. split; [exact Ec|]. apply lookup_insert_eq.
Qed.
End Stages.

Lemma stage_output_written_witness :
  exists data stats,
    _process_raw_data Env.json_loads Env.validate_datetime Env.now
      Env2.fs_bad "in.jsonl" = ret (data, stats)
    /\ (<["out.jsonl" := Text []]> Env2.fs_bad : files) !! "out.jsonl"
       = Some (Text ((fun item => Env.json_dumps item ++ newline) <$> data)).
Proof.
  apply (proj1 (stage_output_written Env.json_loads Env.json_dumps Env.to_csv
                  Env.detect Sample.py_str Sample.str_to_float
                  Env.validate_datetime Env.now Env.timestamp sorted_desc
                  Env.mkdir Env.open_w Env.failed_write
                  Env2.fs_bad (<["out.jsonl" := Text []]> Env2.fs_bad)
                  "in.jsonl" "out.jsonl" (Some "out.jsonl"))).
  vm_compute. reflexivity.
Defined.

(** C8 as stated fails for the ranking stage: with no valid record it
    returns the path of a file that it has not written. *)
Lemma rank_ads_no_output :
  rank_ads Env.json_loads Env.to_csv Sample.py_str Sample.str_to_float
    Env.validate_datetime Env.now Env.timestamp sorted_desc Env.mkdir
    Env.failed_write Env2.fs_bad "in.jsonl" (Some "top10.csv")
  = (ret "top10.csv", Env2.fs_bad)
  /\ Env2.fs_bad !! "top10.csv" = None.
Proof. split; vm_compute; reflexivity. Qed.

(** C7 as stated fails: a stage can raise although its input file is
    there.  Normalization raises a [RuntimeError] on an input whose bytes
    do not decode, and ranking raises one when the table of a validated
    record cannot be written. *)
Lemma stage_raises_with_input :
  Env2.fs_undecodable !! "in.jsonl" = Some Undecodable
  /\ (normalize_ads Env.json_loads Env.json_dumps Env.validate_datetime
        Env.now Env.timestamp Env.mkdir Env.open_w Env2.fs_undecodable
        "in.jsonl" (Some "out.jsonl")).1
     = raise (RuntimeError UnicodeDecodeError)
  /\ Env2.fs_enriched !! "in.jsonl" = Some (Text ["enriched"])
  /\ (rank_ads Env2.json_loads Env2.to_csv Sample.py_str Sample.str_to_float
        Env.validate_datetime Env.now Env.timestamp sorted_desc Env.mkdir
        Env.failed_write Env2.fs_enriched "in.jsonl" (Some "top10.csv")).1
     = raise (RuntimeError ValueError).
Proof. repeat split; vm_compute; reflexivity. Qed.

(** ** Normalization of one record *)

Lemma validate_field_str (d : dict) (k : string) :
  field_ok is_str d k = true ->
  validate_str (dict_get d k (VStr "")) = ret (str_of (dict_get d k (VStr ""))).
Proof.
  unfold field_ok, dict_get. destruct (d !! k) as [[]|]; try discriminate;
    reflexivity.
Qed.

Lemma validate_field_opt_str (d : dict) (k : string) :
  field_ok is_opt_str d k = true ->
  validate_opt_str (dict_get d k VNone) = ret (opt_of (dict_get d k VNone)).
Proof.
  unfold field_ok, dict_get. destruct (d !! k) as [[]|]; try discriminate;
    reflexivity.
Qed.

Lemma validate_strs_forall (l : list pyval) :
  forallb is_str l = true -> validate_strs l = ret (str_of <$> l).
Proof.
  induction l as [|v l IH]; [reflexivity|]. simpl forallb.
  intros H. apply andb_true_iff in H as [Hv H].
  destruct v; try discriminate Hv. rewrite fmap_cons.
  cbn [validate_strs validate_str bind ret]. rewrite (IH H). reflexivity.
Qed.

Lemma validate_field_list_str (d : dict) (k : string) :
  field_ok is_list_str d k = true ->
  validate_list_str (dict_get d k (VList []))
  = ret (strs_of (dict_get d k (VList []))).
Proof.
  unfold field_ok, dict_get. destruct (d !! k) as [[]|]; try discriminate;
    [|reflexivity].
  simpl. apply validate_strs_forall.
Qed.

Section Normalization.
Variable json_loads : string -> result pyval.
Variable validate_datetime : pyval -> result datetime.
Variable now : nat -> datetime.

Let single := _normalize_single_record validate_datetime now.
Let step := normalize_step json_loads validate_datetime now.
Let loop := normalize_loop json_loads validate_datetime now.

Lemma normalize_well_formed (v : pyval) (ln : nat) :
  well_formed_raw v = true ->
  single v ln
  = ret (Some (AdNormalizedSchema.model_dump
                 (expected_normalized v (now ln)))).
Proof.
  destruct v as [| | | | | |d|]; try discriminate.
  unfold well_formed_raw, single, _normalize_single_record,
    expected_normalized, py_get.
  cbn [bind ret]. cbv zeta.
  destruct (eq_str (dict_get d "source" (VStr "unknown")) "mock") eqn:Em.
  - destruct (dict_get d "raw_data" (VDict ∅)) as [| | | | | |rd|];
      try discriminate.
    unfold mock_payload. rewrite !andb_true_iff.
    intros [[[[H1 H2] H3] H4] H5].
    unfold _normalize_mock_record, py_get. cbn [bind ret].
    unfold AdNormalizedSchema.make, required, optional.
    simplify_map_eq.
    rewrite (validate_field_str _ _ H1), (validate_field_str _ _ H2).
    cbn [bind ret].
    rewrite (validate_field_opt_str _ _ H3). cbn [bind ret].
    rewrite (validate_field_list_str _ _ H4). cbn [bind ret].
    rewrite (validate_field_str _ _ H5). reflexivity.
  - destruct (eq_str (dict_get d "source" (VStr "unknown")) "api") eqn:Ea;
      [|discriminate].
    destruct (dict_get d "raw_data" (VDict ∅)) as [| | | | | |rd|];
      try discriminate.
    unfold api_payload. rewrite !andb_true_iff. intros [H1 H2].
    unfold _normalize_api_record, py_get. cbn [bind ret].
    unfold AdNormalizedSchema.make, required, optional.
    simplify_map_eq.
    rewrite (validate_field_str _ _ H1), (validate_field_str _ _ H2).
    reflexivity.
Qed.

Lemma normalize_unknown_source (v : pyval) (ln : nat) :
  unknown_source v = true -> single v ln = ret None.
Proof.
  destruct v as [| | | | | |d|]; try discriminate.
  unfold unknown_source, single, _normalize_single_record, py_get.
  cbn [bind ret]. cbv zeta. rewrite andb_true_iff, !negb_true_iff.
  intros [-> ->]. reflexivity.
Qed.

Lemma model_dump_truthy (x : AdNormalizedSchema.t) :
  truthy (Some (AdNormalizedSchema.model_dump x)) = true.
Proof.
  unfold truthy. apply negb_true_iff, bool_decide_eq_false_2.
  unfold AdNormalizedSchema.model_dump. apply insert_non_empty.
Qed.

Lemma untimed_dump (x : AdNormalizedSchema.t) :
  untimed (AdNormalizedSchema.model_dump x)
  = <["ad_id" := VStr (AdNormalizedSchema.ad_id x)]>
      (<["ad_text" := VStr (AdNormalizedSchema.ad_text x)]>
         (<["active" := opt_str (AdNormalizedSchema.active x)]>
            (<["media" := strs (AdNormalizedSchema.media x)]>
               (<["country" := VStr (AdNormalizedSchema.country x)]> ∅)))).
Proof.
  unfold untimed, AdNormalizedSchema.model_dump.
  rewrite !delete_insert_ne by discriminate.
  rewrite delete_insert_eq, delete_empty. reflexivity.
Qed.

Lemma untimed_expected (v : pyval) (t t' : datetime) :
  untimed (AdNormalizedSchema.model_dump (expected_normalized v t))
  = untimed (AdNormalizedSchema.model_dump (expected_normalized v t')).
Proof.
  rewrite !untimed_dump. unfold expected_normalized. cbv zeta.
  destruct (eq_str _ "mock"); reflexivity.
Qed.

(** A well-formed line adds its record and counts as processed. *)
Lemma step_good (ln : nat) (line : string) (data : list dict)
  (stats : counters) :
  good_line json_loads line ->
  exists r, step ln line (data, stats)
            = ((data ++ [r])%list, incr "processed" stats)
            /\ untimed r = line_record json_loads line.
Proof.
  intros (v & Hv & Hwf). unfold step, normalize_step. rewrite Hv.
  cbn [bind ret]. fold single. rewrite (normalize_well_formed v ln Hwf).
  unfold ret at 1. cbv iota beta. rewrite model_dump_truthy.
  exists (AdNormalizedSchema.model_dump (expected_normalized v (now ln))).
  split; [reflexivity|].
  unfold line_record. rewrite Hv. unfold ret. apply untimed_expected.
Qed.

(** A bad line adds nothing and counts as skipped. *)
Lemma step_bad (ln : nat) (line : string) (data : list dict)
  (stats : counters) :
  bad_line json_loads line ->
  step ln line (data, stats) = (data, incr "skipped" stats).
Proof.
  intros [[e He] | (v & Hv & Hu)]; unfold step, normalize_step.
  - rewrite He. reflexivity.
  - rewrite Hv. cbn [bind ret]. fold single.
    rewrite (normalize_unknown_source v ln Hu). reflexivity.
Qed.
End Normalization.

(** ** Fault isolation of the normalization loop *)

Lemma lookup_incr_eq (k : string) (m : counters) :
  incr k m !! k = Some (S (default 0%nat (m !! k))).
Proof. unfold incr. apply lookup_insert_eq. Qed.

Lemma lookup_incr_ne (k k' : string) (m : counters) :
  k <> k' -> incr k m !! k' = m !! k'.
Proof. intros H. unfold incr. apply lookup_insert_ne. exact H. Qed.

Lemma lookup_iter_incr_eq (k : string) (n c : nat) (m : counters) :
  m !! k = Some c -> Nat.iter n (incr k) m !! k = Some (n + c)%nat.
Proof.
  intros H. induction n as [|n IH]; simpl; [exact H|].
  rewrite lookup_incr_eq, IH. reflexivity.
Qed.

Lemma lookup_iter_incr_ne (k k' : string) (n : nat) (m : counters) :
  k <> k' -> Nat.iter n (incr k) m !! k' = m !! k'.
Proof.
  intros H. induction n as [|n IH]; simpl; [reflexivity|].
  rewrite lookup_incr_ne by exact H. exact IH.
Qed.

Section FaultIsolation.
Variable json_loads : string -> result pyval.
Variable validate_datetime : pyval -> result datetime.
Variable now : nat -> datetime.

Let loop := normalize_loop json_loads validate_datetime now.

Lemma loop_app (l1 l2 : list string) (ln : nat) (st : list dict * counters) :
  loop ln (l1 ++ l2)%list st = loop (ln + length l1) l2 (loop ln l1 st).
Proof.
  revert ln st. induction l1 as [|line l1 IH]; intros ln st; simpl.
  - rewrite Nat.add_0_r. reflexivity.
  - unfold loop in *. rewrite IH. f_equal. lia.
Qed.

(** A run of well-formed lines adds one record for each of them. *)
Lemma loop_good (lines : list string) (ln : nat) (data : list dict)
  (stats : counters) :
  Forall (good_line json_loads) lines ->
  exists rs,
    loop ln lines (data, stats)
    = ((data ++ rs)%list, Nat.iter (length lines) (incr "processed") stats)
    /\ untimed <$> rs = line_record json_loads <$> lines.
Proof.
  intros H. revert ln data stats.
  induction H as [|line lines Hl _ IH]; intros ln data stats.
  - exists []. rewrite app_nil_r. split; reflexivity.
  - destruct (step_good json_loads validate_datetime now ln line data stats
                Hl) as (r & Hr & Hu).
    destruct (IH (S ln) (data ++ [r])%list (incr "processed" stats))
      as (rs & Hrs & Hus).
    exists (r :: rs). split.
    + unfold loop in *. cbn [normalize_loop length]. rewrite Hr, Hrs.
      rewrite <- app_assoc, Nat.iter_succ_r. reflexivity.
    + rewrite !fmap_cons, Hu, Hus. reflexivity.
Qed.

(** C1. A file of N well-formed lines and one bad line, anywhere among
    them, is processed to the end: N records are counted as processed and
    one as skipped, and the output is the N records of the well-formed
    lines, in order, as in the run without the bad line. *)
Theorem fault_isolation (fs : files) (path : string)
  (before after : list string) (bad : string) :
  Forall (good_line json_loads) (before ++ after) ->
  bad_line json_loads bad ->
  fs !! path = Some (Text (before ++ bad :: after)) ->
  exists out stats,
    _process_raw_data json_loads validate_datetime now fs path
    = ret (out, stats)
    /\ stats !! "processed" = Some (length (before ++ after))
    /\ stats !! "skipped" = Some 1%nat
    /\ length out = length (before ++ after)
    /\ untimed <$> out = line_record json_loads <$> (before ++ after)%list
    /\ exists out' stats',
        _process_raw_data json_loads validate_datetime now
          (<[path := Text (before ++ after)]> fs) path = ret (out', stats')
        /\ untimed <$> out = untimed <$> out'.
Proof.
  intros Hgood Hbad Hfs.
  apply Forall_app in Hgood as [Hb Ha].
  unfold _process_raw_data, read_lines. rewrite Hfs, lookup_insert_eq.
  cbn [bind ret]. fold loop. fold initial_stats.
  rewrite (loop_app before (bad :: after)).
  destruct (loop_good before 1 [] initial_stats Hb) as (rs1 & E1 & U1).
  rewrite E1. cbn [normalize_loop loop]. unfold loop.
  cbn [normalize_loop].
  rewrite (step_bad json_loads validate_datetime now _ bad _ _ Hbad).
  fold loop.
  destruct (loop_good after (S (1 + length before)) ([] ++ rs1)%list
              (incr "skipped"
                 (Nat.iter (length before) (incr "processed") initial_stats))
              Ha) as (rs2 & E2 & U2).
  rewrite E2.
  destruct (loop_good (before ++ after) 1 [] initial_stats
              (proj2 (Forall_app _ _ _) (conj Hb Ha))) as (rs & E & U).
  rewrite E.
  eexists _, _. split; [reflexivity|].
  split; [|split; [|split; [|split]]].
  - assert (P1 : Nat.iter (length before) (incr "processed") initial_stats
                 !! "processed" = Some (length before + 0)%nat)
      by (apply lookup_iter_incr_eq; reflexivity).
    assert (P2 : incr "skipped"
                   (Nat.iter (length before) (incr "processed")
                      initial_stats) !! "processed"
                 = Some (length before + 0)%nat)
      by (rewrite lookup_incr_ne by discriminate; exact P1).
    rewrite (lookup_iter_incr_eq _ _ _ _ P2), length_app. f_equal. lia.
  - rewrite lookup_iter_incr_ne by discriminate.
    rewrite lookup_incr_eq, lookup_iter_incr_ne by discriminate.
    reflexivity.
  - rewrite !length_app. simpl.
    rewrite <- (length_fmap untimed rs1), <- (length_fmap untimed rs2).
    rewrite U1, U2, !length_fmap. reflexivity.
  - simpl. rewrite !fmap_app, U1, U2. reflexivity.
  - eexists _, _. split; [reflexivity|].
    simpl. rewrite !fmap_app, U1, U2, U, fmap_app. reflexivity.
Qed.
End FaultIsolation.

Lemma fault_isolation_witness :
  exists out stats,
    _process_raw_data Env.json_loads Env.validate_datetime Env.now
      Env2.fs_mixed "in.jsonl" = ret (out, stats)
    /\ stats !! "processed" = Some (length (["mock"] ++ ["api"]))
    /\ stats !! "skipped" = Some 1%nat
    /\ length out = length (["mock"] ++ ["api"])
    /\ untimed <$> out
       = line_record Env.json_loads <$> (["mock"] ++ ["api"])%list
    /\ exists out' stats',
        _process_raw_data Env.json_loads Env.validate_datetime Env.now
          (<["in.jsonl" := Text (["mock"] ++ ["api"])]> Env2.fs_mixed)
          "in.jsonl" = ret (out', stats')
        /\ untimed <$> out = untimed <$> out'.
Proof.
  apply (fault_isolation Env.json_loads Env.validate_datetime Env.now
           Env2.fs_mixed "in.jsonl" ["mock"] ["api"] "not json").
  - repeat constructor; eexists; split; reflexivity.
  - left. eexists. reflexivity.
  - reflexivity.
Defined.

Example unknown_source_is_skipped :
  bad_line Env.json_loads "other"
  /\ normalize_step Env.json_loads Env.validate_datetime Env.now 1 "other"
       ([], initial_stats)
     = ([], incr "skipped" initial_stats).
Proof.
  split; [right; eexists; split; reflexivity|].
  vm_compute. reflexivity.
Qed.

(** ** Counters of the record loops *)

Lemma loop_counts (other : string)
  (step : nat -> string -> list dict * counters -> list dict * counters)
  (loop : nat -> list string -> list dict * counters -> list dict * counters) :
  other <> "processed" ->
  (forall ln st, loop ln [] st = st) ->
  (forall ln line rest st,
      loop ln (line :: rest) st = loop (S ln) rest (step ln line st)) ->
  (forall ln line data stats,
      (exists r, step ln line (data, stats)
                 = ((data ++ [r])%list, incr "processed" stats))
      \/ step ln line (data, stats) = (data, incr other stats)) ->
  forall lines ln data stats p q,
    stats !! "processed" = Some p -> stats !! other = Some q ->
    exists added stats',
      loop ln lines (data, stats) = ((data ++ added)%list, stats')
      /\ stats' !! "processed" = Some (p + length added)%nat
      /\ stats' !! other = Some (q + (length lines - length added))%nat
      /\ (length added <= length lines)%nat.
Proof.
  intros Hne Hnil Hcons Hstep lines.
  induction lines as [|line rest IH]; intros ln data stats p q Hp Hq.
  - exists [], stats. rewrite Hnil, app_nil_r. simpl.
    rewrite !Nat.add_0_r. auto.
  - rewrite Hcons. destruct (Hstep ln line data stats) as [[r ->] | ->].
    + destruct (IH (S ln) (data ++ [r])%list (incr "processed" stats)
                  (S p) q) as (added & stats' & E & P & Q & L).
      { rewrite lookup_incr_eq, Hp. reflexivity. }
      { rewrite lookup_incr_ne by congruence. exact Hq. }
      exists (r :: added), stats'. rewrite E, <- app_assoc. simpl.
      repeat split; [rewrite P; f_equal; lia | exact Q | lia].
    + destruct (IH (S ln) data (incr other stats) p (S q))
        as (added & stats' & E & P & Q & L).
      { rewrite lookup_incr_ne by exact Hne. exact Hp. }
      { rewrite lookup_incr_eq, Hq. reflexivity. }
      exists added, stats'. rewrite E. simpl.
      repeat split; [exact P | rewrite Q; f_equal; lia | lia].
Qed.

Lemma init_processed (other : string) :
  (<["processed" := 0%nat]> (<[other := 0%nat]> ∅) : counters) !! "processed"
  = Some 0%nat.
Proof. apply lookup_insert_eq. Qed.

Lemma init_other (other : string) :
  other <> "processed" ->
  (<["processed" := 0%nat]> (<[other := 0%nat]> ∅) : counters) !! other
  = Some 0%nat.
Proof.
  intros H. rewrite lookup_insert_ne by congruence. apply lookup_insert_eq.
Qed.

Section Counters.
Variable json_loads : string -> result pyval.
Variable detect : string -> result string.
Variable str_to_float : string -> result float.
Variable validate_datetime : pyval -> result datetime.
Variable now : nat -> datetime.

Lemma normalize_step_cases (ln : nat) (line : string) (data : list dict)
  (stats : counters) :
  (exists r, normalize_step json_loads validate_datetime now ln line
               (data, stats)
             = ((data ++ [r])%list, incr "processed" stats))
  \/ normalize_step json_loads validate_datetime now ln line (data, stats)
     = (data, incr "skipped" stats).
Proof.
  unfold normalize_step.
  destruct (let* raw_record := json_loads line in _) as [e|[r|]];
    [right; reflexivity| |right; reflexivity].
  destruct (truthy (Some r)); [left; eexists|right]; reflexivity.
Qed.

Lemma enrich_step_cases (ln : nat) (line : string) (data : list dict)
  (stats : counters) :
  (exists r, enrich_step json_loads detect str_to_float validate_datetime now
               ln line (data, stats)
             = ((data ++ [r])%list, incr "processed" stats))
  \/ enrich_step json_loads detect str_to_float validate_datetime now ln line
       (data, stats)
     = (data, incr "errors" stats).
Proof.
  unfold enrich_step.
  destruct (let* v := json_loads line in _) as [e|r]; [right; reflexivity|].
  destruct (truthy (Some r)); [left; eexists|right]; reflexivity.
Qed.

Lemma load_step_cases (ln : nat) (line : string) (data : list dict)
  (stats : counters) :
  (exists r, load_step json_loads str_to_float validate_datetime now ln line
               (data, stats)
             = ((data ++ [r])%list, incr "processed" stats))
  \/ load_step json_loads str_to_float validate_datetime now ln line
       (data, stats)
     = (data, incr "errors" stats).
Proof.
  unfold load_step.
  destruct (let* v := json_loads line in _) as [e|r];
    [right|left; eexists]; reflexivity.
Qed.

(** X1. Whatever the lines of the input file are, each record loop ends
    with [processed] equal to the number of records it collected and with
    [skipped] (normalization) or [errors] (enrichment, ranking) equal to the
    number of the remaining lines: every line is counted once. *)
Theorem stage_counters (fs : files) (i : string) (lines : list string) :
  fs !! i = Some (Text lines) ->
  (exists data stats,
      _process_raw_data json_loads validate_datetime now fs i
      = ret (data, stats)
      /\ stats !! "processed" = Some (length data)
      /\ stats !! "skipped" = Some (length lines - length data)%nat
      /\ (length data <= length lines)%nat)
  /\ (exists data stats,
         _process_normalized_data json_loads detect str_to_float
           validate_datetime now fs i = ret (data, stats)
         /\ stats !! "processed" = Some (length data)
         /\ stats !! "errors" = Some (length lines - length data)%nat
         /\ (length data <= length lines)%nat)
  /\ (exists data stats,
         _load_enriched_ads json_loads str_to_float validate_datetime now
           fs i = ret (data, stats)
         /\ stats !! "processed" = Some (length data)
         /\ stats !! "errors" = Some (length lines - length data)%nat
         /\ (length data <= length lines)%nat).
Proof.
  intros H. split; [|split].
  - unfold _process_raw_data, read_lines. rewrite H. cbn [bind ret].
    destruct (loop_counts "skipped"
                (normalize_step json_loads validate_datetime now)
                (normalize_loop json_loads validate_datetime now)
                ltac:(discriminate)
                (fun ln st => eq_refl) (fun ln line rest st => eq_refl)
                normalize_step_cases lines 1 []
                (<["processed" := 0%nat]> (<["skipped" := 0%nat]> ∅)) 0%nat
                0%nat (init_processed "skipped")
                (init_other "skipped" ltac:(discriminate))) as
      (added & stats' & E & P & Q & L).
    exists added, stats'. rewrite E. auto.
  - unfold _process_normalized_data, read_lines. rewrite H. cbn [bind ret].
    destruct (loop_counts "errors"
                (enrich_step json_loads detect str_to_float validate_datetime
                   now)
                (enrich_loop json_loads detect str_to_float validate_datetime
                   now)
                ltac:(discriminate)
                (fun ln st => eq_refl) (fun ln line rest st => eq_refl)
                enrich_step_cases lines 1 []
                (<["processed" := 0%nat]> (<["errors" := 0%nat]> ∅)) 0%nat
                0%nat (init_processed "errors")
                (init_other "errors" ltac:(discriminate))) as
      (added & stats' & E & P & Q & L).
    exists added, stats'. rewrite E. auto.
  - unfold _load_enriched_ads, read_lines. rewrite H. cbn [bind ret].
    destruct (loop_counts "errors"
                (load_step json_loads str_to_float validate_datetime now)
                (load_loop json_loads str_to_float validate_datetime now)
                ltac:(discriminate)
                (fun ln st => eq_refl) (fun ln line rest st => eq_refl)
                load_step_cases lines 1 []
                (<["processed" := 0%nat]> (<["errors" := 0%nat]> ∅)) 0%nat
                0%nat (init_processed "errors")
                (init_other "errors" ltac:(discriminate))) as
      (added & stats' & E & P & Q & L).
    exists added, stats'. rewrite E. auto.
Qed.
End Counters.

Lemma stage_counters_witness :
  exists data stats,
    _process_raw_data Env.json_loads Env.validate_datetime Env.now
      Env2.fs_mixed "in.jsonl" = ret (data, stats)
    /\ stats !! "processed" = Some (length data)
    /\ stats !! "skipped" = Some (3 - length data)%nat
    /\ (length data <= 3)%nat.
Proof.
  apply (proj1 (stage_counters Env.json_loads Env.detect Sample.str_to_float
                  Env.validate_datetime Env.now Env2.fs_mixed "in.jsonl"
                  ["mock"; "not json"; "api"] eq_refl)).
Defined.

(** ** Schemas: round trip and required fields *)

Lemma validate_str_error (v : pyval) (e : exn) :
  validate_str v = raise e -> e = ValidationError.
Proof. destruct v; simpl; unfold ret, raise; congruence. Qed.

Lemma validate_opt_str_error (v : pyval) (e : exn) :
  validate_opt_str v = raise e -> e = ValidationError.
Proof. destruct v; simpl; unfold ret, raise; congruence. Qed.

Lemma validate_strs_error (l : list pyval) (e : exn) :
  validate_strs l = raise e -> e = ValidationError.
Proof.
  induction l as [|v l IH]; simpl; [discriminate|].
  destruct (validate_str v) as [e'|s] eqn:Ev; simpl.
  - intros [= <-]. exact (validate_str_error v e' Ev).
  - destruct (validate_strs l) as [e'|ss]; simpl; [|discriminate].
    intros [= <-]. apply IH. reflexivity.
Qed.

Lemma validate_list_str_error (v : pyval) (e : exn) :
  validate_list_str v = raise e -> e = ValidationError.
Proof.
  destruct v; simpl; unfold raise; try congruence.
  apply validate_strs_error.
Qed.

Lemma validate_float_error (str_to_float : string -> result float)
  (v : pyval) (e : exn) :
  validate_float str_to_float v = raise e -> e = ValidationError.
Proof.
  destruct v as [|b|n|x|s|l|d|t]; simpl; unfold ret, raise; try congruence.
  - destruct (int_to_float n); congruence.
  - destruct (str_to_float s); congruence.
Qed.

Lemma required_error {A} (validate : pyval -> result A) (kw : dict)
  (name : string) (e : exn) :
  (forall v e', validate v = raise e' -> e' = ValidationError) ->
  required validate kw name = raise e -> e = ValidationError.
Proof.
  intros H. unfold required. destruct (kw !! name); [apply H|].
  unfold raise. congruence.
Qed.

Lemma optional_error {A} (validate : pyval -> result A) (kw : dict)
  (name : string) (dflt : A) (e : exn) :
  (forall v e', validate v = raise e' -> e' = ValidationError) ->
  optional validate kw name dflt = raise e -> e = ValidationError.
Proof.
  intros H. unfold optional. destruct (kw !! name); [apply H|].
  discriminate.
Qed.

Lemma required_missing {A} (validate : pyval -> result A) (kw : dict)
  (name : string) :
  kw !! name = None -> required validate kw name = raise ValidationError.
Proof. intros H. unfold required. rewrite H. reflexivity. Qed.

(** One field of a constructor: it fails with [ValidationError], or the
    constructor goes on with the value. *)
Ltac field H validators :=
  match goal with
  | |- bind ?m _ = _ =>
      let E := fresh "E" in
      let e := fresh "e" in
      destruct m as [e|?] eqn:E;
      [ cbn [bind]; f_equal;
        first [ apply required_error in E; [exact E | validators]
              | apply optional_error in E; [exact E | validators] ]
      | cbn [bind] ]
  end.

(** X2. A record dumped by [model_dump] and given back to the constructor
    of its schema as keyword arguments yields the same record, for both
    schemas, when the datetime validator accepts datetime objects. *)
Theorem schema_round_trip (validate_datetime : pyval -> result datetime)
  (str_to_float : string -> result float) (now : datetime)
  (Hvd : forall t, validate_datetime (VDatetime t) = ret t) :
  (forall x : AdNormalizedSchema.t,
      AdNormalizedSchema.make validate_datetime now
        (AdNormalizedSchema.model_dump x) = ret x)
  /\ (forall x : AdEnrichedSchema.t,
         AdEnrichedSchema.make validate_datetime str_to_float now
           (AdEnrichedSchema.model_dump x) = ret x).
Proof.
  split; intros [].
  - unfold AdNormalizedSchema.make, AdNormalizedSchema.model_dump, required,
      optional.
    simplify_map_eq. rewrite validate_opt_str_opt_str. cbn [bind ret].
    unfold strs. cbn [validate_list_str]. rewrite validate_strs_strs.
    cbn [bind ret validate_str]. rewrite Hvd. reflexivity.
  - unfold AdEnrichedSchema.make, AdEnrichedSchema.model_dump, required,
      optional.
    simplify_map_eq. rewrite !validate_opt_str_opt_str. cbn [bind ret].
    unfold strs. cbn [validate_list_str]. rewrite validate_strs_strs.
    cbn [bind ret validate_str validate_float]. rewrite Hvd. reflexivity.
Qed.

Lemma schema_round_trip_witness :
  (forall t, Env.validate_datetime (VDatetime t) = ret t)
  /\ AdNormalizedSchema.make Env.validate_datetime 0
       (AdNormalizedSchema.model_dump Env.normalized_ad)
     = ret Env.normalized_ad.
Proof.
  split; [reflexivity|].
  apply (proj1 (schema_round_trip Env.validate_datetime Sample.str_to_float 0
                  (fun t => eq_refl))).
Defined.

(** X3. A constructor called without one of the fields its schema declares
    with [Field(...)] raises [ValidationError], whatever the other arguments
    are: [ad_id], [ad_text] and [country] for the normalized schema, and
    [duration_hours] and [media_type] besides for the enriched one. *)
Theorem schema_required_fields (validate_datetime : pyval -> result datetime)
  (str_to_float : string -> result float) (now : datetime) (kw : dict) :
  (kw !! "ad_id" = None \/ kw !! "ad_text" = None \/ kw !! "country" = None ->
   AdNormalizedSchema.make validate_datetime now kw = raise ValidationError)
  /\ (kw !! "ad_id" = None \/ kw !! "ad_text" = None
      \/ kw !! "country" = None \/ kw !! "duration_hours" = None
      \/ kw !! "media_type" = None ->
      AdEnrichedSchema.make validate_datetime str_to_float now kw
      = raise ValidationError).
Proof.
  pose proof validate_str_error as V1.
  pose proof validate_opt_str_error as V2.
  pose proof validate_list_str_error as V3.
  pose proof (validate_float_error str_to_float) as V4.
  split.
  - intros H. unfold AdNormalizedSchema.make.
    destruct (decide (kw !! "ad_id" = None)) as [M|_];
      [rewrite (required_missing _ _ _ M); reflexivity|].
    field H ltac:(assumption).
    destruct (decide (kw !! "ad_text" = None)) as [M|N2];
      [rewrite (required_missing _ _ _ M); reflexivity|].
    field H ltac:(assumption). field H ltac:(assumption).
    field H ltac:(assumption).
    destruct (decide (kw !! "country" = None)) as [M|N3];
      [rewrite (required_missing _ _ _ M); reflexivity|].
    exfalso. unfold required in *.
    destruct H as [H|[H|H]]; rewrite H in *; try discriminate; congruence.
  - intros H. unfold AdEnrichedSchema.make.
    destruct (decide (kw !! "ad_id" = None)) as [M|_];
      [rewrite (required_missing _ _ _ M); reflexivity|].
    field H ltac:(assumption).
    destruct (decide (kw !! "ad_text" = None)) as [M|N2];
      [rewrite (required_missing _ _ _ M); reflexivity|].
    field H ltac:(assumption). field H ltac:(assumption).
    field H ltac:(assumption).
    destruct (decide (kw !! "country" = None)) as [M|N3];
      [rewrite (required_missing _ _ _ M); reflexivity|].
    field H ltac:(assumption).
    destruct (decide (kw !! "duration_hours" = None)) as [M|N4];
      [rewrite (required_missing _ _ _ M); reflexivity|].
    field H ltac:(assumption).
    destruct (decide (kw !! "media_type" = None)) as [M|N5];
      [rewrite (required_missing _ _ _ M); reflexivity|].
    exfalso. unfold required in *.
    destruct H as [H|[H|[H|[H|H]]]]; rewrite H in *;
      try discriminate; congruence.
Qed.

Lemma schema_required_fields_witness :
  AdEnrichedSchema.make Env.validate_datetime Sample.str_to_float 0
    (<["ad_id" := VStr "a1"]> (<["ad_text" := VInt 3]> ∅))
  = raise ValidationError.
Proof.
  apply (proj2 (schema_required_fields Env.validate_datetime
                  Sample.str_to_float 0 _)).
  right. right. left. reflexivity.
Defined.

(** ** The output of normalization *)

Lemma validate_field_str_bad (d : dict) (k : string) :
  field_ok is_str d k = false ->
  validate_str (dict_get d k (VStr "")) = raise ValidationError.
Proof.
  unfold field_ok, dict_get. destruct (d !! k) as [[]|]; try discriminate;
    reflexivity.
Qed.

Lemma validate_field_opt_str_bad (d : dict) (k : string) :
  field_ok is_opt_str d k = false ->
  validate_opt_str (dict_get d k VNone) = raise ValidationError.
Proof.
  unfold field_ok, dict_get. destruct (d !! k) as [[]|]; try discriminate;
    reflexivity.
Qed.

Lemma validate_strs_bad (l : list pyval) :
  forallb is_str l = false -> validate_strs l = raise ValidationError.
Proof.
  induction l as [|v l IH]; [discriminate|]. simpl forallb.
  intros H. apply andb_false_iff in H as [Hv|H].
  - destruct v; try discriminate Hv; reflexivity.
  - cbn [validate_strs]. destruct (validate_str v) as [e|s] eqn:E.
    + rewrite (validate_str_error v e E). reflexivity.
    + cbn [bind]. rewrite (IH H). reflexivity.
Qed.

Lemma validate_field_list_str_bad (d : dict) (k : string) :
  field_ok is_list_str d k = false ->
  validate_list_str (dict_get d k (VList [])) = raise ValidationError.
Proof.
  unfold field_ok, dict_get. destruct (d !! k) as [[]|]; try discriminate;
    try reflexivity.
  simpl. apply validate_strs_bad.
Qed.

Section NormalizedOutput.
Variable json_loads : string -> result pyval.
Variable validate_datetime : pyval -> result datetime.
Variable now : nat -> datetime.

Let single := _normalize_single_record validate_datetime now.
Let step := normalize_step json_loads validate_datetime now.
Let loop := normalize_loop json_loads validate_datetime now.

Lemma mock_record_ill_typed (t : datetime) (raw_data : pyval) :
  mock_payload raw_data = false ->
  exists e, _normalize_mock_record validate_datetime t raw_data = raise e.
Proof.
  destruct raw_data as [| | | | | |rd|];
    try (intros _; eexists; reflexivity).
  unfold mock_payload, _normalize_mock_record, py_get. cbn [bind ret].
  unfold AdNormalizedSchema.make, required, optional. simplify_map_eq.
  intros H.
  destruct (field_ok is_str rd "ad_id") eqn:H1;
    [rewrite (validate_field_str _ _ H1); cbn [bind ret]
    |rewrite (validate_field_str_bad _ _ H1); eexists; reflexivity].
  destruct (field_ok is_str rd "ad_text") eqn:H2;
    [rewrite (validate_field_str _ _ H2); cbn [bind ret]
    |rewrite (validate_field_str_bad _ _ H2); eexists; reflexivity].
  destruct (field_ok is_opt_str rd "active") eqn:H3;
    [rewrite (validate_field_opt_str _ _ H3); cbn [bind ret]
    |rewrite (validate_field_opt_str_bad _ _ H3); eexists; reflexivity].
  destruct (field_ok is_list_str rd "media") eqn:H4;
    [rewrite (validate_field_list_str _ _ H4); cbn [bind ret]
    |rewrite (validate_field_list_str_bad _ _ H4); eexists; reflexivity].
  destruct (field_ok is_str rd "country") eqn:H5; [discriminate H|].
  rewrite (validate_field_str_bad _ _ H5). eexists. reflexivity.
Qed.

Lemma api_record_ill_typed (t : datetime) (raw_data : pyval) :
  api_payload raw_data = false ->
  exists e, _normalize_api_record validate_datetime t raw_data = raise e.
Proof.
  destruct raw_data as [| | | | | |rd|];
    try (intros _; eexists; reflexivity).
  unfold api_payload, _normalize_api_record, py_get. cbn [bind ret].
  unfold AdNormalizedSchema.make, required, optional. simplify_map_eq.
  intros H.
  destruct (field_ok is_str rd "id") eqn:H1;
    [rewrite (validate_field_str _ _ H1); cbn [bind ret]
    |rewrite (validate_field_str_bad _ _ H1); eexists; reflexivity].
  destruct (field_ok is_str rd "ad_creative_body") eqn:H2;
    [discriminate H|].
  rewrite (validate_field_str_bad _ _ H2). eexists. reflexivity.
Qed.

(** A record that is not well formed yields nothing: the transform returns
    [None], or raises on a value that is not an object. *)
Lemma normalize_ill_formed (v : pyval) (ln : nat) :
  well_formed_raw v = false ->
  single v ln = ret None \/ exists e, single v ln = raise e.
Proof.
  destruct v as [| | | | | |d|]; try (intros _; right; eexists; reflexivity).
  unfold well_formed_raw, single, _normalize_single_record, py_get.
  cbn [bind ret]. cbv zeta. intros H. left.
  destruct (eq_str (dict_get d "source" (VStr "unknown")) "mock").
  - destruct (mock_record_ill_typed (now ln) _ H) as [e ->]. reflexivity.
  - destruct (eq_str (dict_get d "source" (VStr "unknown")) "api");
      [|reflexivity].
    destruct (api_record_ill_typed (now ln) _ H) as [e ->]. reflexivity.
Qed.

Lemma step_line (ln : nat) (line : string) (data : list dict)
  (stats : counters) :
  step ln line (data, stats)
  = match normalized_line json_loads now ln line with
    | Some r => ((data ++ [r])%list, incr "processed" stats)
    | None => (data, incr "skipped" stats)
    end.
Proof.
  unfold step, normalize_step, normalized_line.
  destruct (json_loads line) as [e|v]; [reflexivity|]. cbn [bind ret].
  destruct (well_formed_raw v) eqn:W.
  - rewrite (normalize_well_formed validate_datetime now v ln W).
    unfold ret at 1. cbv iota beta. rewrite model_dump_truthy. reflexivity.
  - fold single. destruct (normalize_ill_formed v ln W) as [-> | [e ->]];
      reflexivity.
Qed.

Lemma loop_lines (lines : list string) (ln : nat) (data : list dict)
  (stats : counters) :
  (loop ln lines (data, stats)).1
  = (data ++ normalized_lines json_loads now ln lines)%list.
Proof.
  revert ln data stats. induction lines as [|line rest IH];
    intros ln data stats.
  - simpl. rewrite app_nil_r. reflexivity.
  - unfold loop. cbn [normalize_loop normalized_lines].
    change (normalize_step json_loads validate_datetime now ln line
              (data, stats)) with (step ln line (data, stats)).
    rewrite step_line. fold loop.
    destruct (normalized_line json_loads now ln line) as [r|];
      rewrite IH; [rewrite <- app_assoc|]; reflexivity.
Qed.

(** X4. Whatever the input file holds, the normalized records are those of
    the lines that parse to a well-formed raw record (an object of source
    "mock" or "api" whose payload is an object with fields of the right
    types), in the order of the lines and stamped with the clock of their
    line; every other line, malformed or not, adds nothing.  [processed]
    counts the former and [skipped] the latter. *)
Theorem normalized_output (fs : files) (path : string)
  (lines : list string) :
  fs !! path = Some (Text lines) ->
  exists stats,
    _process_raw_data json_loads validate_datetime now fs path
    = ret (normalized_lines json_loads now 1 lines, stats)
    /\ stats !! "processed"
       = Some (length (normalized_lines json_loads now 1 lines))
    /\ stats !! "skipped"
       = Some (length lines
               - length (normalized_lines json_loads now 1 lines))%nat.
Proof.
  intros H.
  unfold _process_raw_data, read_lines. rewrite H. cbn [bind ret].
  destruct (loop_counts "skipped"
              (normalize_step json_loads validate_datetime now)
              (normalize_loop json_loads validate_datetime now)
              ltac:(discriminate)
              (fun ln st => eq_refl) (fun ln line rest st => eq_refl)
              (normalize_step_cases json_loads validate_datetime now)
              lines 1 []
              (<["processed" := 0%nat]> (<["skipped" := 0%nat]> ∅)) 0%nat
              0%nat (init_processed "skipped")
              (init_other "skipped" ltac:(discriminate)))
    as (added & stats & E & P & Q & _).
  pose proof (loop_lines lines 1 []
                (<["processed" := 0%nat]> (<["skipped" := 0%nat]> ∅))) as L.
  unfold loop in L. rewrite E in L. simpl in L. subst added.
  exists stats. rewrite E. auto.
Qed.
End NormalizedOutput.

Lemma normalized_output_witness :
  exists stats,
    _process_raw_data Env.json_loads Env.validate_datetime Env.now
      Env2.fs_mixed "in.jsonl"
    = ret (normalized_lines Env.json_loads Env.now 1
             ["mock"; "not json"; "api"], stats)
    /\ stats !! "processed"
       = Some (length (normalized_lines Env.json_loads Env.now 1
                         ["mock"; "not json"; "api"]))
    /\ stats !! "skipped"
       = Some (3 - length (normalized_lines Env.json_loads Env.now 1
                             ["mock"; "not json"; "api"]))%nat.
Proof.
  apply (normalized_output Env.json_loads Env.validate_datetime Env.now
           Env2.fs_mixed "in.jsonl" ["mock"; "not json"; "api"] eq_refl).
Defined.

(** ** More on the order of floats *)

Lemma SFcompare_Eq_trans (x y z : spec_float) :
  SFcompare x z = Some Eq -> SFcompare y z = Some Eq ->
  SFcompare x y = Some Eq.
Proof.
  destruct x as [sx|sx| |sx mx ex], y as [sy|sy| |sy my ey],
    z as [sz|sz| |sz mz ez]; simpl; try discriminate; try reflexivity;
    try (destruct sx, sy, sz; simpl; congruence);
    try (destruct sx; discriminate); try (destruct sy; discriminate).
  destruct sx, sz; try discriminate; destruct sy; try discriminate;
    destruct (ex ?= ez)%Z eqn:E1; try discriminate;
    destruct (ey ?= ez)%Z eqn:E2; try discriminate;
    apply Z.compare_eq_iff in E1, E2; subst;
    rewrite Z.compare_refl; intros H1 H2;
    injection H1 as H1; injection H2 as H2;
    try (apply (f_equal CompOpp) in H1, H2;
         rewrite CompOpp_involutive in H1, H2; simpl in H1, H2);
    apply Pos.compare_eq_iff in H1, H2; subst;
    rewrite Pos.compare_cont_refl; reflexivity.
Qed.

(** A float below another is not equal to what the other is equal to. *)
Lemma float_lt_neq (x y s : float) :
  (x =? s)%float = true -> (x <? y)%float = true -> (y =? s)%float = false.
Proof.
  rewrite !FloatAxioms.eqb_spec, FloatAxioms.ltb_spec.
  unfold SFeqb, SFltb. intros Hx Hlt.
  destruct (SFcompare (Prim2SF x) (Prim2SF s)) as [[]|] eqn:E1;
    try discriminate.
  destruct (SFcompare (Prim2SF y) (Prim2SF s)) as [[]|] eqn:E2;
    try reflexivity.
  rewrite (SFcompare_Eq_trans _ _ _ E1 E2) in Hlt. discriminate.
Qed.

Lemma float_le_not_lt (x y : float) :
  (y <=? x)%float = true -> (x <? y)%float = false.
Proof.
  rewrite FloatAxioms.ltb_spec, FloatAxioms.leb_spec. unfold SFltb, SFleb.
  destruct (SFcompare (Prim2SF y) (Prim2SF x)) as [c|] eqn:E;
    [|discriminate].
  rewrite (SFcompare_antisym _ _ _ E). destruct c; simpl; congruence.
Qed.

(** ** More on the ranker *)

Section RankerOrder.
Variable py_str : pyval -> string.
Variable str_to_float : string -> result float.
Variable sort_reverse : list (float * dict) -> list (float * dict).
Hypothesis Hsort : sorts_stably sort_reverse.

Let score := proxy_score py_str str_to_float.
Let top := top_10_ads py_str str_to_float sort_reverse.

Lemma keyed_raises (ads : list dict) (e : exn) :
  keyed py_str str_to_float ads = raise e ->
  exists ad, ad ∈ ads /\ score ad = raise e.
Proof.
  induction ads as [|ad ads IH]; simpl; [discriminate|].
  destruct (proxy_score py_str str_to_float ad) as [e'|k] eqn:E; simpl.
  - intros [= <-]. exists ad. split; [left|exact E].
  - destruct (keyed py_str str_to_float ads) as [e'|ks]; simpl;
      [|discriminate].
    intros [= <-]. destruct (IH eq_refl) as (a & Ha & Hs).
    exists a. split; [right; exact Ha|exact Hs].
Qed.

Lemma keyed_returns (ads : list dict) (ks : list (float * dict)) :
  keyed py_str str_to_float ads = ret ks ->
  forall ad, ad ∈ ads -> exists s, score ad = ret s.
Proof.
  revert ks. induction ads as [|ad ads IH]; intros ks; simpl.
  - intros _ a Ha. inversion Ha.
  - destruct (proxy_score py_str str_to_float ad) as [e'|k] eqn:E; simpl;
      [discriminate|].
    destruct (keyed py_str str_to_float ads) as [e'|ks'] eqn:K; simpl;
      [discriminate|].
    intros _ a Ha. apply elem_of_cons in Ha as [->|Ha].
    + exists k. exact E.
    + exact (IH ks' eq_refl a Ha).
Qed.

Lemma top_10_ads_keyed (ads : list dict) :
  match keyed py_str str_to_float ads with
  | inl e => top ads = raise e
  | inr ks =>
      top ads = ret (match ads with
                     | [] => []
                     | _ => take 10 (sort_reverse ks).*2
                     end)
  end.
Proof.
  destruct ads as [|ad ads]; [reflexivity|]. unfold top, top_10_ads.
  destruct (keyed py_str str_to_float (ad :: ads)); reflexivity.
Qed.

Lemma well_keyed_not_nan (l : list (float * dict)) :
  Forall (well_keyed py_str str_to_float) l ->
  Forall (fun p => is_nan p.1 = false) l.
Proof.
  intros H. eapply Forall_impl; [exact H|]. intros p Hp. exact (proj2 Hp).
Qed.

(** X5. The ranking raises exactly when the score of some record of the
    list raises, wherever the record stands in the list, and the exception
    is that of such a record; a record whose [duration_hours] is [None]
    is one. *)
Theorem top_10_ads_raises_iff (ads : list dict) :
  (raises (top ads) <-> exists ad, ad ∈ ads /\ raises (score ad))
  /\ (forall e, top ads = raise e ->
                exists ad, ad ∈ ads /\ score ad = raise e)
  /\ (forall ad, ad ∈ ads -> ad !! "duration_hours" = Some VNone ->
                 raises (top ads)).
Proof.
  assert (A : forall e, top ads = raise e ->
                        exists ad, ad ∈ ads /\ score ad = raise e).
  { intros e. pose proof (top_10_ads_keyed ads) as T.
    destruct (keyed py_str str_to_float ads) as [e'|ks] eqn:K; rewrite T;
      [|discriminate].
    intros [= <-]. exact (keyed_raises ads e' K). }
  assert (B : forall ad, ad ∈ ads -> raises (score ad) -> raises (top ads)).
  { intros ad Ha [e He]. pose proof (top_10_ads_keyed ads) as T.
    destruct (keyed py_str str_to_float ads) as [e'|ks] eqn:K.
    - exists e'. exact T.
    - destruct (keyed_returns ads ks K ad Ha) as [s Hs].
      rewrite Hs in He. discriminate He. }
  split; [split|split].
  - intros [e He]. destruct (A e He) as (ad & Ha & Hs).
    exists ad. split; [exact Ha|]. exists e. exact Hs.
  - intros (ad & Ha & Hr). exact (B ad Ha Hr).
  - exact A.
  - intros ad Ha Hd. apply (B ad Ha). exists TypeError.
    unfold score, proxy_score, dict_get. rewrite Hd. reflexivity.
Qed.

Lemma keyed_well_keyed (l : list (float * dict)) :
  Forall (well_keyed py_str str_to_float) l ->
  keyed py_str str_to_float l.*2 = ret l.
Proof.
  induction 1 as [|[k ad] l [Hk _] _ IH]; [reflexivity|].
  rewrite fmap_cons. cbn [keyed snd]. simpl in Hk. rewrite Hk.
  cbn [bind ret]. rewrite IH. reflexivity.
Qed.

Lemma sorted_desc_fixed (l : list (float * dict)) :
  Sorted ge_key l -> sorted_desc l = l.
Proof.
  induction 1 as [|x l Hs IH Hd]; [reflexivity|].
  simpl. rewrite IH. destruct Hd as [|y l Hxy]; [reflexivity|].
  simpl. rewrite (float_le_not_lt _ _ Hxy). reflexivity.
Qed.

Lemma top_10_ads_sorted (ks : list (float * dict)) :
  Forall (well_keyed py_str str_to_float) ks ->
  top ks.*2 = ret (take 10 (sorted_desc ks)).*2.
Proof.
  intros Hf. pose proof (top_10_ads_keyed ks.*2) as T.
  rewrite (keyed_well_keyed ks Hf) in T. rewrite T.
  rewrite (Hsort ks (well_keyed_not_nan ks Hf)).
  destruct ks; [reflexivity|]. rewrite fmap_take. reflexivity.
Qed.

(** What the ranking is made of, when every score is defined and not NaN. *)
Lemma top_10_ads_value (ads ranked : list dict) :
  (forall ad, ad ∈ ads -> exists s, score ad = ret s /\ is_nan s = false) ->
  top ads = ret ranked ->
  exists ks,
    keyed py_str str_to_float ads = ret ks /\ ks.*2 = ads
    /\ Forall (well_keyed py_str str_to_float) ks
    /\ ranked = (take 10 (sorted_desc ks)).*2.
Proof.
  intros H. destruct (keyed_defined py_str str_to_float ads H)
    as (ks & Hk & Hks & Hf).
  intros E. exists ks. repeat split; [exact Hk|exact Hks|exact Hf|].
  rewrite <- Hks, (top_10_ads_sorted ks Hf) in E.
  injection E as <-. reflexivity.
Qed.

(** X6. Ranking is idempotent: when every score is defined and not NaN, the
    ranking of a ranking is that ranking. *)
Theorem top_10_ads_idempotent (ads ranked : list dict) :
  (forall ad, ad ∈ ads -> exists s, score ad = ret s /\ is_nan s = false) ->
  top ads = ret ranked -> top ranked = ret ranked.
Proof.
  intros H E.
  destruct (top_10_ads_value ads ranked H E) as (ks & Hk & Hks & Hf & ->).
  set (l := take 10 (sorted_desc ks)).
  assert (Hl : Forall (well_keyed py_str str_to_float) l).
  { apply Forall_take. rewrite (sorted_desc_perm ks). exact Hf. }
  assert (Hs : Sorted ge_key l).
  { apply sorted_take, sorted_desc_sorted.
    eapply Forall_impl; [exact Hf|]. intros p Hp. exact (proj2 Hp). }
  rewrite (top_10_ads_sorted l Hl), (sorted_desc_fixed l Hs).
  rewrite take_ge by (unfold l; rewrite length_take; lia). reflexivity.
Qed.

Lemma filter_insert_desc (s : float) (x : float * dict)
  (l : list (float * dict)) :
  List.filter (fun p => (p.1 =? s)%float) (insert_desc x l)
  = List.filter (fun p => (p.1 =? s)%float) (x :: l).
Proof.
  induction l as [|y l IH]; [reflexivity|].
  cbn [insert_desc]. destruct (x.1 <? y.1)%float eqn:E; [|reflexivity].
  cbn [List.filter] in *. rewrite IH.
  destruct (x.1 =? s)%float eqn:Ex; [|reflexivity].
  rewrite (float_lt_neq _ _ _ Ex E). reflexivity.
Qed.

Lemma filter_sorted_desc (s : float) (l : list (float * dict)) :
  List.filter (fun p => (p.1 =? s)%float) (sorted_desc l)
  = List.filter (fun p => (p.1 =? s)%float) l.
Proof.
  induction l as [|x l IH]; [reflexivity|].
  simpl sorted_desc. rewrite filter_insert_desc. simpl. rewrite IH.
  reflexivity.
Qed.

Lemma filter_scores (s : float) (l : list (float * dict)) :
  Forall (well_keyed py_str str_to_float) l ->
  List.filter (scores py_str str_to_float s) l.*2
  = (List.filter (fun p => (p.1 =? s)%float) l).*2.
Proof.
  induction 1 as [|[k ad] l [Hk _] _ IH]; [reflexivity|].
  rewrite fmap_cons. cbn [List.filter fst snd]. simpl in Hk.
  unfold scores at 1. rewrite Hk. unfold ret.
  destruct (k =? s)%float; [rewrite fmap_cons|]; rewrite IH; reflexivity.
Qed.

Lemma filter_take_prefix {A} (f : A -> bool) (n : nat) (l : list A) :
  List.filter f (take n l) `prefix_of` List.filter f l.
Proof.
  exists (List.filter f (drop n l)).
  rewrite <- List.filter_app, take_drop. reflexivity.
Qed.

(** X7. Ranking is stable: when every score is defined and not NaN, the
    records of the ranking that have a given score are the first records
    of the list that have it, in the order of the list. *)
Theorem top_10_ads_stable (ads ranked : list dict) (s : float) :
  (forall ad, ad ∈ ads -> exists s, score ad = ret s /\ is_nan s = false) ->
  top ads = ret ranked ->
  List.filter (scores py_str str_to_float s) ranked
  `prefix_of` List.filter (scores py_str str_to_float s) ads.
Proof.
  intros H E.
  destruct (top_10_ads_value ads ranked H E) as (ks & Hk & Hks & Hf & ->).
  rewrite <- Hks.
  rewrite (filter_scores s ks Hf), <- (filter_sorted_desc s ks).
  rewrite <- filter_scores by (rewrite (sorted_desc_perm ks); exact Hf).
  rewrite fmap_take. apply filter_take_prefix.
Qed.
End RankerOrder.

(** Closed equations are checked by evaluating both sides. *)
Ltac by_evaluation :=
  lazymatch goal with |- _ = ?r => vm_cast_no_check (eq_refl r) end.

Lemma top_10_ads_idempotent_witness :
  exists ranked,
    top_10_ads Sample.py_str Sample.str_to_float sorted_desc Sample2.ads
    = ret ranked
    /\ top_10_ads Sample.py_str Sample.str_to_float sorted_desc ranked
       = ret ranked.
Proof.
  assert (E : top_10_ads Sample.py_str Sample.str_to_float sorted_desc
                Sample2.ads
              = ret [Sample.ad 3.0 "video-only"; Sample.ad 2.0 "image-only";
                     Sample.ad 1.0 "both"]) by by_evaluation.
  eexists. split; [exact E|].
  apply (top_10_ads_idempotent Sample.py_str Sample.str_to_float sorted_desc
           (fun ks _ => eq_refl) Sample2.ads); [|exact E].
  intros ad Had. unfold Sample2.ads in Had.
  rewrite !elem_of_cons, elem_of_nil in Had.
  destruct Had as [->|[->|[->|[]]]]; eexists; split; reflexivity.
Defined.

(** Thirteen records, record [i] scoring [i mod 4]: the ranking keeps ten of
    them, the records of one score in the order of the list, and of the
    four records that score 0 only the first. *)
Lemma ties_scores :
  forall ad, ad ∈ Sample2.ties ->
    exists s, proxy_score Sample.py_str Sample.str_to_float ad = ret s
              /\ is_nan s = false.
Proof.
  apply Forall_forall. unfold Sample2.ties.
  let l := eval vm_compute in (seqZ 0 13) in change (seqZ 0 13) with l.
  repeat first
    [ apply Forall_nil_2
    | apply Forall_cons_2; [eexists; split; vm_compute; reflexivity|] ].
Qed.

Lemma ties_ranking :
  top_10_ads Sample.py_str Sample.str_to_float sorted_desc Sample2.ties
  = ret (Sample2.tied <$> [3; 7; 11; 2; 6; 10; 1; 5; 9; 0]).
Proof. by_evaluation. Qed.

Lemma top_10_ads_stable_witness :
  let ranked := Sample2.tied <$> [3; 7; 11; 2; 6; 10; 1; 5; 9; 0] in
  let scores := scores Sample.py_str Sample.str_to_float in
  top_10_ads Sample.py_str Sample.str_to_float sorted_desc Sample2.ties
  = ret ranked
  /\ List.filter (scores 1.0%float) Sample2.ties = Sample2.tied <$> [1; 5; 9]
  /\ List.filter (scores 1.0%float) ranked = Sample2.tied <$> [1; 5; 9]
  /\ List.filter (scores 1.0%float) ranked
     `prefix_of` List.filter (scores 1.0%float) Sample2.ties
  /\ List.filter (scores 0.0%float) Sample2.ties
     = Sample2.tied <$> [0; 4; 8; 12]
  /\ List.filter (scores 0.0%float) ranked = [Sample2.tied 0]
  /\ List.filter (scores 0.0%float) ranked
     `prefix_of` List.filter (scores 0.0%float) Sample2.ties.
Proof.
  intros ranked scores.
  split; [exact ties_ranking|].
  split; [by_evaluation|]. split; [by_evaluation|].
  split.
  { exact (top_10_ads_stable Sample.py_str Sample.str_to_float sorted_desc
             (fun ks _ => eq_refl) Sample2.ties ranked 1.0%float ties_scores
             ties_ranking). }
  split; [by_evaluation|]. split; [by_evaluation|].
  exact (top_10_ads_stable Sample.py_str Sample.str_to_float sorted_desc
           (fun ks _ => eq_refl) Sample2.ties ranked 0.0%float ties_scores
           ties_ranking).
Defined.

(** ** Enrichment and the score *)

Lemma get_media_type_in_table (media_list : option (list string)) :
  is_Some (media_multipliers !! get_media_type media_list).
Proof.
  destruct media_list as [l|]; [|eexists; reflexivity].
  rewrite get_media_type_cases.
  destruct (bool_decide ("image" ∈ l)), (bool_decide ("video" ∈ l));
    eexists; reflexivity.
Qed.

Lemma search_group (w s : string) (g : option string) :
  unit_word w -> Re.search (qty_re w) s = Some g -> exists d, g = Some d.
Proof.
  intros Hw. induction s as [|c s IH]; rewrite (search_qty _ _ Hw).
  - simpl. discriminate.
  - destruct (qty_at w (String c s)) as [d|]; [|exact IH].
    intros [= <-]. exists d. reflexivity.
Qed.

Lemma quantity_error (w s : string) (e : exn) :
  unit_word w -> quantity (Re.search (qty_re w) s) = raise e ->
  e = ValueError.
Proof.
  intros Hw. destruct (Re.search (qty_re w) s) as [g|] eqn:E;
    [|discriminate].
  destruct (search_group w s g Hw E) as [d ->]. simpl. unfold py_int.
  destruct (_ <? _)%nat; [|discriminate]. unfold raise. congruence.
Qed.

Lemma int_to_float_error (n : Z) (e : exn) :
  int_to_float n = raise e -> e = OverflowError.
Proof.
  unfold int_to_float.
  destruct (binary_normalize prec emax n 0 false); unfold ret, raise;
    congruence.
Qed.

Lemma parse_duration_error (text : option string) (e : exn) :
  parse_duration text = raise e -> e = ValueError \/ e = OverflowError.
Proof.
  destruct text as [text|]; [|discriminate].
  rewrite parse_duration_unfold, hours_re_qty, minutes_re_qty.
  destruct (quantity (Re.search (qty_re "hr") text)) as [e'|X] eqn:E1.
  { intros [= <-]. left. exact (quantity_error _ _ _ unit_word_hr E1). }
  cbn [bind].
  destruct (quantity (Re.search (qty_re "min") text)) as [e'|Y] eqn:E2.
  { intros [= <-]. left. exact (quantity_error _ _ _ unit_word_min E2). }
  cbn [bind]. unfold hours_plus_minutes.
  destruct (int_to_float Y) as [e'|m] eqn:E3.
  { intros [= <-]. right. exact (int_to_float_error _ _ E3). }
  cbn [bind].
  destruct (int_to_float X) as [e'|h] eqn:E4; [|discriminate].
  intros [= <-]. right. exact (int_to_float_error _ _ E4).
Qed.

Section EnrichedScore.
Variable detect : string -> result string.
Variable py_str : pyval -> string.
Variable str_to_float : string -> result float.
Variable validate_datetime : pyval -> result datetime.
Variable now : nat -> datetime.
Hypothesis Hstr : forall s, py_str (VStr s) = s.

Let enrich := _enrich_single_record detect str_to_float validate_datetime now.

(** X8. The score of an enriched record is the duration parsed from the
    [active] text of its normalized record times the multiplier of the
    category of its [media] list; the category is always a key of the
    multiplier table, so the multiplier of an unknown category is never
    used for a record of the enrichment stage. *)
Theorem enriched_record_score (n : AdNormalizedSchema.t) (ln : nat)
  (r : dict) :
  enrich n ln = ret r ->
  exists d,
    parse_duration (AdNormalizedSchema.active n) = ret d
    /\ proxy_score py_str str_to_float r
       = ret (d * multiplier
                    (get_media_type (Some (AdNormalizedSchema.media n))))%float
    /\ media_multipliers
         !! get_media_type (Some (AdNormalizedSchema.media n))
       = Some (multiplier
                 (get_media_type (Some (AdNormalizedSchema.media n)))).
Proof.
  intros H. destruct (parse_duration (AdNormalizedSchema.active n))
    as [e|d] eqn:Hd.
  { unfold enrich, _enrich_single_record in H. rewrite Hd in H.
    discriminate H. }
  unfold enrich in H.
  rewrite (enrich_single_record_value detect str_to_float validate_datetime
             now n ln d Hd) in H.
  injection H as <-. exists d. split; [reflexivity|]. split.
  - unfold proxy_score, dict_get, AdEnrichedSchema.model_dump.
    simplify_map_eq. rewrite Hstr, multipliers_lookup. reflexivity.
  - rewrite <- multipliers_lookup.
    destruct (get_media_type_in_table
                (Some (AdNormalizedSchema.media n))) as [x ->].
    reflexivity.
Qed.

(** X9. Enrichment of a validated normalized record fails exactly when the
    parsing of its [active] text raises, with the same exception, and that
    exception is [ValueError] (a quantity that [int] refuses) or
    [OverflowError] (a quantity beyond the range of a float). *)
Theorem enrich_fails_iff (n : AdNormalizedSchema.t) (ln : nat) :
  (forall e, enrich n ln = raise e
             <-> parse_duration (AdNormalizedSchema.active n) = raise e)
  /\ (forall e, enrich n ln = raise e -> e = ValueError \/ e = OverflowError).
Proof.
  assert (A : forall e, enrich n ln = raise e
                        <-> parse_duration (AdNormalizedSchema.active n)
                            = raise e).
  { intros e.
    destruct (parse_duration (AdNormalizedSchema.active n)) as [e'|d] eqn:Hd.
    - unfold enrich, _enrich_single_record. rewrite Hd. cbn [bind].
      unfold raise. split; intros [= ->]; reflexivity.
    - unfold enrich.
      rewrite (enrich_single_record_value detect str_to_float
                 validate_datetime now n ln d Hd).
      split; discriminate. }
  split; [exact A|].
  intros e He. apply A in He. exact (parse_duration_error _ _ He).
Qed.
End EnrichedScore.

Lemma enriched_record_score_witness :
  exists d,
    parse_duration (AdNormalizedSchema.active Env.normalized_ad) = ret d
    /\ proxy_score Sample.py_str Sample.str_to_float
         (AdEnrichedSchema.model_dump
            {| AdEnrichedSchema.ad_id := "a1";
               AdEnrichedSchema.ad_text := "Hello World!";
               AdEnrichedSchema.active := Some "Active for 2 hrs 30 mins";
               AdEnrichedSchema.media := ["image"; "video"];
               AdEnrichedSchema.country := "US";
               AdEnrichedSchema.duration_hours := 2.5;
               AdEnrichedSchema.media_type := "both";
               AdEnrichedSchema.language := Some "en";
               AdEnrichedSchema.enriched_at := 1 |})
       = ret (d * multiplier
                    (get_media_type
                       (Some (AdNormalizedSchema.media Env.normalized_ad))))%float
    /\ media_multipliers
         !! get_media_type (Some (AdNormalizedSchema.media Env.normalized_ad))
       = Some (multiplier
                 (get_media_type
                    (Some (AdNormalizedSchema.media Env.normalized_ad)))).
Proof.
  apply (enriched_record_score Env.detect Sample.py_str Sample.str_to_float
           Env.validate_datetime Env.now (fun s => eq_refl)
           Env.normalized_ad 1).
  vm_compute. reflexivity.
Defined.

(** ** Letter case in duration texts *)

Lemma to_lower_digit (c : ascii) : is_digit (to_lower c) = is_digit c.
Proof. destruct c as [[] [] [] [] [] [] [] []]; reflexivity. Qed.

Lemma to_lower_space (c : ascii) : is_space (to_lower c) = is_space c.
Proof. destruct c as [[] [] [] [] [] [] [] []]; reflexivity. Qed.

Lemma to_lower_ichar (l c : ascii) : ichar l (to_lower c) = ichar l c.
Proof.
  unfold ichar. f_equal.
  destruct c as [[] [] [] [] [] [] [] []]; reflexivity.
Qed.

Lemma lower_app (a b : string) : lower (a ++ b) = lower a ++ lower b.
Proof. induction a as [|c a IH]; simpl; [|rewrite IH]; reflexivity. Qed.

Lemma lower_digits (d : string) : all_chars is_digit d = true -> lower d = d.
Proof.
  induction d as [|c d IH]; simpl; [reflexivity|].
  intros H. apply andb_true_iff in H as [Hc Hd].
  rewrite (to_lower_of_digit c Hc), (IH Hd). reflexivity.
Qed.

Lemma skip_lower (p : ascii -> bool) (s : string) :
  (forall c, p (to_lower c) = p c) -> skip p (lower s) = lower (skip p s).
Proof.
  intros Hp. induction s as [|c s IH]; simpl; [reflexivity|].
  rewrite Hp. destruct (p c); [exact IH|reflexivity].
Qed.

Lemma starts_with_i_lower (w s : string) :
  starts_with_i w (lower s) = starts_with_i w s.
Proof.
  revert s. induction w as [|l w IH]; intros [|c s]; simpl; try reflexivity.
  rewrite to_lower_ichar, IH. reflexivity.
Qed.

(** A text is its longest prefix in [p] followed by the rest. *)
Lemma split_skip (p : ascii -> bool) (s : string) :
  exists a, s = a ++ skip p s /\ all_chars p a = true.
Proof.
  induction s as [|c s (a & Ha & Hp)]; simpl.
  - exists "". split; reflexivity.
  - destruct (p c) eqn:E.
    + exists (String c a). split.
      * exact (f_equal (String c) Ha).
      * simpl. rewrite E, Hp. reflexivity.
    + exists "". split; reflexivity.
Qed.

Lemma qty_at_lower (w s : string) : qty_at w (lower s) = qty_at w s.
Proof.
  destruct s as [|c s0]; [reflexivity|].
  unfold qty_at. cbn [lower]. rewrite to_lower_digit.
  destruct (is_digit c) eqn:Ec; [|reflexivity]. cbv zeta.
  rewrite (skip_lower is_digit s0 to_lower_digit).
  rewrite (skip_lower is_space _ to_lower_space), starts_with_i_lower.
  destruct (starts_with_i w (skip is_space (skip is_digit s0)));
    [|reflexivity].
  f_equal. destruct (split_skip is_digit s0) as (a & Ha & Hp).
  rewrite (to_lower_of_digit c Ec).
  rewrite Ha at 1 3. rewrite lower_app, (lower_digits a Hp).
  change (String c (a ++ lower (skip is_digit s0)))
    with (String c a ++ lower (skip is_digit s0)).
  change (String c (a ++ skip is_digit s0))
    with (String c a ++ skip is_digit s0).
  rewrite !consumed_app. reflexivity.
Qed.

Lemma search_lower (w s : string) :
  unit_word w -> Re.search (qty_re w) (lower s) = Re.search (qty_re w) s.
Proof.
  intros Hw. induction s as [|c s IH].
  - reflexivity.
  - rewrite (search_qty w (lower (String c s)) Hw),
      (search_qty w (String c s) Hw), qty_at_lower.
    destruct (qty_at w (String c s)); [reflexivity|exact IH].
Qed.

Lemma parse_duration_lower (text : string) :
  parse_duration (Some (lower text)) = parse_duration (Some text).
Proof.
  rewrite !parse_duration_unfold, hours_re_qty, minutes_re_qty.
  rewrite (search_lower "hr" text unit_word_hr).
  rewrite (search_lower "min" text unit_word_min). reflexivity.
Qed.

(** X10. The duration read from a text does not depend on the case of its
    ASCII letters: two texts that are equal once their ASCII letters are
    put in lower case have the same duration, or raise the same
    exception. *)
Theorem parse_duration_ignores_case (a b : string) :
  lower a = lower b -> parse_duration (Some a) = parse_duration (Some b).
Proof.
  intros H. rewrite <- (parse_duration_lower a), <- (parse_duration_lower b).
  rewrite H. reflexivity.
Qed.

Lemma parse_duration_ignores_case_witness :
  parse_duration (Some "ACTIVE FOR 2 HRS 30 Mins")
  = parse_duration (Some "active for 2 hrs 30 mins").
Proof.
  apply parse_duration_ignores_case. reflexivity.
Defined.
